(** * GrVkCommandBuffer: a shallow embedding of src/gpu/vk/GrVkCommandBuffer.cpp

    The command buffers of the Vulkan backend are modelled as records, their
    methods as computations in a small state-and-error monad.  Every call
    that leaves the translation unit (a native Vulkan entry point reached
    through GR_VK_CALL, a method of a collaborating object) is appended to a
    log, and the device answers native calls through an oracle that may look
    at the whole history.  The model is the one of a debug build (SK_DEBUG):
    SkASSERT is checked and a failing assertion stops the computation. *)

From Stdlib Require Import ZArith List String Strings.Byte Bool Lia Permutation.
From stdpp Require Import base list.
Import ListNotations.

Local Open Scope Z_scope.

(** ** Bytes and 32-bit words

    [memcmp] and [memset] work on object representations, so the 32-bit
    scalars stored in the cached dynamic state (IEEE-754 binary32 floats,
    int32_t, uint32_t) are kept as their four bytes, least significant
    first. *)

Definition byte_of_Z (z : Z) : byte :=
  match Byte.of_N (Z.to_N (Z.land z 255)) with
  | Some b => b
  | None => x00
  end.

Definition Z_of_byte (b : byte) : Z := Z.of_N (Byte.to_N b).

Record word32 := W32 { byte0 : byte; byte1 : byte; byte2 : byte; byte3 : byte }.

Definition word32_of_Z (z : Z) : word32 :=
  W32 (byte_of_Z z) (byte_of_Z (Z.shiftr z 8))
      (byte_of_Z (Z.shiftr z 16)) (byte_of_Z (Z.shiftr z 24)).

Definition bytes_of_word32 (w : word32) : list byte :=
  [byte0 w; byte1 w; byte2 w; byte3 w].

(** [float], [int32_t] and [uint32_t] objects. *)
Abbreviation float := word32 (only parsing).
Abbreviation int32_t := word32 (only parsing).
Abbreviation uint32_t := word32 (only parsing).

(** The binary32 encoding: sign bit, biased exponent, 23-bit fraction. *)
Definition float_bits (sign : bool) (exponent fraction : Z) : float :=
  word32_of_Z (Z.lor (Z.lor (if sign then Z.shiftl 1 31 else 0)
                            (Z.shiftl exponent 23)) fraction).

(** -1.0f is sign 1, exponent 127, fraction 0 (0xBF800000); 0.0f is all zero. *)
Definition float_neg_one : float := float_bits true 127 0.
Definition float_zero : float := float_bits false 0 0.

(** [memcmp(a, b, n)]: the bytes are compared as unsigned char. *)
Fixpoint memcmp (a b : list byte) (n : nat) : Z :=
  match n, a, b with
  | S n', x :: a', y :: b' =>
      if Byte.eqb x y then memcmp a' b' n' else Z_of_byte x - Z_of_byte y
  | _, _, _ => 0
  end.

Arguments memcmp : simpl never.

(** ** Vulkan handles, constants and structures (vulkan.h) *)

Abbreviation VkHandle := Z (only parsing).
Definition VK_NULL_HANDLE : VkHandle := 0.

(** Address of a C++ object (a [GrVkResource*], a secondary buffer, an array
    handed through unchanged). *)
Abbreviation ptr := Z (only parsing).

Definition VK_SUCCESS : Z := 0.
Definition VK_NOT_READY : Z := 1.
Definition VK_TIMEOUT : Z := 2.
Definition VK_DEPENDENCY_BY_REGION_BIT : Z := 1.
Definition VK_PIPELINE_STAGE_ALL_COMMANDS_BIT : Z := 65536.
Definition VK_INDEX_TYPE_UINT16 : Z := 0.
Definition VK_PIPELINE_BIND_POINT_GRAPHICS : Z := 0.
Definition VK_SUBPASS_CONTENTS_INLINE : Z := 0.
Definition VK_SUBPASS_CONTENTS_SECONDARY_COMMAND_BUFFERS : Z := 1.
Definition VK_COMMAND_BUFFER_USAGE_ONE_TIME_SUBMIT_BIT : Z := 1.
Definition VK_COMMAND_BUFFER_USAGE_RENDER_PASS_CONTINUE_BIT : Z := 2.
Definition VK_IMAGE_ASPECT_COLOR_BIT : Z := 1.
Definition UINT64_MAX : Z := 18446744073709551615.
Definition INT_MAX : Z := 2147483647.

Record VkViewport := {
  vp_x : float; vp_y : float; vp_width : float; vp_height : float;
  vp_minDepth : float; vp_maxDepth : float }.

Record VkOffset2D := { off_x : int32_t; off_y : int32_t }.
Record VkExtent2D := { ext_width : uint32_t; ext_height : uint32_t }.
Record VkRect2D := { offset : VkOffset2D; extent : VkExtent2D }.

(** [const float blendConstants[4]]. *)
Record float4 := { fc0 : float; fc1 : float; fc2 : float; fc3 : float }.

Definition float4_set (i : nat) (v : float) (a : float4) : float4 :=
  match i with
  | 0%nat => {| fc0 := v; fc1 := fc1 a; fc2 := fc2 a; fc3 := fc3 a |}
  | 1%nat => {| fc0 := fc0 a; fc1 := v; fc2 := fc2 a; fc3 := fc3 a |}
  | 2%nat => {| fc0 := fc0 a; fc1 := fc1 a; fc2 := v; fc3 := fc3 a |}
  | 3%nat => {| fc0 := fc0 a; fc1 := fc1 a; fc2 := fc2 a; fc3 := v |}
  | _ => a
  end.

(** Object representations, and their sizes. *)
Definition bytes_of_VkViewport (v : VkViewport) : list byte :=
  bytes_of_word32 (vp_x v) ++ bytes_of_word32 (vp_y v) ++
  bytes_of_word32 (vp_width v) ++ bytes_of_word32 (vp_height v) ++
  bytes_of_word32 (vp_minDepth v) ++ bytes_of_word32 (vp_maxDepth v).

Definition bytes_of_VkRect2D (r : VkRect2D) : list byte :=
  bytes_of_word32 (off_x (offset r)) ++ bytes_of_word32 (off_y (offset r)) ++
  bytes_of_word32 (ext_width (extent r)) ++ bytes_of_word32 (ext_height (extent r)).

Definition bytes_of_float4 (a : float4) : list byte :=
  bytes_of_word32 (fc0 a) ++ bytes_of_word32 (fc1 a) ++
  bytes_of_word32 (fc2 a) ++ bytes_of_word32 (fc3 a).

Definition sizeof_float : nat := 4.
Definition sizeof_VkViewport : nat := 24.
Definition sizeof_VkRect2D : nat := 16.

(** [memset(&x, 0, sizeof x)]. *)
Definition zero_word32 : word32 := W32 x00 x00 x00 x00.
Definition zero_VkViewport : VkViewport :=
  {| vp_x := zero_word32; vp_y := zero_word32; vp_width := zero_word32;
     vp_height := zero_word32; vp_minDepth := zero_word32;
     vp_maxDepth := zero_word32 |}.
Definition zero_VkRect2D : VkRect2D :=
  {| offset := {| off_x := zero_word32; off_y := zero_word32 |};
     extent := {| ext_width := zero_word32; ext_height := zero_word32 |} |}.

Record VkBufferCopy := { srcOffset : Z; dstOffset : Z; size : Z }.

Record VkClearAttachment := {
  aspectMask : Z; colorAttachment : Z; clearValue : ptr }.

Record VkCommandBufferInheritanceInfo := {
  inh_renderPass : VkHandle; inh_subpass : Z; inh_framebuffer : VkHandle;
  inh_occlusionQueryEnable : bool; inh_queryFlags : Z;
  inh_pipelineStatistics : Z }.

Record VkCommandBufferBeginInfo := {
  cbi_flags : Z; cbi_pInheritanceInfo : option VkCommandBufferInheritanceInfo }.

Record VkRenderPassBeginInfo := {
  rpb_renderPass : VkHandle; rpb_framebuffer : VkHandle;
  rpb_renderArea : VkRect2D; rpb_clearValueCount : Z; rpb_pClearValues : ptr }.

Record VkSubmitInfo := {
  waitSemaphoreCount : Z; pWaitSemaphores : list VkHandle;
  pWaitDstStageMask : list Z;
  commandBufferCount : Z; pCommandBuffers : list VkHandle;
  signalSemaphoreCount : Z; pSignalSemaphores : list VkHandle }.

(** The two tracking lists of a command buffer. *)
Inductive TrackList := TrackedResources | TrackedRecycledResources.

(** ** Calls that leave the translation unit *)

Inductive call :=
(* native entry points, reached through GR_VK_CALL *)
| FreeCommandBuffers (device cmdPool : VkHandle) (count : Z) (cmdBuffer : VkHandle)
| ResetCommandBuffer (cmdBuffer : VkHandle) (flags : Z)
| CmdPipelineBarrier (cmdBuffer : VkHandle) (srcStageMask dstStageMask dependencyFlags : Z)
    (memoryBarriers bufferMemoryBarriers imageMemoryBarriers : list ptr)
| CmdBindVertexBuffers (cmdBuffer : VkHandle) (binding count : Z)
    (buffer : VkHandle) (offset : Z)
| CmdBindIndexBuffer (cmdBuffer buffer : VkHandle) (offset indexType : Z)
| CmdClearAttachments (cmdBuffer : VkHandle) (numAttachments : Z)
    (attachments : list VkClearAttachment) (numRects : Z) (clearRects : ptr)
| CmdBindDescriptorSets (cmdBuffer : VkHandle) (bindPoint : Z) (layout : VkHandle)
    (firstSet setCount : Z) (descriptorSets : ptr)
    (dynamicOffsetCount : Z) (dynamicOffsets : ptr)
| CmdBindPipeline (cmdBuffer : VkHandle) (bindPoint : Z) (pipeline : VkHandle)
| CmdDrawIndexed (cmdBuffer : VkHandle)
    (indexCount instanceCount firstIndex vertexOffset firstInstance : Z)
| CmdDraw (cmdBuffer : VkHandle)
    (vertexCount instanceCount firstVertex firstInstance : Z)
| CmdSetViewport (cmdBuffer : VkHandle) (firstViewport viewportCount : Z)
    (viewport : VkViewport)
| CmdSetScissor (cmdBuffer : VkHandle) (firstScissor scissorCount : Z)
    (scissor : VkRect2D)
| CmdSetBlendConstants (cmdBuffer : VkHandle) (blendConstants : float4)
| BeginCommandBuffer (cmdBuffer : VkHandle) (info : VkCommandBufferBeginInfo)
| EndCommandBuffer (cmdBuffer : VkHandle)
| CmdBeginRenderPass (cmdBuffer : VkHandle) (info : VkRenderPassBeginInfo)
    (contents : Z)
| CmdEndRenderPass (cmdBuffer : VkHandle)
| CmdExecuteCommands (cmdBuffer : VkHandle) (count : Z) (secondary : VkHandle)
| QueueSubmit (queue : VkHandle) (submitCount : Z) (info : VkSubmitInfo)
    (fence : VkHandle)
| CreateFence (device : VkHandle)
| ResetFences (device : VkHandle) (count : Z) (fence : VkHandle)
| WaitForFences (device : VkHandle) (count : Z) (fence : VkHandle)
    (waitAll : bool) (timeout : Z)
| DestroyFence (device fence : VkHandle)
| GetFenceStatus (device fence : VkHandle)
| CmdCopyImage (cmdBuffer srcImage : VkHandle) (srcLayout : Z)
    (dstImage : VkHandle) (dstLayout : Z) (regionCount : Z) (regions : ptr)
| CmdBlitImage (cmdBuffer srcImage : VkHandle) (srcLayout : Z)
    (dstImage : VkHandle) (dstLayout : Z) (regionCount : Z) (regions : ptr)
    (filter : Z)
| CmdCopyImageToBuffer (cmdBuffer srcImage : VkHandle) (srcLayout : Z)
    (dstBuffer : VkHandle) (regionCount : Z) (regions : ptr)
| CmdCopyBufferToImage (cmdBuffer srcBuffer dstImage : VkHandle) (dstLayout : Z)
    (regionCount : Z) (regions : ptr)
| CmdCopyBuffer (cmdBuffer srcBuffer dstBuffer : VkHandle) (regionCount : Z)
    (regions : list VkBufferCopy)
| CmdUpdateBuffer (cmdBuffer dstBuffer : VkHandle) (dstOffset dataSize : Z)
    (data : ptr)
| CmdClearColorImage (cmdBuffer image : VkHandle) (layout : Z) (color : ptr)
    (subRangeCount : Z) (subRanges : ptr)
| CmdClearDepthStencilImage (cmdBuffer image : VkHandle) (layout : Z) (color : ptr)
    (subRangeCount : Z) (subRanges : ptr)
| CmdResolveImage (cmdBuffer srcImage : VkHandle) (srcLayout : Z)
    (dstImage : VkHandle) (dstLayout : Z) (regionCount : Z) (regions : ptr)
(* GrVkResource / GrVkRecycledResource *)
| ResourceRef (r : ptr)
| ResourceUnref (r : ptr)
| ResourceRecycle (r : ptr)
| ResourceUnrefAndAbandon (r : ptr)
(* GrVkSemaphore::Resource *)
| AcquireMutex
| ReleaseMutex
| MarkAsSignaled (s : ptr)
| MarkAsWaited (s : ptr)
(* storage management of the tracking lists (SkTDArray) *)
| ArrayReset (a : TrackList)
| ArraySetReserve (a : TrackList) (n : Z)
| ArrayRewind (a : TrackList)
(* the rest *)
| SecondaryRef (buffer : ptr)
| RecycleSecondaryCommandBuffer (buffer : ptr)
| SkDebugf (format : string) (arg : Z).

(** What a native call hands back: its [VkResult] and, for [vkCreateFence],
    the handle written through the out-parameter. *)
Record response := { vkResult : Z; outHandle : VkHandle }.

(** [GrVkGpu]: the device, its command pool, and the Vulkan interface.  The
    answer to a native call may depend on every call made so far. *)
Record GrVkGpu := {
  vkInterface : list call -> call -> response;
  device : VkHandle;
  cmdPool : VkHandle }.

Inductive SyncQueue := kForce_SyncQueue | kSkip_SyncQueue.

(** ** Collaborating objects

    Only what this file reads of them.  A [GrVkResource] is known by its
    address; the objects below carry the values their accessors return. *)

(** [GrVkBuffer] and its subclasses [GrVkVertexBuffer], [GrVkIndexBuffer] and
    [GrVkTransferBuffer]: [buffer()], [offset()], [size()], [resource()]. *)
Record GrVkBuffer := {
  buf_buffer : VkHandle; buf_offset : Z; buf_size : Z; buf_resource : ptr }.

(** [GrVkImage]: [image()], [currentLayout()], [resource()]. *)
Record GrVkImage := {
  img_image : VkHandle; img_currentLayout : Z; img_resource : ptr }.

(** [GrVkPipeline] is itself a resource: [pipeline()]. *)
Record GrVkPipeline := { pl_this : ptr; pl_pipeline : VkHandle }.

(** [GrVkRenderPass] is itself a resource: [vkRenderPass()],
    [stencilAttachmentIndex(&i)], [colorAttachmentIndex(&i)] (the index when
    the call returns true) and [clearValueCount()]. *)
Record GrVkRenderPass := {
  rp_this : ptr;
  vkRenderPass : VkHandle;
  stencilAttachmentIndex : option Z;
  colorAttachmentIndex : option Z;
  clearValueCount : Z }.

(** [GrVkRenderTarget]: [framebuffer()->framebuffer()], and its resources.
    Modelled from the spec: [addResources] (GrVkRenderTarget.h is not part of
    the sources) makes the command buffer track the backing resources of the
    target. *)
Record GrVkRenderTarget := {
  rt_framebuffer : VkHandle; rt_resources : list ptr }.

(** [GrVkPipelineState]: its uniform resources.  Modelled from the spec:
    [addUniformResources] (GrVkPipelineState.h is not part of the sources)
    makes the command buffer track the uniform-backing resources of the
    pipeline state, plain and recycled. *)
Record GrVkPipelineState := {
  ps_resources : list ptr; ps_recycledResources : list ptr }.

Record SkIRect := { fLeft : Z; fTop : Z; fRight : Z; fBottom : Z }.

(** A pointer that may be null is an [option]; [if (p)] tests it. *)
Definition nonNull {A} (p : option A) : bool :=
  match p with
  | Some _ => true
  | None => false
  end.

Inductive BarrierType :=
  kMemory_BarrierType | kBufferMemory_BarrierType | kImageMemory_BarrierType.

(** ** Declarations of the headers

    GrVkCommandBuffer.h, GrVkSemaphore.h, GrVkRenderPass.h and GrVkUtil.h are
    not part of the sources.  What this file uses of them and cannot be read
    off the call sites is a parameter of the development. *)
Class Externals := {
  (** length of [fBoundInputBuffers] *)
  kMaxInputBuffers : Z;
  (** the full-reset threshold and the initial capacity of [reset] *)
  kNumRewindResetsBeforeFullReset : Z;
  kInitialTrackedResourcesCount : Z;
  (** the VkResult values that pass the check of GR_VK_CALL_ERRCHECK *)
  errcheck : Z -> bool;
  (** [GrVkSemaphore::Resource]: the state of all semaphores, and the
      methods called on one of them *)
  SemaphoreStore : Type;
  shouldSignal : SemaphoreStore -> ptr -> bool;
  shouldWait : SemaphoreStore -> ptr -> bool;
  markAsSignaled : ptr -> SemaphoreStore -> SemaphoreStore;
  markAsWaited : ptr -> SemaphoreStore -> SemaphoreStore;
  semaphore : SemaphoreStore -> ptr -> VkHandle;
  (** [GrVkRenderPass::isCompatible], with a target and with a render pass *)
  isCompatibleTarget : GrVkRenderPass -> GrVkRenderTarget -> bool;
  isCompatiblePass : GrVkRenderPass -> GrVkRenderPass -> bool }.

(** ** The command buffer *)

(** Modelled from the spec: SkTDArray (SkTDArray.h is not part of the
    sources), the container of the two tracking lists: its elements in
    order and the capacity of its backing storage. *)
Record SkTDArray := { items : list ptr; reserve : Z }.

Inductive BufferKind := Primary | Secondary.

(** The members that [GrVkPrimaryCommandBuffer] adds to the base class. *)
Record PrimaryFields := {
  fSubmitFence : VkHandle;
  fSecondaryCommandBuffers : list ptr }.

Definition Derived (k : BufferKind) : Type :=
  match k with
  | Primary => PrimaryFields
  | Secondary => unit
  end.

Record GrVkCommandBuffer (k : BufferKind) := {
  fIsActive : bool;
  fActiveRenderPass : option GrVkRenderPass;
  fCmdBuffer : VkHandle;
  fBoundInputBuffers : list VkHandle;
  fBoundIndexBuffer : VkHandle;
  fCachedViewport : VkViewport;
  fCachedScissor : VkRect2D;
  fCachedBlendConstant : float4;
  fTrackedResources : SkTDArray;
  fTrackedRecycledResources : SkTDArray;
  fNumResets : Z;
  derived : Derived k }.

Arguments fIsActive {k} _.
Arguments fActiveRenderPass {k} _.
Arguments fCmdBuffer {k} _.
Arguments fBoundInputBuffers {k} _.
Arguments fBoundIndexBuffer {k} _.
Arguments fCachedViewport {k} _.
Arguments fCachedScissor {k} _.
Arguments fCachedBlendConstant {k} _.
Arguments fTrackedResources {k} _.
Arguments fTrackedRecycledResources {k} _.
Arguments fNumResets {k} _.
Arguments derived {k} _.

Section Setters.
Context {k : BufferKind}.
Implicit Type cb : GrVkCommandBuffer k.

Definition set_fIsActive (v : bool) cb : GrVkCommandBuffer k :=
  {| fIsActive := v; fActiveRenderPass := fActiveRenderPass cb;
     fCmdBuffer := fCmdBuffer cb; fBoundInputBuffers := fBoundInputBuffers cb;
     fBoundIndexBuffer := fBoundIndexBuffer cb;
     fCachedViewport := fCachedViewport cb; fCachedScissor := fCachedScissor cb;
     fCachedBlendConstant := fCachedBlendConstant cb;
     fTrackedResources := fTrackedResources cb;
     fTrackedRecycledResources := fTrackedRecycledResources cb;
     fNumResets := fNumResets cb; derived := derived cb |}.

Definition set_fActiveRenderPass (v : option GrVkRenderPass) cb : GrVkCommandBuffer k :=
  {| fIsActive := fIsActive cb; fActiveRenderPass := v;
     fCmdBuffer := fCmdBuffer cb; fBoundInputBuffers := fBoundInputBuffers cb;
     fBoundIndexBuffer := fBoundIndexBuffer cb;
     fCachedViewport := fCachedViewport cb; fCachedScissor := fCachedScissor cb;
     fCachedBlendConstant := fCachedBlendConstant cb;
     fTrackedResources := fTrackedResources cb;
     fTrackedRecycledResources := fTrackedRecycledResources cb;
     fNumResets := fNumResets cb; derived := derived cb |}.

Definition set_fBoundInputBuffers (v : list VkHandle) cb : GrVkCommandBuffer k :=
  {| fIsActive := fIsActive cb; fActiveRenderPass := fActiveRenderPass cb;
     fCmdBuffer := fCmdBuffer cb; fBoundInputBuffers := v;
     fBoundIndexBuffer := fBoundIndexBuffer cb;
     fCachedViewport := fCachedViewport cb; fCachedScissor := fCachedScissor cb;
     fCachedBlendConstant := fCachedBlendConstant cb;
     fTrackedResources := fTrackedResources cb;
     fTrackedRecycledResources := fTrackedRecycledResources cb;
     fNumResets := fNumResets cb; derived := derived cb |}.

Definition set_fBoundIndexBuffer (v : VkHandle) cb : GrVkCommandBuffer k :=
  {| fIsActive := fIsActive cb; fActiveRenderPass := fActiveRenderPass cb;
     fCmdBuffer := fCmdBuffer cb; fBoundInputBuffers := fBoundInputBuffers cb;
     fBoundIndexBuffer := v;
     fCachedViewport := fCachedViewport cb; fCachedScissor := fCachedScissor cb;
     fCachedBlendConstant := fCachedBlendConstant cb;
     fTrackedResources := fTrackedResources cb;
     fTrackedRecycledResources := fTrackedRecycledResources cb;
     fNumResets := fNumResets cb; derived := derived cb |}.

Definition set_fCachedViewport (v : VkViewport) cb : GrVkCommandBuffer k :=
  {| fIsActive := fIsActive cb; fActiveRenderPass := fActiveRenderPass cb;
     fCmdBuffer := fCmdBuffer cb; fBoundInputBuffers := fBoundInputBuffers cb;
     fBoundIndexBuffer := fBoundIndexBuffer cb;
     fCachedViewport := v; fCachedScissor := fCachedScissor cb;
     fCachedBlendConstant := fCachedBlendConstant cb;
     fTrackedResources := fTrackedResources cb;
     fTrackedRecycledResources := fTrackedRecycledResources cb;
     fNumResets := fNumResets cb; derived := derived cb |}.

Definition set_fCachedScissor (v : VkRect2D) cb : GrVkCommandBuffer k :=
  {| fIsActive := fIsActive cb; fActiveRenderPass := fActiveRenderPass cb;
     fCmdBuffer := fCmdBuffer cb; fBoundInputBuffers := fBoundInputBuffers cb;
     fBoundIndexBuffer := fBoundIndexBuffer cb;
     fCachedViewport := fCachedViewport cb; fCachedScissor := v;
     fCachedBlendConstant := fCachedBlendConstant cb;
     fTrackedResources := fTrackedResources cb;
     fTrackedRecycledResources := fTrackedRecycledResources cb;
     fNumResets := fNumResets cb; derived := derived cb |}.

Definition set_fCachedBlendConstant (v : float4) cb : GrVkCommandBuffer k :=
  {| fIsActive := fIsActive cb; fActiveRenderPass := fActiveRenderPass cb;
     fCmdBuffer := fCmdBuffer cb; fBoundInputBuffers := fBoundInputBuffers cb;
     fBoundIndexBuffer := fBoundIndexBuffer cb;
     fCachedViewport := fCachedViewport cb; fCachedScissor := fCachedScissor cb;
     fCachedBlendConstant := v;
     fTrackedResources := fTrackedResources cb;
     fTrackedRecycledResources := fTrackedRecycledResources cb;
     fNumResets := fNumResets cb; derived := derived cb |}.

Definition set_fTrackedResources (v : SkTDArray) cb : GrVkCommandBuffer k :=
  {| fIsActive := fIsActive cb; fActiveRenderPass := fActiveRenderPass cb;
     fCmdBuffer := fCmdBuffer cb; fBoundInputBuffers := fBoundInputBuffers cb;
     fBoundIndexBuffer := fBoundIndexBuffer cb;
     fCachedViewport := fCachedViewport cb; fCachedScissor := fCachedScissor cb;
     fCachedBlendConstant := fCachedBlendConstant cb;
     fTrackedResources := v;
     fTrackedRecycledResources := fTrackedRecycledResources cb;
     fNumResets := fNumResets cb; derived := derived cb |}.

Definition set_fTrackedRecycledResources (v : SkTDArray) cb : GrVkCommandBuffer k :=
  {| fIsActive := fIsActive cb; fActiveRenderPass := fActiveRenderPass cb;
     fCmdBuffer := fCmdBuffer cb; fBoundInputBuffers := fBoundInputBuffers cb;
     fBoundIndexBuffer := fBoundIndexBuffer cb;
     fCachedViewport := fCachedViewport cb; fCachedScissor := fCachedScissor cb;
     fCachedBlendConstant := fCachedBlendConstant cb;
     fTrackedResources := fTrackedResources cb;
     fTrackedRecycledResources := v;
     fNumResets := fNumResets cb; derived := derived cb |}.

Definition set_fNumResets (v : Z) cb : GrVkCommandBuffer k :=
  {| fIsActive := fIsActive cb; fActiveRenderPass := fActiveRenderPass cb;
     fCmdBuffer := fCmdBuffer cb; fBoundInputBuffers := fBoundInputBuffers cb;
     fBoundIndexBuffer := fBoundIndexBuffer cb;
     fCachedViewport := fCachedViewport cb; fCachedScissor := fCachedScissor cb;
     fCachedBlendConstant := fCachedBlendConstant cb;
     fTrackedResources := fTrackedResources cb;
     fTrackedRecycledResources := fTrackedRecycledResources cb;
     fNumResets := v; derived := derived cb |}.

Definition set_derived (v : Derived k) cb : GrVkCommandBuffer k :=
  {| fIsActive := fIsActive cb; fActiveRenderPass := fActiveRenderPass cb;
     fCmdBuffer := fCmdBuffer cb; fBoundInputBuffers := fBoundInputBuffers cb;
     fBoundIndexBuffer := fBoundIndexBuffer cb;
     fCachedViewport := fCachedViewport cb; fCachedScissor := fCachedScissor cb;
     fCachedBlendConstant := fCachedBlendConstant cb;
     fTrackedResources := fTrackedResources cb;
     fTrackedRecycledResources := fTrackedRecycledResources cb;
     fNumResets := fNumResets cb; derived := v |}.
End Setters.

(** The tracking list named by a [TrackList]. *)
Definition trackList {k} (a : TrackList) (cb : GrVkCommandBuffer k) : SkTDArray :=
  match a with
  | TrackedResources => fTrackedResources cb
  | TrackedRecycledResources => fTrackedRecycledResources cb
  end.

Definition set_trackList {k} (a : TrackList) (v : SkTDArray)
    (cb : GrVkCommandBuffer k) : GrVkCommandBuffer k :=
  match a with
  | TrackedResources => set_fTrackedResources v cb
  | TrackedRecycledResources => set_fTrackedRecycledResources v cb
  end.

(** ** The monad: state, log, failure *)

Inductive outcome (A : Type) : Type :=
| Ok (a : A)
| AssertFailed (expr : string)   (* a failing SkASSERT, named by its text *)
| Aborted (msg : string)         (* SK_ABORT *)
| Undefined (what : string).     (* undefined behaviour of C++ *)

Arguments Ok {A} a.
Arguments AssertFailed {A} expr.
Arguments Aborted {A} msg.
Arguments Undefined {A} what.

Section Model.
Context {ext : Externals}.

(** What a method sees: the buffer it is called on, the semaphores, and the
    calls made so far. *)
Record World (k : BufferKind) := {
  self : GrVkCommandBuffer k;
  sems : SemaphoreStore;
  calls : list call }.

Arguments self {k} _.
Arguments sems {k} _.
Arguments calls {k} _.

Definition M (k : BufferKind) (A : Type) : Type :=
  World k -> outcome (A * World k).

Definition ret {k A} (a : A) : M k A := fun w => Ok (a, w).

Definition bind {k A B} (m : M k A) (f : A -> M k B) : M k B :=
  fun w =>
    match m w with
    | Ok (a, w') => f a w'
    | AssertFailed e => AssertFailed e
    | Aborted e => Aborted e
    | Undefined e => Undefined e
    end.

#[local] Notation "x <- m ;; f" := (bind m (fun x => f))
  (at level 100, m at next level, f at level 200, right associativity).
#[local] Notation "m ;;; f" := (bind m (fun _ => f))
  (at level 100, f at level 200, right associativity).

Definition getSelf {k} : M k (GrVkCommandBuffer k) := fun w => Ok (self w, w).

Definition getSems {k} : M k SemaphoreStore := fun w => Ok (sems w, w).

Definition modifySelf {k} (f : GrVkCommandBuffer k -> GrVkCommandBuffer k) : M k unit :=
  fun w => Ok (tt, {| self := f (self w); sems := sems w; calls := calls w |}).

Definition modifySems {k} (f : SemaphoreStore -> SemaphoreStore) : M k unit :=
  fun w => Ok (tt, {| self := self w; sems := f (sems w); calls := calls w |}).

(** A call on a collaborating object: logged, nothing comes back. *)
Definition invoke {k} (c : call) : M k unit :=
  fun w => Ok (tt, {| self := self w; sems := sems w; calls := calls w ++ [c] |}).

(** [GR_VK_CALL(gpu->vkInterface(), X)]: logged, answered by the device. *)
Definition GR_VK_CALL {k} (gpu : GrVkGpu) (c : call) : M k response :=
  fun w => Ok (vkInterface gpu (calls w) c,
               {| self := self w; sems := sems w; calls := calls w ++ [c] |}).

Definition SkASSERT {k} (expr : string) (cond : bool) : M k unit :=
  fun w => if cond then Ok (tt, w) else AssertFailed expr.

Definition SK_ABORT {k A} (msg : string) : M k A := fun _ => Aborted msg.

Definition undefinedBehaviour {k A} (what : string) : M k A := fun _ => Undefined what.

(** [GR_VK_CALL_ERRCHECK]: the call, then the check of its result. *)
Definition GR_VK_CALL_ERRCHECK {k} (gpu : GrVkGpu) (c : call) : M k unit :=
  r <- GR_VK_CALL gpu c ;;
  SkASSERT "GR_VK_CALL_ERRCHECK" (errcheck (vkResult r)).

(** [for (int i = 0; i < l.count(); ++i) body(l[i])]. *)
Fixpoint forEach {k A} (l : list A) (body : A -> M k unit) : M k unit :=
  match l with
  | [] => ret tt
  | x :: l' => body x ;;; forEach l' body
  end.

(** ** GrVkCommandBuffer (base class) *)

(** Modelled from the spec: SkTDArray (SkTDArray.h is not part of the
    sources).  Appending keeps the order and grows the storage when it is
    full; [reset] deallocates; [setReserve] makes room for at least [n]
    elements; [rewind] sets the length to zero and keeps the storage.  The
    three storage operations are logged. *)
Definition td_append (r : ptr) (a : SkTDArray) : SkTDArray :=
  {| items := items a ++ [r];
     reserve := Z.max (reserve a) (Z.of_nat (length (items a)) + 1) |}.

Definition arrayReset {k} (a : TrackList) : M k unit :=
  invoke (ArrayReset a) ;;;
  modifySelf (set_trackList a {| items := []; reserve := 0 |}).

Definition arraySetReserve {k} (a : TrackList) (n : Z) : M k unit :=
  invoke (ArraySetReserve a n) ;;;
  modifySelf (fun cb =>
    set_trackList a {| items := items (trackList a cb);
                       reserve := Z.max (reserve (trackList a cb)) n |} cb).

Definition arrayRewind {k} (a : TrackList) : M k unit :=
  invoke (ArrayRewind a) ;;;
  modifySelf (fun cb =>
    set_trackList a {| items := []; reserve := reserve (trackList a cb) |} cb).

(** Modelled from the spec: addResource and addRecycledResource, defined in
    GrVkCommandBuffer.h, which is not part of the sources: acquire a strong
    reference and append; duplicates are allowed. *)
Definition addResource {k} (r : ptr) : M k unit :=
  invoke (ResourceRef r) ;;;
  modifySelf (fun cb => set_fTrackedResources (td_append r (fTrackedResources cb)) cb).

Definition addRecycledResource {k} (r : ptr) : M k unit :=
  invoke (ResourceRef r) ;;;
  modifySelf (fun cb =>
    set_fTrackedRecycledResources (td_append r (fTrackedRecycledResources cb)) cb).

Definition set_vp_width (v : float) (vp : VkViewport) : VkViewport :=
  {| vp_x := vp_x vp; vp_y := vp_y vp; vp_width := v; vp_height := vp_height vp;
     vp_minDepth := vp_minDepth vp; vp_maxDepth := vp_maxDepth vp |}.

Definition set_offset_x (v : int32_t) (r : VkRect2D) : VkRect2D :=
  {| offset := {| off_x := v; off_y := off_y (offset r) |}; extent := extent r |}.

Definition invalidateState {k} : M k unit :=
  modifySelf (fun cb =>
    set_fBoundInputBuffers
      (List.map (fun _ => VK_NULL_HANDLE) (fBoundInputBuffers cb)) cb) ;;;
  modifySelf (set_fBoundIndexBuffer VK_NULL_HANDLE) ;;;
  modifySelf (set_fCachedViewport zero_VkViewport) ;;;
  (* Viewport must have a width greater than 0 *)
  modifySelf (fun cb =>
    set_fCachedViewport (set_vp_width float_neg_one (fCachedViewport cb)) cb) ;;;
  modifySelf (set_fCachedScissor zero_VkRect2D) ;;;
  (* Scissor offset must be greater that 0 to be valid *)
  modifySelf (fun cb =>
    set_fCachedScissor (set_offset_x (word32_of_Z (-1)) (fCachedScissor cb)) cb) ;;;
  forEach (seq 0 4) (fun i =>
    modifySelf (fun cb =>
      set_fCachedBlendConstant
        (float4_set i float_neg_one (fCachedBlendConstant cb)) cb)).

(** *** The per-kind hooks

    [onReset] and [onFreeGPUData] are virtual.  The primary command buffer
    overrides both in this file. *)

Definition primary (cb : GrVkCommandBuffer Primary) : PrimaryFields := derived cb.

Definition set_fSubmitFence (v : VkHandle) (cb : GrVkCommandBuffer Primary)
    : GrVkCommandBuffer Primary :=
  set_derived (k := Primary)
    {| fSubmitFence := v;
       fSecondaryCommandBuffers := fSecondaryCommandBuffers (primary cb) |} cb.

Definition set_fSecondaryCommandBuffers (v : list ptr) (cb : GrVkCommandBuffer Primary)
    : GrVkCommandBuffer Primary :=
  set_derived (k := Primary)
    {| fSubmitFence := fSubmitFence (primary cb);
       fSecondaryCommandBuffers := v |} cb.

Definition Primary_onReset (gpu : GrVkGpu) : M Primary unit :=
  cb <- getSelf ;;
  forEach (fSecondaryCommandBuffers (primary cb))
    (fun b => invoke (RecycleSecondaryCommandBuffer b)) ;;;
  modifySelf (set_fSecondaryCommandBuffers []).

Definition Primary_onFreeGPUData (gpu : GrVkGpu) : M Primary unit :=
  cb <- getSelf ;;
  SkASSERT "!fActiveRenderPass" (negb (nonNull (fActiveRenderPass cb))) ;;;
  (* Destroy the fence, if any *)
  if negb (fSubmitFence (primary cb) =? VK_NULL_HANDLE) then
    _ <- GR_VK_CALL gpu (DestroyFence (device gpu) (fSubmitFence (primary cb))) ;;
    ret tt
  else ret tt.

(** Modelled from the spec: the hooks of a secondary command buffer (declared
    in GrVkCommandBuffer.h, which is not part of the sources) add nothing:
    only the primary returns its secondary buffers and destroys its fence. *)
Definition onReset {k} (gpu : GrVkGpu) : M k unit :=
  match k return M k unit with
  | Primary => Primary_onReset gpu
  | Secondary => ret tt
  end.

Definition onFreeGPUData {k} (gpu : GrVkGpu) : M k unit :=
  match k return M k unit with
  | Primary => Primary_onFreeGPUData gpu
  | Secondary => ret tt
  end.

Definition freeGPUData {k} (gpu : GrVkGpu) : M k unit :=
  cb <- getSelf ;;
  SkASSERT "!fIsActive" (negb (fIsActive cb)) ;;;
  forEach (items (fTrackedResources cb)) (fun r => invoke (ResourceUnref r)) ;;;
  forEach (items (fTrackedRecycledResources cb)) (fun r => invoke (ResourceRecycle r)) ;;;
  _ <- GR_VK_CALL gpu (FreeCommandBuffers (device gpu) (cmdPool gpu) 1 (fCmdBuffer cb)) ;;
  onFreeGPUData gpu.

Definition abandonGPUData {k} : M k unit :=
  cb <- getSelf ;;
  forEach (items (fTrackedResources cb))
    (fun r => invoke (ResourceUnrefAndAbandon r)) ;;;
  (* We don't recycle resources when abandoning them. *)
  forEach (items (fTrackedRecycledResources cb))
    (fun r => invoke (ResourceUnrefAndAbandon r)).

(** [++fNumResets] on an [int]: overflow is undefined. *)
Definition preIncrement_fNumResets {k} : M k Z :=
  cb <- getSelf ;;
  if INT_MAX <=? fNumResets cb then undefinedBehaviour "++fNumResets"
  else
    modifySelf (set_fNumResets (fNumResets cb + 1)) ;;;
    ret (fNumResets cb + 1).

Definition reset {k} (gpu : GrVkGpu) : M k unit :=
  cb <- getSelf ;;
  SkASSERT "!fIsActive" (negb (fIsActive cb)) ;;;
  forEach (items (fTrackedResources cb)) (fun r => invoke (ResourceUnref r)) ;;;
  forEach (items (fTrackedRecycledResources cb)) (fun r => invoke (ResourceRecycle r)) ;;;
  n <- preIncrement_fNumResets ;;
  (if n >? kNumRewindResetsBeforeFullReset then
     arrayReset TrackedResources ;;;
     arrayReset TrackedRecycledResources ;;;
     arraySetReserve TrackedResources kInitialTrackedResourcesCount ;;;
     arraySetReserve TrackedRecycledResources kInitialTrackedResourcesCount ;;;
     modifySelf (set_fNumResets 0)
   else
     arrayRewind TrackedResources ;;;
     arrayRewind TrackedRecycledResources) ;;;
  invalidateState ;;;
  (* we will retain resources for later use *)
  let flags := 0 in
  _ <- GR_VK_CALL gpu (ResetCommandBuffer (fCmdBuffer cb) flags) ;;
  onReset gpu.

(** *** CommandBuffer commands *)

Definition pipelineBarrier {k} (gpu : GrVkGpu) (srcStageMask dstStageMask : Z)
    (byRegion : bool) (barrierType : BarrierType) (barrier : ptr) : M k unit :=
  cb <- getSelf ;;
  SkASSERT "fIsActive" (fIsActive cb) ;;;
  SkASSERT "!fActiveRenderPass" (negb (nonNull (fActiveRenderPass cb))) ;;;
  let dependencyFlags := if byRegion then VK_DEPENDENCY_BY_REGION_BIT else 0 in
  match barrierType with
  | kMemory_BarrierType =>
      _ <- GR_VK_CALL gpu (CmdPipelineBarrier (fCmdBuffer cb) srcStageMask dstStageMask
                             dependencyFlags [barrier] [] []) ;;
      ret tt
  | kBufferMemory_BarrierType =>
      _ <- GR_VK_CALL gpu (CmdPipelineBarrier (fCmdBuffer cb) srcStageMask dstStageMask
                             dependencyFlags [] [barrier] []) ;;
      ret tt
  | kImageMemory_BarrierType =>
      _ <- GR_VK_CALL gpu (CmdPipelineBarrier (fCmdBuffer cb) srcStageMask dstStageMask
                             dependencyFlags [] [] [barrier]) ;;
      ret tt
  end.

(** [binding] is a [uint32_t]. *)
Definition bindInputBuffer {k} (gpu : GrVkGpu) (binding : N) (vbuffer : GrVkBuffer)
    : M k unit :=
  let vkBuffer := buf_buffer vbuffer in
  SkASSERT "VK_NULL_HANDLE != vkBuffer" (negb (VK_NULL_HANDLE =? vkBuffer)) ;;;
  SkASSERT "binding < kMaxInputBuffers" (Z.of_N binding <? kMaxInputBuffers) ;;;
  cb <- getSelf ;;
  match fBoundInputBuffers cb !! N.to_nat binding with
  | None => undefinedBehaviour "fBoundInputBuffers[binding]"
  | Some bound =>
      if negb (vkBuffer =? bound) then
        let offset := buf_offset vbuffer in
        _ <- GR_VK_CALL gpu (CmdBindVertexBuffers (fCmdBuffer cb) (Z.of_N binding) 1
                               vkBuffer offset) ;;
        modifySelf (fun cb =>
          set_fBoundInputBuffers
            (<[N.to_nat binding := vkBuffer]> (fBoundInputBuffers cb)) cb) ;;;
        addResource (buf_resource vbuffer)
      else ret tt
  end.

Definition bindIndexBuffer {k} (gpu : GrVkGpu) (ibuffer : GrVkBuffer) : M k unit :=
  let vkBuffer := buf_buffer ibuffer in
  SkASSERT "VK_NULL_HANDLE != vkBuffer" (negb (VK_NULL_HANDLE =? vkBuffer)) ;;;
  cb <- getSelf ;;
  if negb (vkBuffer =? fBoundIndexBuffer cb) then
    _ <- GR_VK_CALL gpu (CmdBindIndexBuffer (fCmdBuffer cb) vkBuffer
                           (buf_offset ibuffer) VK_INDEX_TYPE_UINT16) ;;
    modifySelf (set_fBoundIndexBuffer vkBuffer) ;;;
    addResource (buf_resource ibuffer)
  else ret tt.

Definition clearAttachments {k} (gpu : GrVkGpu) (numAttachments : Z)
    (attachments : list VkClearAttachment) (numRects : Z) (clearRects : ptr)
    : M k unit :=
  cb <- getSelf ;;
  SkASSERT "fIsActive" (fIsActive cb) ;;;
  SkASSERT "fActiveRenderPass" (nonNull (fActiveRenderPass cb)) ;;;
  SkASSERT "numAttachments > 0" (numAttachments >? 0) ;;;
  SkASSERT "numRects > 0" (numRects >? 0) ;;;
  (* #ifdef SK_DEBUG *)
  forEach (seq 0 (Z.to_nat numAttachments)) (fun i =>
    match attachments !! i, fActiveRenderPass cb with
    | Some a, Some rp =>
        if aspectMask a =? VK_IMAGE_ASPECT_COLOR_BIT then
          match colorAttachmentIndex rp with
          | Some testIndex =>
              SkASSERT "testIndex == attachments[i].colorAttachment"
                       (testIndex =? colorAttachment a)
          | None =>
              SkASSERT "fActiveRenderPass->colorAttachmentIndex(&testIndex)" false
          end
        else ret tt
    | None, _ => undefinedBehaviour "attachments[i]"
    | _, None => undefinedBehaviour "fActiveRenderPass->"
    end) ;;;
  _ <- GR_VK_CALL gpu (CmdClearAttachments (fCmdBuffer cb) numAttachments attachments
                         numRects clearRects) ;;
  ret tt.

(** The variant that takes its resources from the pipeline state. *)
Definition bindDescriptorSets_pipelineState {k} (gpu : GrVkGpu)
    (pipelineState : GrVkPipelineState) (layout : VkHandle) (firstSet setCount : Z)
    (descriptorSets : ptr) (dynamicOffsetCount : Z) (dynamicOffsets : ptr)
    : M k unit :=
  cb <- getSelf ;;
  SkASSERT "fIsActive" (fIsActive cb) ;;;
  _ <- GR_VK_CALL gpu (CmdBindDescriptorSets (fCmdBuffer cb)
                         VK_PIPELINE_BIND_POINT_GRAPHICS layout firstSet setCount
                         descriptorSets dynamicOffsetCount dynamicOffsets) ;;
  (* pipelineState->addUniformResources( *this ) *)
  forEach (ps_resources pipelineState) addResource ;;;
  forEach (ps_recycledResources pipelineState) addRecycledResource.

(** The variant that is handed its resources. *)
Definition bindDescriptorSets {k} (gpu : GrVkGpu) (recycled resources : list ptr)
    (layout : VkHandle) (firstSet setCount : Z) (descriptorSets : ptr)
    (dynamicOffsetCount : Z) (dynamicOffsets : ptr) : M k unit :=
  cb <- getSelf ;;
  SkASSERT "fIsActive" (fIsActive cb) ;;;
  _ <- GR_VK_CALL gpu (CmdBindDescriptorSets (fCmdBuffer cb)
                         VK_PIPELINE_BIND_POINT_GRAPHICS layout firstSet setCount
                         descriptorSets dynamicOffsetCount dynamicOffsets) ;;
  forEach recycled addRecycledResource ;;;
  forEach resources addResource.

Definition bindPipeline {k} (gpu : GrVkGpu) (pipeline : GrVkPipeline) : M k unit :=
  cb <- getSelf ;;
  SkASSERT "fIsActive" (fIsActive cb) ;;;
  _ <- GR_VK_CALL gpu (CmdBindPipeline (fCmdBuffer cb) VK_PIPELINE_BIND_POINT_GRAPHICS
                         (pl_pipeline pipeline)) ;;
  addResource (pl_this pipeline).

Definition drawIndexed {k} (gpu : GrVkGpu)
    (indexCount instanceCount firstIndex vertexOffset firstInstance : Z) : M k unit :=
  cb <- getSelf ;;
  SkASSERT "fIsActive" (fIsActive cb) ;;;
  SkASSERT "fActiveRenderPass" (nonNull (fActiveRenderPass cb)) ;;;
  _ <- GR_VK_CALL gpu (CmdDrawIndexed (fCmdBuffer cb) indexCount instanceCount
                         firstIndex vertexOffset firstInstance) ;;
  ret tt.

Definition draw {k} (gpu : GrVkGpu)
    (vertexCount instanceCount firstVertex firstInstance : Z) : M k unit :=
  cb <- getSelf ;;
  SkASSERT "fIsActive" (fIsActive cb) ;;;
  SkASSERT "fActiveRenderPass" (nonNull (fActiveRenderPass cb)) ;;;
  _ <- GR_VK_CALL gpu (CmdDraw (fCmdBuffer cb) vertexCount instanceCount
                         firstVertex firstInstance) ;;
  ret tt.

(** [viewports] points to [viewportCount] viewports, and the count is
    asserted to be one: the argument is that viewport.  The same holds for
    [setScissor]. *)
Definition setViewport {k} (gpu : GrVkGpu) (firstViewport viewportCount : Z)
    (viewports : VkViewport) : M k unit :=
  cb <- getSelf ;;
  SkASSERT "fIsActive" (fIsActive cb) ;;;
  SkASSERT "1 == viewportCount" (1 =? viewportCount) ;;;
  if negb (memcmp (bytes_of_VkViewport viewports)
                  (bytes_of_VkViewport (fCachedViewport cb))
                  sizeof_VkViewport =? 0) then
    _ <- GR_VK_CALL gpu (CmdSetViewport (fCmdBuffer cb) firstViewport viewportCount
                           viewports) ;;
    modifySelf (set_fCachedViewport viewports)
  else ret tt.

Definition setScissor {k} (gpu : GrVkGpu) (firstScissor scissorCount : Z)
    (scissors : VkRect2D) : M k unit :=
  cb <- getSelf ;;
  SkASSERT "fIsActive" (fIsActive cb) ;;;
  SkASSERT "1 == scissorCount" (1 =? scissorCount) ;;;
  if negb (memcmp (bytes_of_VkRect2D scissors)
                  (bytes_of_VkRect2D (fCachedScissor cb))
                  sizeof_VkRect2D =? 0) then
    _ <- GR_VK_CALL gpu (CmdSetScissor (fCmdBuffer cb) firstScissor scissorCount
                           scissors) ;;
    modifySelf (set_fCachedScissor scissors)
  else ret tt.

Definition setBlendConstants {k} (gpu : GrVkGpu) (blendConstants : float4) : M k unit :=
  cb <- getSelf ;;
  SkASSERT "fIsActive" (fIsActive cb) ;;;
  if negb (memcmp (bytes_of_float4 blendConstants)
                  (bytes_of_float4 (fCachedBlendConstant cb))
                  (4 * sizeof_float) =? 0) then
    _ <- GR_VK_CALL gpu (CmdSetBlendConstants (fCmdBuffer cb) blendConstants) ;;
    modifySelf (set_fCachedBlendConstant blendConstants)
  else ret tt.

(** ** GrVkPrimaryCommandBuffer *)

Definition Primary_begin (gpu : GrVkGpu) : M Primary unit :=
  cb <- getSelf ;;
  SkASSERT "!fIsActive" (negb (fIsActive cb)) ;;;
  let cmdBufferBeginInfo :=
    {| cbi_flags := VK_COMMAND_BUFFER_USAGE_ONE_TIME_SUBMIT_BIT;
       cbi_pInheritanceInfo := None |} in
  GR_VK_CALL_ERRCHECK gpu (BeginCommandBuffer (fCmdBuffer cb) cmdBufferBeginInfo) ;;;
  modifySelf (set_fIsActive true).

Definition Primary_end (gpu : GrVkGpu) : M Primary unit :=
  cb <- getSelf ;;
  SkASSERT "fIsActive" (fIsActive cb) ;;;
  SkASSERT "!fActiveRenderPass" (negb (nonNull (fActiveRenderPass cb))) ;;;
  GR_VK_CALL_ERRCHECK gpu (EndCommandBuffer (fCmdBuffer cb)) ;;;
  invalidateState ;;;
  modifySelf (set_fIsActive false).

(** Modelled from the spec: SkIRect::width and SkIRect::height (SkRect.h is
    not part of the sources), the extent of the bounds from which the render
    area is computed. *)
Definition SkIRect_width (r : SkIRect) : Z := fRight r - fLeft r.
Definition SkIRect_height (r : SkIRect) : Z := fBottom r - fTop r.

(** The clear-value count that [beginRenderPass] puts into the begin info. *)
Definition beginInfo_clearValueCount (renderPass : GrVkRenderPass) : Z :=
  match stencilAttachmentIndex renderPass with
  | Some stencilIndex => if clearValueCount renderPass =? 0 then 0 else 2
  | None => clearValueCount renderPass
  end.

Definition beginRenderPass (gpu : GrVkGpu) (renderPass : GrVkRenderPass)
    (clearValues : ptr) (target : GrVkRenderTarget) (bounds : SkIRect)
    (forSecondaryCB : bool) : M Primary unit :=
  cb <- getSelf ;;
  SkASSERT "fIsActive" (fIsActive cb) ;;;
  SkASSERT "!fActiveRenderPass" (negb (nonNull (fActiveRenderPass cb))) ;;;
  SkASSERT "renderPass->isCompatible(target)" (isCompatibleTarget renderPass target) ;;;
  let renderArea :=
    {| offset := {| off_x := word32_of_Z (fLeft bounds);
                    off_y := word32_of_Z (fTop bounds) |};
       extent := {| ext_width := word32_of_Z (SkIRect_width bounds);
                    ext_height := word32_of_Z (SkIRect_height bounds) |} |} in
  let beginInfo :=
    {| rpb_renderPass := vkRenderPass renderPass;
       rpb_framebuffer := rt_framebuffer target;
       rpb_renderArea := renderArea;
       rpb_clearValueCount := beginInfo_clearValueCount renderPass;
       rpb_pClearValues := clearValues |} in
  let contents := if forSecondaryCB
                  then VK_SUBPASS_CONTENTS_SECONDARY_COMMAND_BUFFERS
                  else VK_SUBPASS_CONTENTS_INLINE in
  _ <- GR_VK_CALL gpu (CmdBeginRenderPass (fCmdBuffer cb) beginInfo contents) ;;
  modifySelf (set_fActiveRenderPass (Some renderPass)) ;;;
  addResource (rp_this renderPass) ;;;
  (* target.addResources( *this ) *)
  forEach (rt_resources target) addResource.

Definition endRenderPass (gpu : GrVkGpu) : M Primary unit :=
  cb <- getSelf ;;
  SkASSERT "fIsActive" (fIsActive cb) ;;;
  SkASSERT "fActiveRenderPass" (nonNull (fActiveRenderPass cb)) ;;;
  _ <- GR_VK_CALL gpu (CmdEndRenderPass (fCmdBuffer cb)) ;;
  modifySelf (set_fActiveRenderPass None).

(** A [GrVkSecondaryCommandBuffer*] argument: the address, and the object
    found there when the call is made. *)
Record SecondaryArg := {
  sec_this : ptr;
  sec_object : GrVkCommandBuffer Secondary }.

Definition executeCommands (gpu : GrVkGpu) (buffer : SecondaryArg) : M Primary unit :=
  cb <- getSelf ;;
  SkASSERT "fIsActive" (fIsActive cb) ;;;
  SkASSERT "!buffer->fIsActive" (negb (fIsActive (sec_object buffer))) ;;;
  SkASSERT "fActiveRenderPass" (nonNull (fActiveRenderPass cb)) ;;;
  match fActiveRenderPass cb, fActiveRenderPass (sec_object buffer) with
  | Some rp, Some rp' =>
      SkASSERT "fActiveRenderPass->isCompatible(*buffer->fActiveRenderPass)"
               (isCompatiblePass rp rp')
  | _, _ => undefinedBehaviour "*buffer->fActiveRenderPass"
  end ;;;
  _ <- GR_VK_CALL gpu (CmdExecuteCommands (fCmdBuffer cb) 1
                         (fCmdBuffer (sec_object buffer))) ;;
  invoke (SecondaryRef (sec_this buffer)) ;;;
  modifySelf (fun cb =>
    set_fSecondaryCommandBuffers
      (fSecondaryCommandBuffers (primary cb) ++ [sec_this buffer]) cb) ;;;
  (* When executing a secondary command buffer all state (besides render pass
     state) becomes invalidated and must be reset. *)
  invalidateState.

Definition submit_to_queue {k} (gpu : GrVkGpu) (queue fence : VkHandle)
    (waitCount : Z) (waitSemaphores : list VkHandle) (waitStages : list Z)
    (commandBufferCount : Z) (commandBuffers : list VkHandle)
    (signalCount : Z) (signalSemaphores : list VkHandle) : M k unit :=
  let submitInfo :=
    {| waitSemaphoreCount := waitCount;
       pWaitSemaphores := waitSemaphores;
       pWaitDstStageMask := waitStages;
       commandBufferCount := commandBufferCount;
       pCommandBuffers := commandBuffers;
       signalSemaphoreCount := signalCount;
       pSignalSemaphores := signalSemaphores |} in
  GR_VK_CALL_ERRCHECK gpu (QueueSubmit queue 1 submitInfo fence).

(** The first loop of the locked branch of [submitToQueue]: the semaphores
    that should signal are tracked and their handles collected. *)
Fixpoint collectSignalSemaphores (signalSemaphores : list ptr)
    (vkSignalSems : list VkHandle) : M Primary (list VkHandle) :=
  match signalSemaphores with
  | [] => ret vkSignalSems
  | s :: rest =>
      st <- getSems ;;
      if shouldSignal st s then
        addResource s ;;;
        collectSignalSemaphores rest (vkSignalSems ++ [semaphore st s])
      else collectSignalSemaphores rest vkSignalSems
  end.

(** The second loop: the same for the semaphores that should wait, with the
    stage of each. *)
Fixpoint collectWaitSemaphores (waitSemaphores : list ptr)
    (vkWaitSems : list VkHandle) (vkWaitStages : list Z)
    : M Primary (list VkHandle * list Z) :=
  match waitSemaphores with
  | [] => ret (vkWaitSems, vkWaitStages)
  | s :: rest =>
      st <- getSems ;;
      if shouldWait st s then
        addResource s ;;;
        collectWaitSemaphores rest (vkWaitSems ++ [semaphore st s])
          (vkWaitStages ++ [VK_PIPELINE_STAGE_ALL_COMMANDS_BIT])
      else collectWaitSemaphores rest vkWaitSems vkWaitStages
  end.

Definition submitToQueue (gpu : GrVkGpu) (queue : VkHandle) (sync : SyncQueue)
    (signalSemaphores waitSemaphores : list ptr) : M Primary unit :=
  cb <- getSelf ;;
  SkASSERT "!fIsActive" (negb (fIsActive cb)) ;;;
  (if VK_NULL_HANDLE =? fSubmitFence (primary cb) then
     r <- GR_VK_CALL gpu (CreateFence (device gpu)) ;;
     modifySelf (set_fSubmitFence (outHandle r)) ;;;
     SkASSERT "!err" (vkResult r =? 0)
   else
     _ <- GR_VK_CALL gpu (ResetFences (device gpu) 1 (fSubmitFence (primary cb))) ;;
     ret tt) ;;;
  let signalCount := Z.of_nat (length signalSemaphores) in
  let waitCount := Z.of_nat (length waitSemaphores) in
  (if (0 =? signalCount) && (0 =? waitCount) then
     (* This command buffer has no dependent semaphores so we can simply just
        submit it to the queue with no worries. *)
     cb <- getSelf ;;
     submit_to_queue gpu queue (fSubmitFence (primary cb)) 0 [] []
                     1 [fCmdBuffer cb] 0 []
   else
     invoke AcquireMutex ;;;
     vkSignalSems <- collectSignalSemaphores signalSemaphores [] ;;
     wait <- collectWaitSemaphores waitSemaphores [] [] ;;
     let vkWaitSems := fst wait in
     let vkWaitStages := snd wait in
     cb <- getSelf ;;
     submit_to_queue gpu queue (fSubmitFence (primary cb))
                     (Z.of_nat (length vkWaitSems)) vkWaitSems vkWaitStages
                     1 [fCmdBuffer cb]
                     (Z.of_nat (length vkSignalSems)) vkSignalSems ;;;
     (* we must make sure that we mark the semaphores after we've submitted *)
     forEach signalSemaphores (fun s =>
       invoke (MarkAsSignaled s) ;;; modifySems (markAsSignaled s)) ;;;
     forEach waitSemaphores (fun s =>
       invoke (MarkAsWaited s) ;;; modifySems (markAsWaited s)) ;;;
     invoke ReleaseMutex) ;;;
  match sync with
  | kForce_SyncQueue =>
      cb <- getSelf ;;
      r <- GR_VK_CALL gpu (WaitForFences (device gpu) 1 (fSubmitFence (primary cb))
                             true UINT64_MAX) ;;
      let err := vkResult r in
      (if VK_TIMEOUT =? err then
         invoke (SkDebugf "Fence failed to signal: %d\n" err) ;;;
         SK_ABORT "failing"
       else ret tt) ;;;
      SkASSERT "!err" (err =? 0) ;;;
      (* Destroy the fence *)
      _ <- GR_VK_CALL gpu (DestroyFence (device gpu) (fSubmitFence (primary cb))) ;;
      modifySelf (set_fSubmitFence VK_NULL_HANDLE)
  | kSkip_SyncQueue => ret tt
  end.

Definition finished (gpu : GrVkGpu) : M Primary bool :=
  cb <- getSelf ;;
  if VK_NULL_HANDLE =? fSubmitFence (primary cb) then ret true
  else
    r <- GR_VK_CALL gpu (GetFenceStatus (device gpu) (fSubmitFence (primary cb))) ;;
    let err := vkResult r in
    if err =? VK_SUCCESS then ret true
    else if err =? VK_NOT_READY then ret false
    else
      invoke (SkDebugf "Error getting fence status: %d\n" err) ;;;
      SK_ABORT "failing".

Definition copyImage (gpu : GrVkGpu) (srcImage : GrVkImage) (srcLayout : Z)
    (dstImage : GrVkImage) (dstLayout : Z) (copyRegionCount : Z) (copyRegions : ptr)
    : M Primary unit :=
  cb <- getSelf ;;
  SkASSERT "fIsActive" (fIsActive cb) ;;;
  SkASSERT "!fActiveRenderPass" (negb (nonNull (fActiveRenderPass cb))) ;;;
  addResource (img_resource srcImage) ;;;
  addResource (img_resource dstImage) ;;;
  _ <- GR_VK_CALL gpu (CmdCopyImage (fCmdBuffer cb) (img_image srcImage) srcLayout
                         (img_image dstImage) dstLayout copyRegionCount copyRegions) ;;
  ret tt.

Definition blitImage (gpu : GrVkGpu) (srcResource : ptr) (srcImage : VkHandle)
    (srcLayout : Z) (dstResource : ptr) (dstImage : VkHandle) (dstLayout : Z)
    (blitRegionCount : Z) (blitRegions : ptr) (filter : Z) : M Primary unit :=
  cb <- getSelf ;;
  SkASSERT "fIsActive" (fIsActive cb) ;;;
  SkASSERT "!fActiveRenderPass" (negb (nonNull (fActiveRenderPass cb))) ;;;
  addResource srcResource ;;;
  addResource dstResource ;;;
  _ <- GR_VK_CALL gpu (CmdBlitImage (fCmdBuffer cb) srcImage srcLayout dstImage dstLayout
                         blitRegionCount blitRegions filter) ;;
  ret tt.

(** The overload that takes the two images. *)
Definition blitImage_images (gpu : GrVkGpu) (srcImage dstImage : GrVkImage)
    (blitRegionCount : Z) (blitRegions : ptr) (filter : Z) : M Primary unit :=
  blitImage gpu (img_resource srcImage) (img_image srcImage) (img_currentLayout srcImage)
            (img_resource dstImage) (img_image dstImage) (img_currentLayout dstImage)
            blitRegionCount blitRegions filter.

Definition copyImageToBuffer (gpu : GrVkGpu) (srcImage : GrVkImage) (srcLayout : Z)
    (dstBuffer : GrVkBuffer) (copyRegionCount : Z) (copyRegions : ptr)
    : M Primary unit :=
  cb <- getSelf ;;
  SkASSERT "fIsActive" (fIsActive cb) ;;;
  SkASSERT "!fActiveRenderPass" (negb (nonNull (fActiveRenderPass cb))) ;;;
  addResource (img_resource srcImage) ;;;
  addResource (buf_resource dstBuffer) ;;;
  _ <- GR_VK_CALL gpu (CmdCopyImageToBuffer (fCmdBuffer cb) (img_image srcImage)
                         srcLayout (buf_buffer dstBuffer) copyRegionCount copyRegions) ;;
  ret tt.

Definition copyBufferToImage (gpu : GrVkGpu) (srcBuffer : GrVkBuffer)
    (dstImage : GrVkImage) (dstLayout : Z) (copyRegionCount : Z) (copyRegions : ptr)
    : M Primary unit :=
  cb <- getSelf ;;
  SkASSERT "fIsActive" (fIsActive cb) ;;;
  SkASSERT "!fActiveRenderPass" (negb (nonNull (fActiveRenderPass cb))) ;;;
  addResource (buf_resource srcBuffer) ;;;
  addResource (img_resource dstImage) ;;;
  _ <- GR_VK_CALL gpu (CmdCopyBufferToImage (fCmdBuffer cb) (buf_buffer srcBuffer)
                         (img_image dstImage) dstLayout copyRegionCount copyRegions) ;;
  ret tt.

(** [VkDeviceSize] is a [uint64_t]: the sums of the checks wrap around. *)
Definition add_uint64 (a b : Z) : Z := (a + b) mod 2 ^ 64.

Definition copyBuffer (gpu : GrVkGpu) (srcBuffer dstBuffer : GrVkBuffer)
    (regionCount : Z) (regions : list VkBufferCopy) : M Primary unit :=
  cb <- getSelf ;;
  SkASSERT "fIsActive" (fIsActive cb) ;;;
  SkASSERT "!fActiveRenderPass" (negb (nonNull (fActiveRenderPass cb))) ;;;
  (* #ifdef SK_DEBUG *)
  forEach (seq 0 (Z.to_nat regionCount)) (fun i =>
    match regions !! i with
    | Some region =>
        SkASSERT "region.size > 0" (size region >? 0) ;;;
        SkASSERT "region.srcOffset < srcBuffer->size()"
                 (srcOffset region <? buf_size srcBuffer) ;;;
        SkASSERT "region.dstOffset < dstBuffer->size()"
                 (dstOffset region <? buf_size dstBuffer) ;;;
        SkASSERT "region.srcOffset + region.size <= srcBuffer->size()"
                 (add_uint64 (srcOffset region) (size region) <=? buf_size srcBuffer) ;;;
        SkASSERT "region.dstOffset + region.size <= dstBuffer->size()"
                 (add_uint64 (dstOffset region) (size region) <=? buf_size dstBuffer)
    | None => undefinedBehaviour "regions[i]"
    end) ;;;
  addResource (buf_resource srcBuffer) ;;;
  addResource (buf_resource dstBuffer) ;;;
  _ <- GR_VK_CALL gpu (CmdCopyBuffer (fCmdBuffer cb) (buf_buffer srcBuffer)
                         (buf_buffer dstBuffer) regionCount regions) ;;
  ret tt.

Definition updateBuffer (gpu : GrVkGpu) (dstBuffer : GrVkBuffer)
    (dstOffset dataSize : Z) (data : ptr) : M Primary unit :=
  cb <- getSelf ;;
  SkASSERT "fIsActive" (fIsActive cb) ;;;
  SkASSERT "!fActiveRenderPass" (negb (nonNull (fActiveRenderPass cb))) ;;;
  SkASSERT "0 == (dstOffset & 0x03)" (0 =? Z.land dstOffset 3) ;;;
  SkASSERT "dataSize <= 65536" (dataSize <=? 65536) ;;;
  SkASSERT "0 == (dataSize & 0x03)" (0 =? Z.land dataSize 3) ;;;
  addResource (buf_resource dstBuffer) ;;;
  _ <- GR_VK_CALL gpu (CmdUpdateBuffer (fCmdBuffer cb) (buf_buffer dstBuffer)
                         dstOffset dataSize data) ;;
  ret tt.

Definition clearColorImage (gpu : GrVkGpu) (image : GrVkImage) (color : ptr)
    (subRangeCount : Z) (subRanges : ptr) : M Primary unit :=
  cb <- getSelf ;;
  SkASSERT "fIsActive" (fIsActive cb) ;;;
  SkASSERT "!fActiveRenderPass" (negb (nonNull (fActiveRenderPass cb))) ;;;
  addResource (img_resource image) ;;;
  _ <- GR_VK_CALL gpu (CmdClearColorImage (fCmdBuffer cb) (img_image image)
                         (img_currentLayout image) color subRangeCount subRanges) ;;
  ret tt.

Definition clearDepthStencilImage (gpu : GrVkGpu) (image : GrVkImage) (color : ptr)
    (subRangeCount : Z) (subRanges : ptr) : M Primary unit :=
  cb <- getSelf ;;
  SkASSERT "fIsActive" (fIsActive cb) ;;;
  SkASSERT "!fActiveRenderPass" (negb (nonNull (fActiveRenderPass cb))) ;;;
  addResource (img_resource image) ;;;
  _ <- GR_VK_CALL gpu (CmdClearDepthStencilImage (fCmdBuffer cb) (img_image image)
                         (img_currentLayout image) color subRangeCount subRanges) ;;
  ret tt.

Definition resolveImage (gpu : GrVkGpu) (srcImage dstImage : GrVkImage)
    (regionCount : Z) (regions : ptr) : M Primary unit :=
  cb <- getSelf ;;
  SkASSERT "fIsActive" (fIsActive cb) ;;;
  SkASSERT "!fActiveRenderPass" (negb (nonNull (fActiveRenderPass cb))) ;;;
  addResource (img_resource srcImage) ;;;
  addResource (img_resource dstImage) ;;;
  _ <- GR_VK_CALL gpu (CmdResolveImage (fCmdBuffer cb) (img_image srcImage)
                         (img_currentLayout srcImage) (img_image dstImage)
                         (img_currentLayout dstImage) regionCount regions) ;;
  ret tt.

(** ** GrVkSecondaryCommandBuffer *)

(** [framebuffer] may be null. *)
Definition Secondary_begin (gpu : GrVkGpu) (framebuffer : option VkHandle)
    (compatibleRenderPass : option GrVkRenderPass) : M Secondary unit :=
  cb <- getSelf ;;
  SkASSERT "!fIsActive" (negb (fIsActive cb)) ;;;
  SkASSERT "compatibleRenderPass" (nonNull compatibleRenderPass) ;;;
  modifySelf (set_fActiveRenderPass compatibleRenderPass) ;;;
  match compatibleRenderPass with
  | None => undefinedBehaviour "fActiveRenderPass->vkRenderPass()"
  | Some rp =>
      let inheritanceInfo :=
        {| inh_renderPass := vkRenderPass rp;
           inh_subpass := 0; (* Currently only using 1 subpass for each render pass *)
           inh_framebuffer := match framebuffer with
                              | Some fb => fb
                              | None => VK_NULL_HANDLE
                              end;
           inh_occlusionQueryEnable := false;
           inh_queryFlags := 0;
           inh_pipelineStatistics := 0 |} in
      let cmdBufferBeginInfo :=
        {| cbi_flags := Z.lor VK_COMMAND_BUFFER_USAGE_RENDER_PASS_CONTINUE_BIT
                              VK_COMMAND_BUFFER_USAGE_ONE_TIME_SUBMIT_BIT;
           cbi_pInheritanceInfo := Some inheritanceInfo |} in
      GR_VK_CALL_ERRCHECK gpu (BeginCommandBuffer (fCmdBuffer cb) cmdBufferBeginInfo) ;;;
      modifySelf (set_fIsActive true)
  end.

Definition Secondary_end (gpu : GrVkGpu) : M Secondary unit :=
  cb <- getSelf ;;
  SkASSERT "fIsActive" (fIsActive cb) ;;;
  GR_VK_CALL_ERRCHECK gpu (EndCommandBuffer (fCmdBuffer cb)) ;;;
  invalidateState ;;;
  modifySelf (set_fIsActive false).

(** * The notions that the properties are stated with *)


(** [m] run [n] times in a row. *)
Fixpoint repeatM {k} (n : nat) (m : M k unit) : M k unit :=
  match n with
  | O => ret tt
  | S n' => m ;;; repeatM n' m
  end.

(** The calls made between two worlds of one run. *)
Definition emitted {k} (w w' : World k) : list call :=
  skipn (length (calls w)) (calls w').

(** ** Invalidation of the cached state *)

(** The values that [invalidateState] leaves in the cache. *)
Definition unsetViewport : VkViewport := set_vp_width float_neg_one zero_VkViewport.
Definition unsetScissor : VkRect2D := set_offset_x (word32_of_Z (-1)) zero_VkRect2D.
Definition unsetBlendConstant : float4 :=
  {| fc0 := float_neg_one; fc1 := float_neg_one;
     fc2 := float_neg_one; fc3 := float_neg_one |}.

Definition invalidated {k} (cb : GrVkCommandBuffer k) : GrVkCommandBuffer k :=
  set_fCachedBlendConstant unsetBlendConstant
    (set_fCachedScissor unsetScissor
      (set_fCachedViewport unsetViewport
        (set_fBoundIndexBuffer VK_NULL_HANDLE
          (set_fBoundInputBuffers
            (List.map (fun _ => VK_NULL_HANDLE) (fBoundInputBuffers cb)) cb)))).

(** ** Dynamic state: viewport, scissor, blend constants *)

Inductive DynamicState :=
| DynViewport (firstViewport : Z) (viewport : VkViewport)
| DynScissor (firstScissor : Z) (scissor : VkRect2D)
| DynBlendConstants (blendConstants : float4).

(** The setter of a dynamic state, called with one viewport or scissor. *)
Definition setDynamicState {k} (gpu : GrVkGpu) (d : DynamicState) : M k unit :=
  match d with
  | DynViewport first v => setViewport gpu first 1 v
  | DynScissor first r => setScissor gpu first 1 r
  | DynBlendConstants b => setBlendConstants gpu b
  end.

(** The native command of a dynamic state. *)
Definition dynamicStateCommand {k} (d : DynamicState) (cb : GrVkCommandBuffer k) : call :=
  match d with
  | DynViewport first v => CmdSetViewport (fCmdBuffer cb) first 1 v
  | DynScissor first r => CmdSetScissor (fCmdBuffer cb) first 1 r
  | DynBlendConstants b => CmdSetBlendConstants (fCmdBuffer cb) b
  end.

(** The value differs byte-wise from the cached one. *)
Definition differsFromCache {k} (d : DynamicState) (cb : GrVkCommandBuffer k) : bool :=
  match d with
  | DynViewport _ v =>
      negb (memcmp (bytes_of_VkViewport v) (bytes_of_VkViewport (fCachedViewport cb))
                   sizeof_VkViewport =? 0)
  | DynScissor _ r =>
      negb (memcmp (bytes_of_VkRect2D r) (bytes_of_VkRect2D (fCachedScissor cb))
                   sizeof_VkRect2D =? 0)
  | DynBlendConstants b =>
      negb (memcmp (bytes_of_float4 b) (bytes_of_float4 (fCachedBlendConstant cb))
                   (4 * sizeof_float) =? 0)
  end.

(** The cache holds the value. *)
Definition isCached {k} (d : DynamicState) (cb : GrVkCommandBuffer k) : Prop :=
  match d with
  | DynViewport _ v => fCachedViewport cb = v
  | DynScissor _ r => fCachedScissor cb = r
  | DynBlendConstants b => fCachedBlendConstant cb = b
  end.

Definition cacheDynamicState {k} (d : DynamicState) (cb : GrVkCommandBuffer k)
    : GrVkCommandBuffer k :=
  match d with
  | DynViewport _ v => set_fCachedViewport v cb
  | DynScissor _ r => set_fCachedScissor r cb
  | DynBlendConstants b => set_fCachedBlendConstant b cb
  end.

(** ** Buffer bindings *)

Inductive BufferBinding :=
| BindInput (binding : N) (vbuffer : GrVkBuffer)
| BindIndex (ibuffer : GrVkBuffer).

Definition bindBuffer {k} (gpu : GrVkGpu) (b : BufferBinding) : M k unit :=
  match b with
  | BindInput binding vbuffer => bindInputBuffer gpu binding vbuffer
  | BindIndex ibuffer => bindIndexBuffer gpu ibuffer
  end.

Definition boundBuffer (b : BufferBinding) : GrVkBuffer :=
  match b with
  | BindInput _ vbuffer => vbuffer
  | BindIndex ibuffer => ibuffer
  end.

(** The cached binding of the slot, if the slot exists. *)
Definition cachedBinding {k} (b : BufferBinding) (cb : GrVkCommandBuffer k)
    : option VkHandle :=
  match b with
  | BindInput binding _ => fBoundInputBuffers cb !! N.to_nat binding
  | BindIndex _ => Some (fBoundIndexBuffer cb)
  end.

(** The native bind command. *)
Definition bindCommand {k} (b : BufferBinding) (cb : GrVkCommandBuffer k) : call :=
  match b with
  | BindInput binding vbuffer =>
      CmdBindVertexBuffers (fCmdBuffer cb) (Z.of_N binding) 1
                           (buf_buffer vbuffer) (buf_offset vbuffer)
  | BindIndex ibuffer =>
      CmdBindIndexBuffer (fCmdBuffer cb) (buf_buffer ibuffer) (buf_offset ibuffer)
                         VK_INDEX_TYPE_UINT16
  end.

(** What the two assertions on the arguments ask for. *)
Definition bindingArgumentsOk (b : BufferBinding) : bool :=
  negb (VK_NULL_HANDLE =? buf_buffer (boundBuffer b)) &&
  match b with
  | BindInput binding _ => Z.of_N binding <? kMaxInputBuffers
  | BindIndex _ => true
  end.

Definition cacheBinding {k} (b : BufferBinding) (cb : GrVkCommandBuffer k)
    : GrVkCommandBuffer k :=
  match b with
  | BindInput binding vbuffer =>
      set_fBoundInputBuffers
        (<[N.to_nat binding := buf_buffer vbuffer]> (fBoundInputBuffers cb)) cb
  | BindIndex ibuffer => set_fBoundIndexBuffer (buf_buffer ibuffer) cb
  end.

Definition track {k} (r : ptr) (cb : GrVkCommandBuffer k) : GrVkCommandBuffer k :=
  set_fTrackedResources (td_append r (fTrackedResources cb)) cb.

(** ** Tracking *)

Definition trackAll {k} (l : list ptr) (cb : GrVkCommandBuffer k) : GrVkCommandBuffer k :=
  fold_left (fun cb r => track r cb) l cb.

(** ** beginRenderPass *)

(** The clear-value counts that the vkCmdBeginRenderPass calls of a log
    advertise. *)
Definition advertisedClearValueCounts (l : list call) : list Z :=
  flat_map (fun c => match c with
                     | CmdBeginRenderPass _ info _ => [rpb_clearValueCount info]
                     | _ => []
                     end) l.

(** ** Barriers, transfers and clears outside a render pass *)

Inductive OutsidePassOp :=
| OpPipelineBarrier (srcStageMask dstStageMask : Z) (byRegion : bool)
    (barrierType : BarrierType) (barrier : ptr)
| OpCopyImage (srcImage : GrVkImage) (srcLayout : Z) (dstImage : GrVkImage)
    (dstLayout : Z) (copyRegionCount : Z) (copyRegions : ptr)
| OpBlitImage (srcResource : ptr) (srcImage : VkHandle) (srcLayout : Z)
    (dstResource : ptr) (dstImage : VkHandle) (dstLayout : Z)
    (blitRegionCount : Z) (blitRegions : ptr) (filter : Z)
| OpBlitImage_images (srcImage dstImage : GrVkImage)
    (blitRegionCount : Z) (blitRegions : ptr) (filter : Z)
| OpCopyImageToBuffer (srcImage : GrVkImage) (srcLayout : Z) (dstBuffer : GrVkBuffer)
    (copyRegionCount : Z) (copyRegions : ptr)
| OpCopyBufferToImage (srcBuffer : GrVkBuffer) (dstImage : GrVkImage) (dstLayout : Z)
    (copyRegionCount : Z) (copyRegions : ptr)
| OpCopyBuffer (srcBuffer dstBuffer : GrVkBuffer) (regionCount : Z)
    (regions : list VkBufferCopy)
| OpUpdateBuffer (dstBuffer : GrVkBuffer) (dstOffset dataSize : Z) (data : ptr)
| OpClearColorImage (image : GrVkImage) (color : ptr) (subRangeCount : Z)
    (subRanges : ptr)
| OpClearDepthStencilImage (image : GrVkImage) (color : ptr) (subRangeCount : Z)
    (subRanges : ptr)
| OpResolveImage (srcImage dstImage : GrVkImage) (regionCount : Z) (regions : ptr).

Definition runOutsidePassOp (gpu : GrVkGpu) (op : OutsidePassOp) : M Primary unit :=
  match op with
  | OpPipelineBarrier src dst byRegion ty barrier =>
      pipelineBarrier gpu src dst byRegion ty barrier
  | OpCopyImage src srcLayout dst dstLayout n regions =>
      copyImage gpu src srcLayout dst dstLayout n regions
  | OpBlitImage srcR src srcLayout dstR dst dstLayout n regions filter =>
      blitImage gpu srcR src srcLayout dstR dst dstLayout n regions filter
  | OpBlitImage_images src dst n regions filter =>
      blitImage_images gpu src dst n regions filter
  | OpCopyImageToBuffer src srcLayout dst n regions =>
      copyImageToBuffer gpu src srcLayout dst n regions
  | OpCopyBufferToImage src dst dstLayout n regions =>
      copyBufferToImage gpu src dst dstLayout n regions
  | OpCopyBuffer src dst n regions => copyBuffer gpu src dst n regions
  | OpUpdateBuffer dst dstOffset dataSize data =>
      updateBuffer gpu dst dstOffset dataSize data
  | OpClearColorImage image color n ranges =>
      clearColorImage gpu image color n ranges
  | OpClearDepthStencilImage image color n ranges =>
      clearDepthStencilImage gpu image color n ranges
  | OpResolveImage src dst n regions => resolveImage gpu src dst n regions
  end.

(** The run was stopped by one of the two assertions on the recording state. *)
Definition rejectedForState {A} (r : outcome A) : bool :=
  match r with
  | AssertFailed e => String.eqb e "fIsActive" || String.eqb e "!fActiveRenderPass"
  | _ => false
  end.

(** ** Where the cached state is invalidated *)

(** The cached dynamic state of a command buffer. *)
Record CachedState := {
  cs_boundInputBuffers : list VkHandle;
  cs_boundIndexBuffer : VkHandle;
  cs_viewport : VkViewport;
  cs_scissor : VkRect2D;
  cs_blendConstant : float4 }.

Definition cachedState {k} (cb : GrVkCommandBuffer k) : CachedState :=
  {| cs_boundInputBuffers := fBoundInputBuffers cb;
     cs_boundIndexBuffer := fBoundIndexBuffer cb;
     cs_viewport := fCachedViewport cb;
     cs_scissor := fCachedScissor cb;
     cs_blendConstant := fCachedBlendConstant cb |}.

(** Every slot holds its unset-sentinel. *)
Definition unsetState (cs : CachedState) : CachedState :=
  {| cs_boundInputBuffers := List.map (fun _ => VK_NULL_HANDLE) (cs_boundInputBuffers cs);
     cs_boundIndexBuffer := VK_NULL_HANDLE;
     cs_viewport := unsetViewport;
     cs_scissor := unsetScissor;
     cs_blendConstant := unsetBlendConstant |}.

(** [m] changes the cached state by [f] whenever it returns. *)
Definition transforms {k A} (m : M k A) (f : CachedState -> CachedState) : Prop :=
  forall w a w', m w = Ok (a, w') -> cachedState (self w') = f (cachedState (self w)).

(** [m] leaves the cached state alone. *)
Definition frames {k A} (m : M k A) : Prop := transforms m (fun cs => cs).

(** The methods of the base class, of the primary and of the secondary
    command buffer, with their arguments. *)
Inductive BaseOp :=
| BFreeGPUData
| BAbandonGPUData
| BReset
| BPipelineBarrier (srcStageMask dstStageMask : Z) (byRegion : bool)
    (barrierType : BarrierType) (barrier : ptr)
| BBindInputBuffer (binding : N) (vbuffer : GrVkBuffer)
| BBindIndexBuffer (ibuffer : GrVkBuffer)
| BClearAttachments (numAttachments : Z) (attachments : list VkClearAttachment)
    (numRects : Z) (clearRects : ptr)
| BBindDescriptorSets_pipelineState (pipelineState : GrVkPipelineState)
    (layout : VkHandle) (firstSet setCount : Z) (descriptorSets : ptr)
    (dynamicOffsetCount : Z) (dynamicOffsets : ptr)
| BBindDescriptorSets (recycled resources : list ptr)
    (layout : VkHandle) (firstSet setCount : Z) (descriptorSets : ptr)
    (dynamicOffsetCount : Z) (dynamicOffsets : ptr)
| BBindPipeline (pipeline : GrVkPipeline)
| BDrawIndexed (indexCount instanceCount firstIndex vertexOffset firstInstance : Z)
| BDraw (vertexCount instanceCount firstVertex firstInstance : Z)
| BSetViewport (firstViewport viewportCount : Z) (viewports : VkViewport)
| BSetScissor (firstScissor scissorCount : Z) (scissors : VkRect2D)
| BSetBlendConstants (blendConstants : float4).

Inductive PrimaryOp :=
| PBase (op : BaseOp)
| PBegin
| PEnd
| PBeginRenderPass (renderPass : GrVkRenderPass) (clearValues : ptr)
    (target : GrVkRenderTarget) (bounds : SkIRect) (forSecondaryCB : bool)
| PEndRenderPass
| PExecuteCommands (buffer : SecondaryArg)
| PSubmitToQueue (queue : VkHandle) (sync : SyncQueue)
    (signalSemaphores waitSemaphores : list ptr)
| PFinished
| POutsidePass (op : OutsidePassOp).

Inductive SecondaryOp :=
| SBase (op : BaseOp)
| SBegin (framebuffer : option VkHandle) (compatibleRenderPass : option GrVkRenderPass)
| SEnd.

Definition runBaseOp {k} (gpu : GrVkGpu) (op : BaseOp) : M k unit :=
  match op with
  | BFreeGPUData => freeGPUData gpu
  | BAbandonGPUData => abandonGPUData
  | BReset => reset gpu
  | BPipelineBarrier src dst byRegion ty barrier =>
      pipelineBarrier gpu src dst byRegion ty barrier
  | BBindInputBuffer binding vbuffer => bindInputBuffer gpu binding vbuffer
  | BBindIndexBuffer ibuffer => bindIndexBuffer gpu ibuffer
  | BClearAttachments n attachments nRects rects =>
      clearAttachments gpu n attachments nRects rects
  | BBindDescriptorSets_pipelineState ps layout first count sets dynCount dyn =>
      bindDescriptorSets_pipelineState gpu ps layout first count sets dynCount dyn
  | BBindDescriptorSets recycled resources layout first count sets dynCount dyn =>
      bindDescriptorSets gpu recycled resources layout first count sets dynCount dyn
  | BBindPipeline pipeline => bindPipeline gpu pipeline
  | BDrawIndexed a b c d e => drawIndexed gpu a b c d e
  | BDraw a b c d => draw gpu a b c d
  | BSetViewport first count v => setViewport gpu first count v
  | BSetScissor first count r => setScissor gpu first count r
  | BSetBlendConstants b => setBlendConstants gpu b
  end.

Definition runPrimaryOp (gpu : GrVkGpu) (op : PrimaryOp) : M Primary unit :=
  match op with
  | PBase op => runBaseOp gpu op
  | PBegin => Primary_begin gpu
  | PEnd => Primary_end gpu
  | PBeginRenderPass rp clearValues target bounds sec =>
      beginRenderPass gpu rp clearValues target bounds sec
  | PEndRenderPass => endRenderPass gpu
  | PExecuteCommands buffer => executeCommands gpu buffer
  | PSubmitToQueue queue sync signals waits => submitToQueue gpu queue sync signals waits
  | PFinished => _ <- finished gpu ;; ret tt
  | POutsidePass op => runOutsidePassOp gpu op
  end.

Definition runSecondaryOp (gpu : GrVkGpu) (op : SecondaryOp) : M Secondary unit :=
  match op with
  | SBase op => runBaseOp gpu op
  | SBegin framebuffer rp => Secondary_begin gpu framebuffer rp
  | SEnd => Secondary_end gpu
  end.

(** The three points of invalidation, in the words of the specification:
    the end of a buffer, its reset, and executeCommands on a primary. *)
Definition invalidatesPrimary (op : PrimaryOp) : bool :=
  match op with
  | PEnd | PBase BReset | PExecuteCommands _ => true
  | _ => false
  end.

Definition invalidatesSecondary (op : SecondaryOp) : bool :=
  match op with
  | SEnd | SBase BReset => true
  | _ => false
  end.

(** What a method that records a binding or a dynamic state leaves in the
    cache: its argument, in its own slot. *)
Definition recordsBase (op : BaseOp) (cs : CachedState) : CachedState :=
  match op with
  | BBindInputBuffer binding vbuffer =>
      {| cs_boundInputBuffers :=
           <[N.to_nat binding := buf_buffer vbuffer]> (cs_boundInputBuffers cs);
         cs_boundIndexBuffer := cs_boundIndexBuffer cs;
         cs_viewport := cs_viewport cs; cs_scissor := cs_scissor cs;
         cs_blendConstant := cs_blendConstant cs |}
  | BBindIndexBuffer ibuffer =>
      {| cs_boundInputBuffers := cs_boundInputBuffers cs;
         cs_boundIndexBuffer := buf_buffer ibuffer;
         cs_viewport := cs_viewport cs; cs_scissor := cs_scissor cs;
         cs_blendConstant := cs_blendConstant cs |}
  | BSetViewport _ _ v =>
      {| cs_boundInputBuffers := cs_boundInputBuffers cs;
         cs_boundIndexBuffer := cs_boundIndexBuffer cs;
         cs_viewport := v; cs_scissor := cs_scissor cs;
         cs_blendConstant := cs_blendConstant cs |}
  | BSetScissor _ _ r =>
      {| cs_boundInputBuffers := cs_boundInputBuffers cs;
         cs_boundIndexBuffer := cs_boundIndexBuffer cs;
         cs_viewport := cs_viewport cs; cs_scissor := r;
         cs_blendConstant := cs_blendConstant cs |}
  | BSetBlendConstants b =>
      {| cs_boundInputBuffers := cs_boundInputBuffers cs;
         cs_boundIndexBuffer := cs_boundIndexBuffer cs;
         cs_viewport := cs_viewport cs; cs_scissor := cs_scissor cs;
         cs_blendConstant := b |}
  | _ => cs
  end.

Definition recordsPrimary (op : PrimaryOp) (cs : CachedState) : CachedState :=
  match op with
  | PBase op => recordsBase op cs
  | _ => cs
  end.

Definition recordsSecondary (op : SecondaryOp) (cs : CachedState) : CachedState :=
  match op with
  | SBase op => recordsBase op cs
  | _ => cs
  end.

(** ** reset and the storage of the tracking lists *)

Definition isStorageCall (c : call) : bool :=
  match c with
  | ArrayReset _ | ArraySetReserve _ _ | ArrayRewind _ => true
  | _ => false
  end.

(** The storage operations of a log, in order. *)
Definition storageCalls (l : list call) : list call := List.filter isStorageCall l.

(** What a rewind-only reset, and what a full reset, does to the storage of
    the two lists. *)
Definition rewindCalls : list call :=
  [ArrayRewind TrackedResources; ArrayRewind TrackedRecycledResources].

Definition fullResetCalls : list call :=
  [ArrayReset TrackedResources; ArrayReset TrackedRecycledResources;
   ArraySetReserve TrackedResources kInitialTrackedResourcesCount;
   ArraySetReserve TrackedRecycledResources kInitialTrackedResourcesCount].

Definition releaseCalls {k} (cb : GrVkCommandBuffer k) : list call :=
  List.map ResourceUnref (items (fTrackedResources cb)) ++
  List.map ResourceRecycle (items (fTrackedRecycledResources cb)).

Definition onResetCalls {k} : GrVkCommandBuffer k -> list call :=
  match k with
  | Primary => fun cb =>
      List.map RecycleSecondaryCommandBuffer (fSecondaryCommandBuffers (primary cb))
  | Secondary => fun _ => []
  end.

Definition afterOnReset {k} : GrVkCommandBuffer k -> GrVkCommandBuffer k :=
  match k with
  | Primary => set_fSecondaryCommandBuffers []
  | Secondary => fun cb => cb
  end.

Definition rewound {k} (cb : GrVkCommandBuffer k) : GrVkCommandBuffer k :=
  set_fTrackedRecycledResources
    {| items := []; reserve := reserve (fTrackedRecycledResources cb) |}
    (set_fTrackedResources
       {| items := []; reserve := reserve (fTrackedResources cb) |}
       (set_fNumResets (fNumResets cb + 1) cb)).

Definition fullyReset {k} (cb : GrVkCommandBuffer k) : GrVkCommandBuffer k :=
  set_fNumResets 0
    (set_fTrackedRecycledResources
       {| items := []; reserve := Z.max 0 kInitialTrackedResourcesCount |}
       (set_fTrackedResources
          {| items := []; reserve := Z.max 0 kInitialTrackedResourcesCount |} cb)).

(** The reserves of the two tracking lists. *)
Definition reserves {k} (cb : GrVkCommandBuffer k) : Z * Z :=
  (reserve (fTrackedResources cb), reserve (fTrackedRecycledResources cb)).

(** ** submitToQueue *)

(** The store after the marks of a list of semaphores, in order. *)
Definition markAll (mark : Z -> SemaphoreStore -> SemaphoreStore) (l : list ptr)
    (st : SemaphoreStore) : SemaphoreStore :=
  fold_left (fun st s => mark s st) l st.

(** The submit info that the locked branch of submitToQueue builds from the
    semaphores that pass the filter. *)
Definition filteredSubmitInfo (st : SemaphoreStore) (cmdBuffer : VkHandle)
    (signals waits : list ptr) : VkSubmitInfo :=
  let vkSignalSems := List.map (semaphore st) (List.filter (shouldSignal st) signals) in
  let vkWaitSems := List.map (semaphore st) (List.filter (shouldWait st) waits) in
  {| waitSemaphoreCount := Z.of_nat (length vkWaitSems);
     pWaitSemaphores := vkWaitSems;
     pWaitDstStageMask := List.map (fun _ => VK_PIPELINE_STAGE_ALL_COMMANDS_BIT)
                                   (List.filter (shouldWait st) waits);
     commandBufferCount := 1;
     pCommandBuffers := [cmdBuffer];
     signalSemaphoreCount := Z.of_nat (length vkSignalSems);
     pSignalSemaphores := vkSignalSems |}.

Definition emptySubmitInfo (cmdBuffer : VkHandle) : VkSubmitInfo :=
  {| waitSemaphoreCount := 0; pWaitSemaphores := []; pWaitDstStageMask := [];
     commandBufferCount := 1; pCommandBuffers := [cmdBuffer];
     signalSemaphoreCount := 0; pSignalSemaphores := [] |}.

(** The calls of the second part of submitToQueue, before and after the
    native submission. *)
Definition callsBeforeSubmit (st : SemaphoreStore) (signals waits : list ptr)
    : list call :=
  match signals, waits with
  | [], [] => []
  | _, _ =>
      AcquireMutex ::
      List.map ResourceRef (List.filter (shouldSignal st) signals) ++
      List.map ResourceRef (List.filter (shouldWait st) waits)
  end.

Definition callsAfterSubmit (signals waits : list ptr) : list call :=
  match signals, waits with
  | [], [] => []
  | _, _ =>
      List.map MarkAsSignaled signals ++ List.map MarkAsWaited waits ++ [ReleaseMutex]
  end.

Definition submitInfoOf (st : SemaphoreStore) (cmdBuffer : VkHandle)
    (signals waits : list ptr) : VkSubmitInfo :=
  match signals, waits with
  | [], [] => emptySubmitInfo cmdBuffer
  | _, _ => filteredSubmitInfo st cmdBuffer signals waits
  end.

(** The calls of the first part (the fence) and of the last (the sync). *)
Definition fenceCalls (gpu : GrVkGpu) (old : VkHandle) : list call :=
  if VK_NULL_HANDLE =? old then [CreateFence (device gpu)]
  else [ResetFences (device gpu) 1 old].

Definition syncCalls (gpu : GrVkGpu) (sync : SyncQueue) (fence : VkHandle) : list call :=
  match sync with
  | kForce_SyncQueue =>
      [WaitForFences (device gpu) 1 fence true UINT64_MAX;
       DestroyFence (device gpu) fence]
  | kSkip_SyncQueue => []
  end.

(** The fence that the submission uses: the one the buffer holds, or the one
    the device hands out when the buffer holds none. *)
Definition fenceOfSubmission (gpu : GrVkGpu) (w : World Primary) : VkHandle :=
  let old := fSubmitFence (primary (self w)) in
  if VK_NULL_HANDLE =? old
  then outHandle (vkInterface gpu (calls w) (CreateFence (device gpu)))
  else old.

(** *** What a log says about submissions, marks and fences *)

Definition queueSubmits (l : list call) : list (VkSubmitInfo * VkHandle) :=
  flat_map (fun c => match c with
                     | QueueSubmit _ _ info fence => [(info, fence)]
                     | _ => []
                     end) l.

Definition marksSignaled (l : list call) : list ptr :=
  flat_map (fun c => match c with MarkAsSignaled s => [s] | _ => [] end) l.

Definition marksWaited (l : list call) : list ptr :=
  flat_map (fun c => match c with MarkAsWaited s => [s] | _ => [] end) l.

Definition fencesCreated (l : list call) : list VkHandle :=
  flat_map (fun c => match c with CreateFence d => [d] | _ => [] end) l.

Definition fencesReset (l : list call) : list VkHandle :=
  flat_map (fun c => match c with ResetFences _ _ f => [f] | _ => [] end) l.

Definition fencesWaited (l : list call) : list VkHandle :=
  flat_map (fun c => match c with WaitForFences _ _ f _ _ => [f] | _ => [] end) l.

Definition fencesDestroyed (l : list call) : list VkHandle :=
  flat_map (fun c => match c with DestroyFence _ f => [f] | _ => [] end) l.

(** * The notions of the further properties *)

(** ** Relations between the worlds of a run *)

(** [m] takes the world it starts in to one that [R] relates to it, whenever
    it returns. *)
Definition keeps {k A} (R : World k -> World k -> Prop) (m : M k A) : Prop :=
  forall w a w', m w = Ok (a, w') -> R w w'.

(** The world with one more call in its log, with another buffer, with
    other semaphores. *)
Definition logged {k} (c : call) (w : World k) : World k :=
  {| self := self w; sems := sems w; calls := calls w ++ [c] |}.

Definition withSelf {k} (cb : GrVkCommandBuffer k) (w : World k) : World k :=
  {| self := cb; sems := sems w; calls := calls w |}.

Definition withSems {k} (st : SemaphoreStore) (w : World k) : World k :=
  {| self := self w; sems := st; calls := calls w |}.

(** Methods of a primary command buffer, one after the other. *)
Definition runPrimaryOps (gpu : GrVkGpu) (ops : list PrimaryOp) : M Primary unit :=
  forEach ops (runPrimaryOp gpu).

(** ** References acquired, held and released *)

(** The resources that the two tracking lists of a buffer hold. *)
Definition held {k} (cb : GrVkCommandBuffer k) : list ptr :=
  items (fTrackedResources cb) ++ items (fTrackedRecycledResources cb).

(** The resources that a log takes a reference on (the ref() of addResource
    and addRecycledResource), and those that it releases (by unref, recycle
    or unrefAndAbandon).  The reference that executeCommands takes on a
    secondary buffer is not one of these: it is logged as [SecondaryRef] and
    followed up by [secondariesTaken] below. *)
Definition acquired (l : list call) : list ptr :=
  flat_map (fun c => match c with ResourceRef r => [r] | _ => [] end) l.

Definition released (l : list call) : list ptr :=
  flat_map (fun c => match c with
                     | ResourceUnref r | ResourceRecycle r
                     | ResourceUnrefAndAbandon r => [r]
                     | _ => []
                     end) l.

Definition occurrences (r : ptr) (l : list ptr) : nat := count_occ Z.eq_dec l r.

(** Between [w] and [w'] every reference taken on a resource is either
    released or still an entry of a tracking list, counted per resource. *)
Definition balanced {k} (w w' : World k) : Prop :=
  exists evs,
    calls w' = calls w ++ evs /\
    forall r,
      (occurrences r (held (self w)) + occurrences r (acquired evs) =
       occurrences r (released evs) + occurrences r (held (self w')))%nat.

(** freeGPUData and abandonGPUData release what the buffer holds and leave
    the tracking lists as they are. *)
Definition releasesWithoutClearing (op : PrimaryOp) : bool :=
  match op with
  | PBase BFreeGPUData | PBase BAbandonGPUData => true
  | _ => false
  end.

(** ** The recording state *)

(** A view of the buffer is the same in two worlds. *)
Definition sameAt {k T} (view : GrVkCommandBuffer k -> T) (w w' : World k) : Prop :=
  view (self w') = view (self w).

(** Whether the buffer is recording, the render pass it is in, and its
    native handle. *)
Record RecordingState := {
  rs_isActive : bool;
  rs_activeRenderPass : option GrVkRenderPass;
  rs_cmdBuffer : VkHandle }.

Definition recordingState {k} (cb : GrVkCommandBuffer k) : RecordingState :=
  {| rs_isActive := fIsActive cb;
     rs_activeRenderPass := fActiveRenderPass cb;
     rs_cmdBuffer := fCmdBuffer cb |}.

(** The transitions of the recording state, method by method. *)
Definition recordingAfterPrimary (op : PrimaryOp) (rs : RecordingState) : RecordingState :=
  match op with
  | PBegin =>
      {| rs_isActive := true; rs_activeRenderPass := rs_activeRenderPass rs;
         rs_cmdBuffer := rs_cmdBuffer rs |}
  | PEnd =>
      {| rs_isActive := false; rs_activeRenderPass := rs_activeRenderPass rs;
         rs_cmdBuffer := rs_cmdBuffer rs |}
  | PBeginRenderPass renderPass _ _ _ _ =>
      {| rs_isActive := rs_isActive rs; rs_activeRenderPass := Some renderPass;
         rs_cmdBuffer := rs_cmdBuffer rs |}
  | PEndRenderPass =>
      {| rs_isActive := rs_isActive rs; rs_activeRenderPass := None;
         rs_cmdBuffer := rs_cmdBuffer rs |}
  | _ => rs
  end.

Definition recordingAfterSecondary (op : SecondaryOp) (rs : RecordingState)
    : RecordingState :=
  match op with
  | SBegin _ compatibleRenderPass =>
      {| rs_isActive := true; rs_activeRenderPass := compatibleRenderPass;
         rs_cmdBuffer := rs_cmdBuffer rs |}
  | SEnd =>
      {| rs_isActive := false; rs_activeRenderPass := rs_activeRenderPass rs;
         rs_cmdBuffer := rs_cmdBuffer rs |}
  | _ => rs
  end.

(** ** The secondary buffers of a primary buffer *)

(** The secondary buffers that a log takes a reference to, and those it
    hands back for reuse, in order. *)
Definition secondariesTaken (l : list call) : list ptr :=
  flat_map (fun c => match c with SecondaryRef b => [b] | _ => [] end) l.

Definition secondariesReturned (l : list call) : list ptr :=
  flat_map (fun c => match c with RecycleSecondaryCommandBuffer b => [b] | _ => [] end) l.

(** Between two worlds of a run, the buffers listed at the start followed
    by the buffers taken are the buffers returned followed by the buffers
    listed at the end. *)
Definition secondariesLedger (w w' : World Primary) : Prop :=
  exists evs,
    calls w' = calls w ++ evs /\
    fSecondaryCommandBuffers (primary (self w)) ++ secondariesTaken evs =
    secondariesReturned evs ++ fSecondaryCommandBuffers (primary (self w')).

(** ** freeGPUData and abandonGPUData *)

Definition abandonCalls {k} (cb : GrVkCommandBuffer k) : list call :=
  List.map ResourceUnrefAndAbandon (items (fTrackedResources cb)) ++
  List.map ResourceUnrefAndAbandon (items (fTrackedRecycledResources cb)).

(** What the hook of freeGPUData asks for, and the calls it makes. *)
Definition onFreeGPUDataRejects {k} : GrVkCommandBuffer k -> bool :=
  match k with
  | Primary => fun cb => nonNull (fActiveRenderPass cb)
  | Secondary => fun _ => false
  end.

Definition onFreeGPUDataCalls {k} (gpu : GrVkGpu) : GrVkCommandBuffer k -> list call :=
  match k with
  | Primary => fun cb =>
      if negb (fSubmitFence (primary cb) =? VK_NULL_HANDLE)
      then [DestroyFence (device gpu) (fSubmitFence (primary cb))]
      else []
  | Secondary => fun _ => []
  end.

Definition freeCalls {k} (gpu : GrVkGpu) (cb : GrVkCommandBuffer k) : list call :=
  releaseCalls cb ++
  [FreeCommandBuffers (device gpu) (cmdPool gpu) 1 (fCmdBuffer cb)] ++
  onFreeGPUDataCalls gpu cb.

(** ** What the methods ask of the recording state *)

(** The value of fIsActive that a method asserts first, if it asserts one. *)
Definition requiredActiveBase (op : BaseOp) : option bool :=
  match op with
  | BFreeGPUData | BReset => Some false
  | BAbandonGPUData | BBindInputBuffer _ _ | BBindIndexBuffer _ => None
  | BPipelineBarrier _ _ _ _ _ | BClearAttachments _ _ _ _
  | BBindDescriptorSets_pipelineState _ _ _ _ _ _ _
  | BBindDescriptorSets _ _ _ _ _ _ _ _ | BBindPipeline _
  | BDrawIndexed _ _ _ _ _ | BDraw _ _ _ _
  | BSetViewport _ _ _ | BSetScissor _ _ _ | BSetBlendConstants _ => Some true
  end.

Definition requiredActivePrimary (op : PrimaryOp) : option bool :=
  match op with
  | PBase op => requiredActiveBase op
  | PBegin | PSubmitToQueue _ _ _ _ => Some false
  | PFinished => None
  | PEnd | PBeginRenderPass _ _ _ _ _ | PEndRenderPass | PExecuteCommands _
  | POutsidePass _ => Some true
  end.

Definition requiredActiveSecondary (op : SecondaryOp) : option bool :=
  match op with
  | SBase op => requiredActiveBase op
  | SBegin _ _ => Some false
  | SEnd => Some true
  end.

(** Whether a method that records asserts, right after fIsActive, that a
    render pass is open ([Some true]) or that none is ([Some false]). *)
Definition requiredRenderPassBase (op : BaseOp) : option bool :=
  match op with
  | BClearAttachments _ _ _ _ | BDrawIndexed _ _ _ _ _ | BDraw _ _ _ _ => Some true
  | BPipelineBarrier _ _ _ _ _ => Some false
  | BFreeGPUData | BAbandonGPUData | BReset | BBindInputBuffer _ _ | BBindIndexBuffer _
  | BBindDescriptorSets_pipelineState _ _ _ _ _ _ _
  | BBindDescriptorSets _ _ _ _ _ _ _ _ | BBindPipeline _
  | BSetViewport _ _ _ | BSetScissor _ _ _ | BSetBlendConstants _ => None
  end.

Definition requiredRenderPassPrimary (op : PrimaryOp) : option bool :=
  match op with
  | PBase op => requiredRenderPassBase op
  | PEnd | PBeginRenderPass _ _ _ _ _ | POutsidePass _ => Some false
  | PEndRenderPass => Some true
  | PBegin | PExecuteCommands _ | PSubmitToQueue _ _ _ _ | PFinished => None
  end.

Definition requiredRenderPassSecondary (op : SecondaryOp) : option bool :=
  match op with
  | SBase op => requiredRenderPassBase op
  | SBegin _ _ | SEnd => None
  end.

(** The text of the assertion that fails. *)
Definition activeAssertion (b : bool) : string :=
  if b then "fIsActive" else "!fIsActive".

Definition renderPassAssertion (b : bool) : string :=
  if b then "fActiveRenderPass" else "!fActiveRenderPass".

(** ** copyBuffer and updateBuffer *)

(** A region lies inside the two buffers, as far as the five assertions of
    copyBuffer can tell: the two sums are taken in 64 bits. *)
Definition regionInBounds (srcBuffer dstBuffer : GrVkBuffer) (region : VkBufferCopy)
    : bool :=
  (0 <? size region) &&
  (srcOffset region <? buf_size srcBuffer) &&
  (dstOffset region <? buf_size dstBuffer) &&
  (add_uint64 (srcOffset region) (size region) <=? buf_size srcBuffer) &&
  (add_uint64 (dstOffset region) (size region) <=? buf_size dstBuffer).

(** The first [regionCount] regions exist and lie inside the buffers. *)
Definition regionsInBounds (srcBuffer dstBuffer : GrVkBuffer) (regionCount : Z)
    (regions : list VkBufferCopy) : bool :=
  forallb (fun i => match regions !! i with
                    | Some region => regionInBounds srcBuffer dstBuffer region
                    | None => false
                    end)
          (seq 0 (Z.to_nat regionCount)).

(** Offset and size are multiples of four, and the size is at most 64 KiB. *)
Definition updateInBounds (dstOffset dataSize : Z) : bool :=
  (dstOffset mod 4 =? 0) && (dataSize mod 4 =? 0) && (dataSize <=? 65536).

(** The buffer is recording, outside a render pass. *)
Definition recordingOutsidePass {k} (cb : GrVkCommandBuffer k) : bool :=
  fIsActive cb && negb (nonNull (fActiveRenderPass cb)).

(** ** Forced synchronisation *)

(** The wait of a forced synchronisation on the fence that the buffer holds,
    and what the device answers to it. *)
Definition waitForSubmitFence (gpu : GrVkGpu) (w : World Primary) : call :=
  WaitForFences (device gpu) 1 (fSubmitFence (primary (self w))) true UINT64_MAX.

Definition waitResult (gpu : GrVkGpu) (w : World Primary) : Z :=
  vkResult (vkInterface gpu (calls w) (waitForSubmitFence gpu w)).

(** ** The mutex of the semaphores *)

Definition isMutexCall (c : call) : bool :=
  match c with
  | AcquireMutex | ReleaseMutex => true
  | _ => false
  end.

Definition mutexCalls (l : list call) : list call := List.filter isMutexCall l.

(** The calls of a log that are made while the mutex is held ([want] is
    true) or while it is not (false); [locked] says whether it is held at the
    start. *)
Fixpoint callsWhile (want locked : bool) (l : list call) : list call :=
  match l with
  | [] => []
  | AcquireMutex :: l' => callsWhile want true l'
  | ReleaseMutex :: l' => callsWhile want false l'
  | c :: l' => (if Bool.eqb locked want then [c] else []) ++ callsWhile want locked l'
  end.

Definition underMutex (l : list call) : list call := callsWhile true false l.
Definition outsideMutex (l : list call) : list call := callsWhile false false l.

(** [0 == signalCount && 0 == waitCount] *)
Definition noSemaphores (signals waits : list ptr) : bool :=
  (0 =? Z.of_nat (length signals)) && (0 =? Z.of_nat (length waits)).

(** ** The first use of a state after its invalidation *)

(** The value is the one that invalidateState leaves in the cache. *)
Definition isSentinel (d : DynamicState) : Prop :=
  match d with
  | DynViewport _ v => v = unsetViewport
  | DynScissor _ r => r = unsetScissor
  | DynBlendConstants b => b = unsetBlendConstant
  end.

(** ** The reset counter *)

Definition resetCounterInRange {k} (cb : GrVkCommandBuffer k) : Prop :=
  0 <= fNumResets cb <= kNumRewindResetsBeforeFullReset.

(** ** clearAttachments *)

(** The attachment may be cleared inside the render pass, as far as the
    assertions of clearAttachments can tell: a colour attachment has the
    index of the colour attachment of the render pass. *)
Definition attachmentMatches (renderPass : GrVkRenderPass) (a : VkClearAttachment)
    : bool :=
  if aspectMask a =? VK_IMAGE_ASPECT_COLOR_BIT then
    match colorAttachmentIndex renderPass with
    | Some testIndex => testIndex =? colorAttachment a
    | None => false
    end
  else true.

(** The first [numAttachments] attachments exist and match. *)
Definition attachmentsMatch (renderPass : GrVkRenderPass) (numAttachments : Z)
    (attachments : list VkClearAttachment) : bool :=
  forallb (fun i => match attachments !! i with
                    | Some a => attachmentMatches renderPass a
                    | None => false
                    end)
          (seq 0 (Z.to_nat numAttachments)).

(** ** bindPipeline *)

Definition bindPipelineCalls {k} (pipeline : GrVkPipeline) (cb : GrVkCommandBuffer k)
    : list call :=
  [CmdBindPipeline (fCmdBuffer cb) VK_PIPELINE_BIND_POINT_GRAPHICS (pl_pipeline pipeline);
   ResourceRef (pl_this pipeline)].

(** ** A recording, from reset to end *)

(** The device answers every call with a result that passes the check. *)
Definition deviceSucceeds (gpu : GrVkGpu) : Prop :=
  forall history c, errcheck (vkResult (vkInterface gpu history c)) = true.

(** The methods that ask for nothing but a buffer that is recording inside a
    render pass. *)
Definition recordsInsidePass (op : BaseOp) : bool :=
  match op with
  | BDrawIndexed _ _ _ _ _ | BDraw _ _ _ _ | BBindPipeline _
  | BSetBlendConstants _ => true
  | _ => false
  end.

(** Reset, begin, one render pass with the given methods inside it, end. *)
Definition recordingOf (renderPass : GrVkRenderPass) (clearValues : ptr)
    (target : GrVkRenderTarget) (bounds : SkIRect) (inside : list BaseOp)
    : list PrimaryOp :=
  [PBase BReset; PBegin;
   PBeginRenderPass renderPass clearValues target bounds false] ++
  List.map PBase inside ++
  [PEndRenderPass; PEnd].

(** The secondary buffer that a method takes, those that it hands back, and
    the list it leaves, given the list it finds. *)
Definition takesSecondary (op : PrimaryOp) : list ptr :=
  match op with
  | PExecuteCommands buffer => [sec_this buffer]
  | _ => []
  end.

Definition returnsSecondaries (op : PrimaryOp) (listed : list ptr) : list ptr :=
  match op with
  | PBase BReset => listed
  | _ => []
  end.

Definition secondariesAfter (op : PrimaryOp) (listed : list ptr) : list ptr :=
  match op with
  | PExecuteCommands buffer => listed ++ [sec_this buffer]
  | PBase BReset => []
  | _ => listed
  end.

(** Between two worlds no secondary buffer is taken or handed back, and the
    list is the same. *)
Definition secondariesQuiet (w w' : World Primary) : Prop :=
  exists evs,
    calls w' = calls w ++ evs /\
    secondariesTaken evs = [] /\ secondariesReturned evs = [] /\
    fSecondaryCommandBuffers (primary (self w')) =
      fSecondaryCommandBuffers (primary (self w)).

(** The counter that a method leaves, given the one it finds. *)
Definition counterAfterBase (op : BaseOp) (n : Z) : Z :=
  match op with
  | BReset => if n + 1 >? kNumRewindResetsBeforeFullReset then 0 else n + 1
  | _ => n
  end.

Definition counterAfterPrimary (op : PrimaryOp) (n : Z) : Z :=
  match op with
  | PBase op => counterAfterBase op n
  | _ => n
  end.

Definition counterAfterSecondary (op : SecondaryOp) (n : Z) : Z :=
  match op with
  | SBase op => counterAfterBase op n
  | _ => n
  end.

End Model.

Arguments self {ext k} _.
Arguments sems {ext k} _.
Arguments calls {ext k} _.

(** * A sample configuration

    The theorems below hold for every choice of the header declarations and
    for every device.  They are put to work on one choice: constants of the
    expected magnitude, a device that answers every call with VK_SUCCESS
    (and VK_NOT_READY when asked for the status of a fence), and semaphores
    with two flags. *)

(** Modelled from the spec: GrVkSemaphore::Resource (GrVkSemaphore.h is not
    part of the sources): a semaphore has a signal-intent and a wait-intent
    flag, queried as "should still signal" and "should still wait" and set by
    the two marks. *)
Record SemaphoreResource := {
  fSemaphore : VkHandle;
  fHasBeenSubmittedToQueueForSignal : bool;
  fHasBeenSubmittedToQueueForWait : bool }.

Definition flag_markAsSignaled (s : ptr) (st : ptr -> SemaphoreResource)
    : ptr -> SemaphoreResource :=
  fun p =>
    if p =? s
    then {| fSemaphore := fSemaphore (st p);
            fHasBeenSubmittedToQueueForSignal := true;
            fHasBeenSubmittedToQueueForWait := fHasBeenSubmittedToQueueForWait (st p) |}
    else st p.

Definition flag_markAsWaited (s : ptr) (st : ptr -> SemaphoreResource)
    : ptr -> SemaphoreResource :=
  fun p =>
    if p =? s
    then {| fSemaphore := fSemaphore (st p);
            fHasBeenSubmittedToQueueForSignal := fHasBeenSubmittedToQueueForSignal (st p);
            fHasBeenSubmittedToQueueForWait := true |}
    else st p.

Definition sampleExternals : Externals := {|
  kMaxInputBuffers := 2;
  kNumRewindResetsBeforeFullReset := 8;
  kInitialTrackedResourcesCount := 32;
  errcheck := fun r => r =? VK_SUCCESS;
  SemaphoreStore := ptr -> SemaphoreResource;
  shouldSignal := fun st s => negb (fHasBeenSubmittedToQueueForSignal (st s));
  shouldWait := fun st s => negb (fHasBeenSubmittedToQueueForWait (st s));
  markAsSignaled := flag_markAsSignaled;
  markAsWaited := flag_markAsWaited;
  semaphore := fun st s => fSemaphore (st s);
  isCompatibleTarget := fun _ _ => true;
  isCompatiblePass := fun rp rp' => vkRenderPass rp =? vkRenderPass rp' |}.

(** Semaphore 22 has been submitted for signal already, semaphore 24 for
    wait; the others are fresh. *)
Definition sampleSemaphores : ptr -> SemaphoreResource :=
  fun p => {| fSemaphore := 1000 + p;
              fHasBeenSubmittedToQueueForSignal := p =? 22;
              fHasBeenSubmittedToQueueForWait := p =? 24 |}.

Definition sampleGpu : GrVkGpu :=
  {| vkInterface := fun history c =>
       match c with
       | CreateFence _ =>
           {| vkResult := VK_SUCCESS; outHandle := 100 + Z.of_nat (length history) |}
       | GetFenceStatus _ _ => {| vkResult := VK_NOT_READY; outHandle := 0 |}
       | _ => {| vkResult := VK_SUCCESS; outHandle := 0 |}
       end;
     device := 1;
     cmdPool := 2 |}.

(** A device whose fences are signaled when asked, and one that is lost. *)
Definition readyGpu : GrVkGpu :=
  {| vkInterface := fun _ _ => {| vkResult := VK_SUCCESS; outHandle := 0 |};
     device := 1; cmdPool := 2 |}.

Definition lostGpu : GrVkGpu :=
  {| vkInterface := fun _ _ => {| vkResult := -4; outHandle := 0 |};
     device := 1; cmdPool := 2 |}.

(** An idle buffer: nothing tracked, the cache unset. *)
Definition idleBuffer (k : BufferKind) (d : Derived k) : GrVkCommandBuffer k :=
  {| fIsActive := false;
     fActiveRenderPass := None;
     fCmdBuffer := 10;
     fBoundInputBuffers := [VK_NULL_HANDLE; VK_NULL_HANDLE];
     fBoundIndexBuffer := VK_NULL_HANDLE;
     fCachedViewport := unsetViewport;
     fCachedScissor := unsetScissor;
     fCachedBlendConstant := unsetBlendConstant;
     fTrackedResources := {| items := []; reserve := 32 |};
     fTrackedRecycledResources := {| items := []; reserve := 32 |};
     fNumResets := 0;
     derived := d |}.

Definition idlePrimary : World (ext := sampleExternals) Primary :=
  @Build_World sampleExternals Primary
    (idleBuffer Primary
       {| fSubmitFence := VK_NULL_HANDLE; fSecondaryCommandBuffers := [] |})
    sampleSemaphores [].

Definition idleSecondary : World (ext := sampleExternals) Secondary :=
  @Build_World sampleExternals Secondary (idleBuffer Secondary tt) sampleSemaphores [].

(** The world a computation leaves behind (the one it started in when it
    fails). *)
Definition after {ext : Externals} {k A} (m : M k A) (w : World k) : World k :=
  match m w with
  | Ok (_, w') => w'
  | _ => w
  end.

(** A primary buffer that has been reset and is recording, and one inside a
    render pass. *)
Definition recordingPrimary : World (ext := sampleExternals) Primary :=
  after (Primary_begin sampleGpu) (after (reset sampleGpu) idlePrimary).

Definition sampleRenderPass : GrVkRenderPass :=
  {| rp_this := 70; vkRenderPass := 71; stencilAttachmentIndex := Some 1;
     colorAttachmentIndex := Some 0; clearValueCount := 1 |}.

Definition sampleTarget : GrVkRenderTarget :=
  {| rt_framebuffer := 80; rt_resources := [81; 82] |}.

Definition sampleBounds : SkIRect :=
  {| fLeft := 0; fTop := 0; fRight := 640; fBottom := 480 |}.

Definition inRenderPass : World (ext := sampleExternals) Primary :=
  after (beginRenderPass sampleGpu sampleRenderPass 0 sampleTarget sampleBounds false)
        recordingPrimary.

Definition sampleVertexBuffer : GrVkBuffer :=
  {| buf_buffer := 50; buf_offset := 0; buf_size := 256; buf_resource := 60 |}.

Definition sampleSecondary : SecondaryArg :=
  {| sec_this := 90;
     sec_object := set_fActiveRenderPass (Some sampleRenderPass) (idleBuffer Secondary tt) |}.

Definition sampleViewport : VkViewport :=
  {| vp_x := float_zero; vp_y := float_zero;
     vp_width := float_bits false 136 2097152;   (* 640.0f *)
     vp_height := float_bits false 135 7340032;  (* 480.0f *)
     vp_minDepth := float_zero;
     vp_maxDepth := float_bits false 127 0 |}.    (* 1.0f *)

Definition sampleScissor : VkRect2D :=
  {| offset := {| off_x := word32_of_Z 0; off_y := word32_of_Z 0 |};
     extent := {| ext_width := word32_of_Z 640; ext_height := word32_of_Z 480 |} |}.

(** A primary buffer after a submission without forced sync: it holds the
    fence of that submission. *)
Definition submittedPrimary : World (ext := sampleExternals) Primary :=
  after (submitToQueue sampleGpu 5 kSkip_SyncQueue [] []) idlePrimary.

(** A render pass recorded into an idle buffer. *)
Definition sampleRecording : list PrimaryOp :=
  [PBegin; PBeginRenderPass sampleRenderPass 0 sampleTarget sampleBounds false;
   PEndRenderPass; PEnd].

(** A primary buffer that has recorded a render pass and holds its resources,
    and the execution of a secondary buffer followed by reset. *)
Definition recordedPrimary : World (ext := sampleExternals) Primary :=
  after (runPrimaryOps sampleGpu sampleRecording) idlePrimary.

Definition sampleExecuting : list PrimaryOp :=
  [PBegin; PBeginRenderPass sampleRenderPass 0 sampleTarget sampleBounds true;
   PExecuteCommands sampleSecondary; PEndRenderPass; PEnd].

Definition sampleExecution : list PrimaryOp := sampleExecuting ++ [PBase BReset].

(** Two buffers and a region that fits both. *)
Definition sampleSrcBuffer : GrVkBuffer :=
  {| buf_buffer := 51; buf_offset := 0; buf_size := 1024; buf_resource := 61 |}.

Definition sampleDstBuffer : GrVkBuffer :=
  {| buf_buffer := 52; buf_offset := 0; buf_size := 512; buf_resource := 62 |}.

Definition sampleRegion : VkBufferCopy :=
  {| srcOffset := 512; dstOffset := 0; size := 512 |}.

Definition samplePipeline : GrVkPipeline := {| pl_this := 40; pl_pipeline := 41 |}.

Definition sampleClearAttachment : VkClearAttachment :=
  {| aspectMask := VK_IMAGE_ASPECT_COLOR_BIT; colorAttachment := 0; clearValue := 0 |}.

(** A primary buffer inside a render pass that has bound a vertex buffer and
    set a viewport: its cache holds these. *)
Definition boundPrimary : World (ext := sampleExternals) Primary :=
  after (setViewport sampleGpu 0 1 sampleViewport)
        (after (bindInputBuffer sampleGpu 0 sampleVertexBuffer) inRenderPass).

(** * Properties *)

Section Properties.
Context {ext : Externals}.

#[local] Notation "x <- m ;; f" := (bind m (fun x => f))
  (at level 100, m at next level, f at level 200, right associativity).
#[local] Notation "m ;;; f" := (bind m (fun _ => f))
  (at level 100, f at level 200, right associativity).

(** ** The monad *)

Lemma bind_Ok {k A B} (m : M k A) (f : A -> M k B) w a w1 :
  m w = Ok (a, w1) -> bind m f w = f a w1.
Proof. intros H. unfold bind. now rewrite H. Qed.

Lemma bind_Ok_inv {k A B} (m : M k A) (f : A -> M k B) w r :
  bind m f w = Ok r -> exists a w1, m w = Ok (a, w1) /\ f a w1 = Ok r.
Proof.
  unfold bind. destruct (m w) as [[a w1]| | |]; try discriminate.
  intros H. now exists a, w1.
Qed.

Lemma World_eta {k} (w : World k) :
  {| self := self w; sems := sems w; calls := calls w |} = w.
Proof. now destruct w. Qed.

Lemma emitted_app {k} (w w' : World k) l :
  calls w' = calls w ++ l -> emitted w w' = l.
Proof.
  intros H. unfold emitted. rewrite H.
  rewrite skipn_app, skipn_all, Nat.sub_diag. reflexivity.
Qed.

Lemma repeatM_fixed {k} (m : M k unit) w n :
  m w = Ok (tt, w) -> repeatM n m w = Ok (tt, w).
Proof.
  intros H. induction n as [|n IH]; [reflexivity|].
  cbn [repeatM]. now rewrite (bind_Ok _ _ _ _ _ H).
Qed.

Lemma forEach_invoke {k A} (c : A -> call) (l : list A) (w : World k) :
  forEach l (fun x => invoke (c x)) w =
  Ok (tt, {| self := self w; sems := sems w; calls := calls w ++ List.map c l |}).
Proof.
  revert w. induction l as [|x l IH]; intros w; cbn [forEach List.map].
  - unfold ret. now rewrite app_nil_r, World_eta.
  - unfold bind at 1, invoke at 1. rewrite IH. cbn [self sems calls].
    now rewrite <- app_assoc.
Qed.

(** ** Byte-exact comparison *)

Lemma Z_of_byte_inj x y : Z_of_byte x = Z_of_byte y -> x = y.
Proof.
  unfold Z_of_byte. intros H. apply N2Z.inj in H.
  assert (E : Some x = Some y) by (rewrite <- !Byte.of_to_N; now rewrite H).
  now injection E.
Qed.

Lemma memcmp_cons x a y b n :
  memcmp (x :: a) (y :: b) (S n) =
  if Byte.eqb x y then memcmp a b n else Z_of_byte x - Z_of_byte y.
Proof. reflexivity. Qed.

Lemma memcmp_refl a n : memcmp a a n = 0.
Proof.
  revert a. induction n as [|n IH]; intros [|x a]; try reflexivity.
  rewrite memcmp_cons, Byte.byte_dec_lb by reflexivity. apply IH.
Qed.

Lemma memcmp_zero n : forall a b,
  length a = n -> length b = n -> memcmp a b n = 0 -> a = b.
Proof.
  induction n as [|n IH]; intros [|x a] [|y b]; cbn [length];
    try discriminate; try reflexivity.
  intros Ha Hb. rewrite memcmp_cons. destruct (Byte.eqb x y) eqn:E.
  - intros H. apply Byte.byte_dec_bl in E. subst y. f_equal.
    apply IH; congruence.
  - intros H. apply Byte.eqb_false in E. exfalso. apply E.
    apply Z_of_byte_inj. lia.
Qed.

Lemma bytes_of_VkViewport_inj v v' :
  bytes_of_VkViewport v = bytes_of_VkViewport v' -> v = v'.
Proof.
  destruct v as [[] [] [] [] [] []], v' as [[] [] [] [] [] []].
  cbn. intros H. injection H. intros. subst. reflexivity.
Qed.

Lemma bytes_of_VkRect2D_inj r r' :
  bytes_of_VkRect2D r = bytes_of_VkRect2D r' -> r = r'.
Proof.
  destruct r as [[[] []] [[] []]], r' as [[[] []] [[] []]].
  cbn. intros H. injection H. intros. subst. reflexivity.
Qed.

Lemma bytes_of_float4_inj a a' :
  bytes_of_float4 a = bytes_of_float4 a' -> a = a'.
Proof.
  destruct a as [[] [] [] []], a' as [[] [] [] []].
  cbn. intros H. injection H. intros. subst. reflexivity.
Qed.

(** ** Invalidation of the cached state *)

Lemma invalidateState_eq {k} (w : World k) :
  invalidateState w =
  Ok (tt, {| self := invalidated (self w); sems := sems w; calls := calls w |}).
Proof. reflexivity. Qed.

(** ** Dynamic state: viewport, scissor, blend constants *)

Lemma setDynamicState_emit {k} gpu d (w : World k) :
  fIsActive (self w) = true ->
  differsFromCache d (self w) = true ->
  setDynamicState gpu d w =
  Ok (tt, {| self := cacheDynamicState d (self w); sems := sems w;
             calls := calls w ++ [dynamicStateCommand d (self w)] |}).
Proof.
  intros Ha Hd.
  destruct d; cbn [setDynamicState differsFromCache] in *;
    unfold setViewport, setScissor, setBlendConstants, bind, getSelf, SkASSERT;
    rewrite Ha; cbn [Z.eqb Pos.eqb]; rewrite Hd; reflexivity.
Qed.

Lemma setDynamicState_skip {k} gpu d (w : World k) :
  fIsActive (self w) = true ->
  differsFromCache d (self w) = false ->
  setDynamicState gpu d w = Ok (tt, w).
Proof.
  intros Ha Hd.
  destruct d; cbn [setDynamicState differsFromCache] in *;
    unfold setViewport, setScissor, setBlendConstants, bind, getSelf, SkASSERT;
    rewrite Ha; cbn [Z.eqb Pos.eqb]; rewrite Hd; reflexivity.
Qed.

Lemma differsFromCache_cached {k} d (cb : GrVkCommandBuffer k) :
  differsFromCache d (cacheDynamicState d cb) = false.
Proof.
  destruct d; cbn [differsFromCache cacheDynamicState];
    unfold set_fCachedViewport, set_fCachedScissor, set_fCachedBlendConstant;
    cbn [fCachedViewport fCachedScissor fCachedBlendConstant];
    now rewrite memcmp_refl.
Qed.

Lemma differsFromCache_false {k} d (cb : GrVkCommandBuffer k) :
  differsFromCache d cb = false -> isCached d cb.
Proof.
  destruct d; cbn [differsFromCache isCached]; intros H;
    apply negb_false_iff, Z.eqb_eq in H; symmetry.
  - apply bytes_of_VkViewport_inj. now apply (memcmp_zero sizeof_VkViewport).
  - apply bytes_of_VkRect2D_inj. now apply (memcmp_zero sizeof_VkRect2D).
  - apply bytes_of_float4_inj. now apply (memcmp_zero (4 * sizeof_float)).
Qed.

Lemma isCached_cached {k} d (cb : GrVkCommandBuffer k) :
  isCached d (cacheDynamicState d cb).
Proof. now destruct d. Qed.

(** C5, as amended: a run of [S n] calls of setViewport, setScissor or
    setBlendConstants with one byte-identical value on an Active buffer
    emits the native command once, on the first call, if the value differs
    byte-wise from the value cached before the run, and not at all if it
    does not; in both cases the cache holds the value afterwards. *)
Theorem repeated_set_emits_at_most_once {k} gpu d n (w : World k) :
  fIsActive (self w) = true ->
  exists w',
    repeatM (S n) (setDynamicState gpu d) w = Ok (tt, w') /\
    emitted w w' =
      (if differsFromCache d (self w) then [dynamicStateCommand d (self w)] else []) /\
    isCached d (self w').
Proof.
  intros Ha. destruct (differsFromCache d (self w)) eqn:Hd.
  - eexists. cbn [repeatM].
    rewrite (bind_Ok _ _ _ _ _ (setDynamicState_emit gpu d w Ha Hd)).
    rewrite repeatM_fixed.
    + split; [reflexivity|]. split.
      * now apply emitted_app.
      * apply isCached_cached.
    + apply setDynamicState_skip.
      * now destruct d.
      * apply differsFromCache_cached.
  - exists w. split; [|split].
    + apply repeatM_fixed. now apply setDynamicState_skip.
    + apply emitted_app. now rewrite app_nil_r.
    + now apply differsFromCache_false.
Qed.

(** C10: right after [invalidateState], setBlendConstants with the four
    components -1.0 compares byte-equal to the cached sentinel: it emits no
    native command and leaves the buffer as it is. *)
Theorem setBlendConstants_after_invalidate_is_skipped {k} gpu (w : World k) :
  fIsActive (self w) = true ->
  exists w1,
    invalidateState w = Ok (tt, w1) /\
    setBlendConstants gpu
      {| fc0 := float_neg_one; fc1 := float_neg_one;
         fc2 := float_neg_one; fc3 := float_neg_one |} w1 = Ok (tt, w1) /\
    emitted w w1 = [].
Proof.
  intros Ha. eexists. split; [apply invalidateState_eq|]. split.
  - apply (setDynamicState_skip gpu (DynBlendConstants unsetBlendConstant)).
    + exact Ha.
    + cbn [differsFromCache]. unfold invalidated, set_fCachedBlendConstant.
      cbn [self fCachedBlendConstant]. now rewrite memcmp_refl.
  - apply emitted_app. cbn [calls]. now rewrite app_nil_r.
Qed.

(** ** Buffer bindings *)

Lemma addResource_eq {k} r (w : World k) :
  addResource r w =
  Ok (tt, {| self := track r (self w); sems := sems w;
             calls := calls w ++ [ResourceRef r] |}).
Proof. reflexivity. Qed.

Lemma bindBuffer_emit {k} gpu b h (w : World k) :
  bindingArgumentsOk b = true ->
  cachedBinding b (self w) = Some h ->
  (buf_buffer (boundBuffer b) =? h) = false ->
  bindBuffer gpu b w =
  Ok (tt, {| self := track (buf_resource (boundBuffer b)) (cacheBinding b (self w));
             sems := sems w;
             calls := calls w ++ [bindCommand b (self w);
                                  ResourceRef (buf_resource (boundBuffer b))] |}).
Proof.
  unfold bindingArgumentsOk. intros Hok Hc Hne.
  apply andb_true_iff in Hok as [Hnull Hslot].
  destruct b as [binding vb|ib]; cbn [bindBuffer boundBuffer cachedBinding] in *.
  - unfold bindInputBuffer, bind, SkASSERT, getSelf.
    rewrite Hnull; cbn [negb]. rewrite Hslot; cbv beta iota.
    rewrite Hc, Hne; cbn [negb].
    unfold GR_VK_CALL, modifySelf, addResource, bind, invoke.
    cbn [self sems calls]. now rewrite <- app_assoc.
  - injection Hc as <-.
    unfold bindIndexBuffer, bind, SkASSERT, getSelf.
    rewrite Hnull; cbn [negb]. rewrite Hne; cbn [negb].
    unfold GR_VK_CALL, modifySelf, addResource, bind, invoke.
    cbn [self sems calls]. now rewrite <- app_assoc.
Qed.

Lemma bindBuffer_skip {k} gpu b h (w : World k) :
  bindingArgumentsOk b = true ->
  cachedBinding b (self w) = Some h ->
  (buf_buffer (boundBuffer b) =? h) = true ->
  bindBuffer gpu b w = Ok (tt, w).
Proof.
  unfold bindingArgumentsOk. intros Hok Hc Heq.
  apply andb_true_iff in Hok as [Hnull Hslot].
  destruct b as [binding vb|ib]; cbn [bindBuffer boundBuffer cachedBinding] in *.
  - unfold bindInputBuffer, bind, SkASSERT, getSelf.
    rewrite Hnull; cbn [negb]. rewrite Hslot; cbv beta iota.
    now rewrite Hc, Heq.
  - injection Hc as <-.
    unfold bindIndexBuffer, bind, SkASSERT, getSelf.
    rewrite Hnull; cbn [negb]. now rewrite Heq.
Qed.

Lemma cachedBinding_cacheBinding {k} b h (cb : GrVkCommandBuffer k) :
  cachedBinding b cb = Some h ->
  cachedBinding b (track (buf_resource (boundBuffer b)) (cacheBinding b cb)) =
  Some (buf_buffer (boundBuffer b)).
Proof.
  destruct b as [binding vb|ib]; cbn; [|reflexivity].
  intros H. apply list_lookup_insert_eq. now apply lookup_lt_Some in H.
Qed.

(** C2, as amended: in a run of [S n] calls of bindInputBuffer or
    bindIndexBuffer with one buffer, the first call emits the native bind
    command and appends the resource of the buffer to the tracked-resource
    list exactly when the handle differs from the cached binding of the
    slot; a call whose bind is skipped appends nothing.  So the run emits
    the command at most once and tracks the resource as often as it emits. *)
Theorem repeated_bind_tracks_only_when_it_binds {k} gpu b h n (w : World k) :
  bindingArgumentsOk b = true ->
  cachedBinding b (self w) = Some h ->
  exists w',
    repeatM (S n) (bindBuffer gpu b) w = Ok (tt, w') /\
    emitted w w' =
      (if buf_buffer (boundBuffer b) =? h then []
       else [bindCommand b (self w); ResourceRef (buf_resource (boundBuffer b))]) /\
    items (fTrackedResources (self w')) =
      items (fTrackedResources (self w)) ++
      (if buf_buffer (boundBuffer b) =? h then [] else [buf_resource (boundBuffer b)]) /\
    cachedBinding b (self w') = Some (buf_buffer (boundBuffer b)).
Proof.
  intros Hok Hc. destruct (buf_buffer (boundBuffer b) =? h) eqn:E.
  - exists w. split; [|split; [|split]].
    + apply repeatM_fixed. now apply (bindBuffer_skip gpu b h).
    + apply emitted_app. now rewrite app_nil_r.
    + now rewrite app_nil_r.
    + apply Z.eqb_eq in E. now rewrite E.
  - eexists. cbn [repeatM].
    rewrite (bind_Ok _ _ _ _ _ (bindBuffer_emit gpu b h w Hok Hc E)).
    rewrite repeatM_fixed.
    + split; [reflexivity|]. split; [now apply emitted_app|]. split.
      * cbn [self]. now destruct b.
      * cbn [self]. now apply (cachedBinding_cacheBinding b h).
    + apply (bindBuffer_skip gpu b (buf_buffer (boundBuffer b))).
      * exact Hok.
      * cbn [self]. now apply (cachedBinding_cacheBinding b h).
      * apply Z.eqb_refl.
Qed.

(** ** Tracking *)

Lemma forEach_addResource {k} (l : list ptr) (w : World k) :
  forEach l addResource w =
  Ok (tt, {| self := trackAll l (self w); sems := sems w;
             calls := calls w ++ List.map ResourceRef l |}).
Proof.
  revert w. induction l as [|r l IH]; intros w; cbn [forEach List.map].
  - unfold ret. cbn. now rewrite app_nil_r, World_eta.
  - unfold bind at 1. rewrite addResource_eq, IH. cbn [self sems calls trackAll fold_left].
    now rewrite <- app_assoc.
Qed.

(** ** finished *)

(** C7: [finished] answers true without asking the device when the buffer
    holds no fence; otherwise it asks for the status of the fence once and
    answers true on VK_SUCCESS, false on VK_NOT_READY, and aborts on any
    other status. *)
Theorem finished_cases gpu (w : World Primary) :
  let fence := fSubmitFence (primary (self w)) in
  let query := GetFenceStatus (device gpu) fence in
  let status := vkResult (vkInterface gpu (calls w) query) in
  let asked := {| self := self w; sems := sems w; calls := calls w ++ [query] |} in
  (fence = VK_NULL_HANDLE -> finished gpu w = Ok (true, w)) /\
  (fence <> VK_NULL_HANDLE -> status = VK_SUCCESS ->
     finished gpu w = Ok (true, asked)) /\
  (fence <> VK_NULL_HANDLE -> status = VK_NOT_READY ->
     finished gpu w = Ok (false, asked)) /\
  (fence <> VK_NULL_HANDLE -> status <> VK_SUCCESS -> status <> VK_NOT_READY ->
     finished gpu w = Aborted "failing").
Proof.
  cbv zeta. unfold finished, bind, getSelf, GR_VK_CALL.
  repeat split.
  - intros ->. reflexivity.
  - intros Hf Hs. apply not_eq_sym, Z.eqb_neq in Hf. rewrite Hf. cbv beta iota.
    now rewrite Hs.
  - intros Hf Hs. apply not_eq_sym, Z.eqb_neq in Hf. rewrite Hf. cbv beta iota.
    now rewrite Hs.
  - intros Hf Hs Hn. apply not_eq_sym, Z.eqb_neq in Hf. rewrite Hf. cbv beta iota.
    apply Z.eqb_neq in Hs, Hn. now rewrite Hs, Hn.
Qed.

(** ** beginRenderPass *)

Lemma advertisedClearValueCounts_refs l :
  advertisedClearValueCounts (List.map ResourceRef l) = [].
Proof. induction l; [reflexivity | assumption]. Qed.

(** C8: beginRenderPass on an Active buffer with no open render pass and a
    compatible target begins the pass with one native call; with a stencil
    attachment that call advertises two clear values when the render pass
    has any and none otherwise, without a stencil attachment it advertises
    the clear-value count of the render pass. *)
Theorem beginRenderPass_clearValueCount gpu renderPass clearValues target bounds
    forSecondaryCB (w : World Primary) :
  fIsActive (self w) = true ->
  fActiveRenderPass (self w) = None ->
  isCompatibleTarget renderPass target = true ->
  exists w' n,
    beginRenderPass gpu renderPass clearValues target bounds forSecondaryCB w =
      Ok (tt, w') /\
    advertisedClearValueCounts (emitted w w') = [n] /\
    (forall i, stencilAttachmentIndex renderPass = Some i ->
               clearValueCount renderPass <> 0 -> n = 2) /\
    (forall i, stencilAttachmentIndex renderPass = Some i ->
               clearValueCount renderPass = 0 -> n = 0) /\
    (stencilAttachmentIndex renderPass = None -> n = clearValueCount renderPass).
Proof.
  intros Ha Hp Hc. eexists. exists (beginInfo_clearValueCount renderPass).
  split; [|split].
  - unfold beginRenderPass, bind, getSelf, SkASSERT.
    rewrite Ha, Hp; cbn [negb nonNull]. rewrite Hc; cbv beta iota zeta.
    unfold GR_VK_CALL, modifySelf. rewrite addResource_eq, forEach_addResource.
    cbn [self sems calls]. reflexivity.
  - erewrite emitted_app; [|cbn [calls]; rewrite <- !app_assoc; reflexivity].
    cbn [app advertisedClearValueCounts flat_map rpb_clearValueCount].
    fold (advertisedClearValueCounts (List.map ResourceRef (rt_resources target))).
    now rewrite advertisedClearValueCounts_refs.
  - unfold beginInfo_clearValueCount. repeat split.
    + intros i -> Hn. apply Z.eqb_neq in Hn. now rewrite Hn.
    + intros i -> ->. reflexivity.
    + intros ->. reflexivity.
Qed.

(** ** Barriers, transfers and clears outside a render pass *)

(** The checks of the regions in [copyBuffer] fail, if they do, on an
    assertion about the regions, and change nothing. *)
Lemma copyBuffer_checks srcBuffer dstBuffer (regions : list VkBufferCopy)
    (l : list nat) (w : World Primary) :
  let checks :=
    forEach l (fun i =>
      match regions !! i with
      | Some region =>
          SkASSERT "region.size > 0" (size region >? 0) ;;;
          SkASSERT "region.srcOffset < srcBuffer->size()"
                   (srcOffset region <? buf_size srcBuffer) ;;;
          SkASSERT "region.dstOffset < dstBuffer->size()"
                   (dstOffset region <? buf_size dstBuffer) ;;;
          SkASSERT "region.srcOffset + region.size <= srcBuffer->size()"
                   (add_uint64 (srcOffset region) (size region) <=? buf_size srcBuffer) ;;;
          SkASSERT "region.dstOffset + region.size <= dstBuffer->size()"
                   (add_uint64 (dstOffset region) (size region) <=? buf_size dstBuffer)
      | None => undefinedBehaviour "regions[i]"
      end) in
  checks w = Ok (tt, w) \/
  (rejectedForState (checks w) = false /\ forall r, checks w <> Ok r).
Proof.
  cbv zeta. induction l as [|i l IH]; cbn [forEach].
  - now left.
  - unfold bind at 1. destruct (regions !! i) as [region|].
    + unfold bind, SkASSERT.
      repeat match goal with
             | |- context [if ?c then _ else _] =>
                 destruct c; cbv beta iota; [|right; split; [reflexivity|discriminate]]
             end.
      exact IH.
    + right. split; [reflexivity|discriminate].
Qed.

(** pipelineBarrier is a method of the base class: a secondary command
    buffer rejects it in the same way. *)
Lemma pipelineBarrier_rejects_open_render_pass {k} gpu src dst byRegion ty barrier
    (w : World k) :
  (fIsActive (self w) = false ->
     pipelineBarrier gpu src dst byRegion ty barrier w = AssertFailed "fIsActive") /\
  (fIsActive (self w) = true -> fActiveRenderPass (self w) <> None ->
     pipelineBarrier gpu src dst byRegion ty barrier w =
       AssertFailed "!fActiveRenderPass").
Proof.
  unfold pipelineBarrier, bind, getSelf, SkASSERT. split.
  - intros Ha. now rewrite Ha.
  - intros Ha Hp. rewrite Ha; cbv beta iota.
    destruct (fActiveRenderPass (self w)); [reflexivity|congruence].
Qed.

(** C9: pipelineBarrier and every transfer or clear outside a render pass
    first asserts that the buffer is Active and then that no render pass is
    open.  Called on an inactive buffer, or while a render pass is open, the
    call is rejected by the assertion; called on an Active buffer with no
    open render pass, neither of the two assertions fails. *)
Theorem outside_pass_ops_reject_open_render_pass gpu op (w : World Primary) :
  (fIsActive (self w) = false ->
     runOutsidePassOp gpu op w = AssertFailed "fIsActive") /\
  (fIsActive (self w) = true -> fActiveRenderPass (self w) <> None ->
     runOutsidePassOp gpu op w = AssertFailed "!fActiveRenderPass") /\
  (fIsActive (self w) = true -> fActiveRenderPass (self w) = None ->
     rejectedForState (runOutsidePassOp gpu op w) = false).
Proof.
  split; [|split].
  - intros Ha.
    destruct op; cbn [runOutsidePassOp];
      unfold pipelineBarrier, copyImage, blitImage_images, blitImage, copyImageToBuffer,
        copyBufferToImage, copyBuffer, updateBuffer, clearColorImage,
        clearDepthStencilImage, resolveImage, bind, getSelf, SkASSERT;
      now rewrite Ha.
  - intros Ha Hp.
    destruct (fActiveRenderPass (self w)) as [rp|] eqn:E; [clear Hp|congruence].
    destruct op; cbn [runOutsidePassOp];
      unfold pipelineBarrier, copyImage, blitImage_images, blitImage, copyImageToBuffer,
        copyBufferToImage, copyBuffer, updateBuffer, clearColorImage,
        clearDepthStencilImage, resolveImage, bind, getSelf, SkASSERT;
      rewrite Ha; cbv beta iota; now rewrite E.
  - intros Ha Hp.
    destruct op; cbn [runOutsidePassOp];
      try (unfold pipelineBarrier, copyImage, blitImage_images, blitImage,
             copyImageToBuffer, copyBufferToImage, updateBuffer, clearColorImage,
             clearDepthStencilImage, resolveImage, bind, getSelf, SkASSERT;
           rewrite Ha; cbv beta iota; rewrite Hp; cbn [negb nonNull];
           repeat match goal with
                  | |- context [if ?c then _ else _] => destruct c; cbv beta iota
                  | |- context [match ?t with kMemory_BarrierType => _ | _ => _ end] =>
                      destruct t
                  end;
           reflexivity).
    unfold copyBuffer. unfold bind at 1, getSelf at 1.
    unfold bind at 1, SkASSERT at 1. rewrite Ha.
    unfold bind at 1, SkASSERT at 1. rewrite Hp; cbn [negb nonNull].
    unfold bind at 1.
    match goal with
    | |- context [forEach ?l ?body w] =>
        destruct (copyBuffer_checks srcBuffer dstBuffer regions l w) as [H|[H1 H2]]
    end.
    + cbv zeta in H. rewrite H. reflexivity.
    + cbv zeta in H1, H2.
      match goal with
      | |- context [forEach ?l ?body w] => destruct (forEach l body w) as [r| | |]
      end; [now destruct (H2 r)|exact H1|reflexivity|reflexivity].
Qed.

(** ** Where the cached state is invalidated *)

Lemma frames_ret {k A} (a : A) : frames (k := k) (ret a).
Proof. intros w a' w' H. now inversion H. Qed.

Lemma frames_bind {k A B} (m : M k A) (f : A -> M k B) :
  frames m -> (forall a, frames (f a)) -> frames (bind m f).
Proof.
  intros Hm Hf w b w' H. apply bind_Ok_inv in H as (a & w1 & H1 & H2).
  rewrite (Hf a _ _ _ H2). apply (Hm _ _ _ H1).
Qed.

Lemma transforms_bind {k A B} (m : M k A) (f : A -> M k B) g :
  frames m -> (forall a, transforms (f a) g) -> transforms (bind m f) g.
Proof.
  intros Hm Hf w b w' H. apply bind_Ok_inv in H as (a & w1 & H1 & H2).
  rewrite (Hf a _ _ _ H2). f_equal. apply (Hm _ _ _ H1).
Qed.

Lemma frames_getSelf {k} : frames (k := k) getSelf.
Proof. intros w a w' H. now inversion H. Qed.

Lemma frames_getSems {k} : frames (k := k) getSems.
Proof. intros w a w' H. now inversion H. Qed.

Lemma frames_invoke {k} c : frames (k := k) (invoke c).
Proof. intros w a w' H. now inversion H. Qed.

Lemma frames_modifySems {k} f : frames (k := k) (modifySems f).
Proof. intros w a w' H. now inversion H. Qed.

Lemma frames_GR_VK_CALL {k} gpu c : frames (k := k) (GR_VK_CALL gpu c).
Proof. intros w a w' H. now inversion H. Qed.

Lemma frames_SkASSERT {k} e c : frames (k := k) (SkASSERT e c).
Proof. intros w a w' H. unfold SkASSERT in H. destruct c; now inversion H. Qed.

Lemma frames_SK_ABORT {k A} e : frames (k := k) (A := A) (SK_ABORT e).
Proof. intros w a w' H. discriminate. Qed.

Lemma frames_undefinedBehaviour {k A} e :
  frames (k := k) (A := A) (undefinedBehaviour e).
Proof. intros w a w' H. discriminate. Qed.

Lemma frames_modifySelf {k} (f : GrVkCommandBuffer k -> GrVkCommandBuffer k) :
  (forall cb, cachedState (f cb) = cachedState cb) -> frames (modifySelf f).
Proof. intros Hf w a w' H. inversion H. cbn [self]. apply Hf. Qed.

Lemma frames_forEach {k A} (l : list A) (body : A -> M k unit) :
  (forall x, frames (body x)) -> frames (forEach l body).
Proof.
  intros Hb. induction l as [|x l IH]; cbn [forEach].
  - apply frames_ret.
  - apply frames_bind; [apply Hb|intros _; apply IH].
Qed.

Lemma frames_GR_VK_CALL_ERRCHECK {k} gpu c : frames (k := k) (GR_VK_CALL_ERRCHECK gpu c).
Proof.
  apply frames_bind; [apply frames_GR_VK_CALL|intros r; apply frames_SkASSERT].
Qed.

Lemma frames_addResource {k} r : frames (k := k) (addResource r).
Proof. intros w a w' H. now inversion H. Qed.

Lemma frames_addRecycledResource {k} r : frames (k := k) (addRecycledResource r).
Proof. intros w a w' H. now inversion H. Qed.

Lemma frames_array {k} a n :
  frames (k := k) (arrayReset a) /\ frames (k := k) (arraySetReserve a n) /\
  frames (k := k) (arrayRewind a).
Proof.
  repeat split; intros w x w' H; inversion H; now destruct a.
Qed.

Lemma transforms_invalidateState {k A} (post : M k A) :
  frames post -> transforms (invalidateState ;;; post) unsetState.
Proof.
  intros Hp w a w' H. unfold bind in H. rewrite invalidateState_eq in H.
  now rewrite (Hp _ _ _ H).
Qed.

(** One step of the decomposition of a method into its statements. *)
Ltac frame_step :=
  match goal with
  | |- frames (bind _ _) => apply frames_bind; [|intros ?]
  | |- frames (ret _) => apply frames_ret
  | |- frames getSelf => apply frames_getSelf
  | |- frames getSems => apply frames_getSems
  | |- frames (invoke _) => apply frames_invoke
  | |- frames (modifySems _) => apply frames_modifySems
  | |- frames (GR_VK_CALL _ _) => apply frames_GR_VK_CALL
  | |- frames (GR_VK_CALL_ERRCHECK _ _) => apply frames_GR_VK_CALL_ERRCHECK
  | |- frames (SkASSERT _ _) => apply frames_SkASSERT
  | |- frames (SK_ABORT _) => apply frames_SK_ABORT
  | |- frames (undefinedBehaviour _) => apply frames_undefinedBehaviour
  | |- frames (addResource _) => apply frames_addResource
  | |- frames (addRecycledResource _) => apply frames_addRecycledResource
  | |- frames (arrayReset _) => apply frames_array; exact 0
  | |- frames (arraySetReserve _ _) => apply frames_array
  | |- frames (arrayRewind _) => apply frames_array; exact 0
  | |- frames (forEach _ _) => apply frames_forEach; intros ?
  | |- frames (modifySelf _) => apply frames_modifySelf; intros ?; reflexivity
  | |- frames (if ?c then _ else _) => destruct c
  | |- frames (match ?x with _ => _ end) => destruct x
  | |- frames (let _ := _ in _) => cbv zeta
  end.

Ltac frame := repeat frame_step.

Lemma frames_onReset {k} gpu : frames (k := k) (onReset gpu).
Proof. destruct k; cbn [onReset]; unfold Primary_onReset; frame. Qed.

Lemma frames_onFreeGPUData {k} gpu : frames (k := k) (onFreeGPUData gpu).
Proof. destruct k; cbn [onFreeGPUData]; unfold Primary_onFreeGPUData; frame. Qed.

Lemma transforms_reset {k} gpu : transforms (k := k) (reset gpu) unsetState.
Proof.
  unfold reset, preIncrement_fNumResets.
  repeat (apply transforms_bind; [solve [frame]|intros ?]).
  apply transforms_invalidateState.
  apply frames_bind; [frame|intros ?; apply frames_onReset].
Qed.

Lemma transforms_Primary_end gpu : transforms (Primary_end gpu) unsetState.
Proof.
  unfold Primary_end.
  repeat (apply transforms_bind; [solve [frame]|intros ?]).
  apply transforms_invalidateState. frame.
Qed.

Lemma transforms_Secondary_end gpu : transforms (Secondary_end gpu) unsetState.
Proof.
  unfold Secondary_end.
  repeat (apply transforms_bind; [solve [frame]|intros ?]).
  apply transforms_invalidateState. frame.
Qed.

Lemma transforms_executeCommands gpu buffer :
  transforms (executeCommands gpu buffer) unsetState.
Proof.
  unfold executeCommands.
  repeat (apply transforms_bind; [solve [frame]|intros ?]).
  intros w0 x w0' H. rewrite invalidateState_eq in H. now inversion H.
Qed.

Lemma transforms_bindInputBuffer {k} gpu binding vbuffer :
  transforms (k := k) (bindInputBuffer gpu binding vbuffer)
             (recordsBase (BBindInputBuffer binding vbuffer)).
Proof.
  intros w a w'. unfold bindInputBuffer, bind, SkASSERT, getSelf.
  destruct (negb (VK_NULL_HANDLE =? buf_buffer vbuffer)); [|discriminate].
  destruct (Z.of_N binding <? kMaxInputBuffers); [|discriminate].
  destruct (fBoundInputBuffers (self w) !! N.to_nat binding) as [bound|] eqn:E;
    [|discriminate].
  destruct (buf_buffer vbuffer =? bound) eqn:Eb; cbn [negb].
  - intros H. inversion H. subst w'. apply Z.eqb_eq in Eb. subst bound.
    unfold cachedState, recordsBase. cbn [cs_boundInputBuffers].
    now rewrite (list_insert_id _ _ _ E).
  - unfold GR_VK_CALL, modifySelf. rewrite addResource_eq. intros H. now inversion H.
Qed.

Lemma transforms_bindIndexBuffer {k} gpu ibuffer :
  transforms (k := k) (bindIndexBuffer gpu ibuffer)
             (recordsBase (BBindIndexBuffer ibuffer)).
Proof.
  intros w a w'. unfold bindIndexBuffer, bind, SkASSERT, getSelf.
  destruct (negb (VK_NULL_HANDLE =? buf_buffer ibuffer)); [|discriminate].
  destruct (buf_buffer ibuffer =? fBoundIndexBuffer (self w)) eqn:Eb; cbn [negb].
  - intros H. inversion H. subst w'. apply Z.eqb_eq in Eb.
    unfold cachedState, recordsBase. cbn [cs_boundIndexBuffer]. now rewrite Eb.
  - unfold GR_VK_CALL, modifySelf. rewrite addResource_eq. intros H. now inversion H.
Qed.

Lemma transforms_setViewport {k} gpu first count v :
  transforms (k := k) (setViewport gpu first count v)
             (recordsBase (BSetViewport first count v)).
Proof.
  intros w a w'. unfold setViewport, bind, SkASSERT, getSelf.
  destruct (fIsActive (self w)) eqn:Ha; [|discriminate].
  destruct (1 =? count) eqn:Ec; [|discriminate].
  apply Z.eqb_eq in Ec. subst count.
  destruct (differsFromCache (DynViewport first v) (self w)) eqn:Ed;
    cbn [differsFromCache] in Ed; rewrite Ed.
  - unfold GR_VK_CALL, modifySelf. intros H. now inversion H.
  - intros H. inversion H. subst w'.
    apply (differsFromCache_false (DynViewport first v)) in Ed. cbn in Ed.
    unfold cachedState, recordsBase. now rewrite Ed.
Qed.

Lemma transforms_setScissor {k} gpu first count r :
  transforms (k := k) (setScissor gpu first count r)
             (recordsBase (BSetScissor first count r)).
Proof.
  intros w a w'. unfold setScissor, bind, SkASSERT, getSelf.
  destruct (fIsActive (self w)) eqn:Ha; [|discriminate].
  destruct (1 =? count) eqn:Ec; [|discriminate].
  apply Z.eqb_eq in Ec. subst count.
  destruct (differsFromCache (DynScissor first r) (self w)) eqn:Ed;
    cbn [differsFromCache] in Ed; rewrite Ed.
  - unfold GR_VK_CALL, modifySelf. intros H. now inversion H.
  - intros H. inversion H. subst w'.
    apply (differsFromCache_false (DynScissor first r)) in Ed. cbn in Ed.
    unfold cachedState, recordsBase. now rewrite Ed.
Qed.

Lemma transforms_setBlendConstants {k} gpu b :
  transforms (k := k) (setBlendConstants gpu b) (recordsBase (BSetBlendConstants b)).
Proof.
  intros w a w'. unfold setBlendConstants, bind, SkASSERT, getSelf.
  destruct (fIsActive (self w)) eqn:Ha; [|discriminate].
  destruct (differsFromCache (DynBlendConstants b) (self w)) eqn:Ed;
    cbn [differsFromCache] in Ed; rewrite Ed.
  - unfold GR_VK_CALL, modifySelf. intros H. now inversion H.
  - intros H. inversion H. subst w'.
    apply (differsFromCache_false (DynBlendConstants b)) in Ed. cbn in Ed.
    unfold cachedState, recordsBase. now rewrite Ed.
Qed.

Lemma transforms_runBaseOp {k} gpu op :
  op <> BReset -> transforms (k := k) (runBaseOp gpu op) (recordsBase op).
Proof.
  intros Hop. destruct op; cbn [runBaseOp recordsBase];
    try congruence;
    try apply transforms_bindInputBuffer; try apply transforms_bindIndexBuffer;
    try apply transforms_setViewport; try apply transforms_setScissor;
    try apply transforms_setBlendConstants;
    match goal with |- transforms ?m _ => change (frames m) end.
  - unfold freeGPUData. frame. apply frames_onFreeGPUData.
  - unfold abandonGPUData. frame.
  - unfold pipelineBarrier. frame.
  - unfold clearAttachments. frame.
  - unfold bindDescriptorSets_pipelineState. frame.
  - unfold bindDescriptorSets. frame.
  - unfold bindPipeline. frame.
  - unfold drawIndexed. frame.
  - unfold draw. frame.
Qed.

Lemma frames_collectSignalSemaphores l acc : frames (collectSignalSemaphores l acc).
Proof.
  revert acc. induction l as [|s l IH]; intros acc; cbn [collectSignalSemaphores].
  - apply frames_ret.
  - frame; apply IH.
Qed.

Lemma frames_collectWaitSemaphores l acc acc' : frames (collectWaitSemaphores l acc acc').
Proof.
  revert acc acc'. induction l as [|s l IH]; intros acc acc'; cbn [collectWaitSemaphores].
  - apply frames_ret.
  - frame; apply IH.
Qed.

Lemma frames_submitToQueue gpu queue sync signals waits :
  frames (submitToQueue gpu queue sync signals waits).
Proof.
  unfold submitToQueue, submit_to_queue. cbv zeta.
  frame; try apply frames_collectSignalSemaphores;
    try apply frames_collectWaitSemaphores.
Qed.

Lemma frames_runOutsidePassOp gpu op : frames (runOutsidePassOp gpu op).
Proof.
  destruct op; cbn [runOutsidePassOp];
    unfold pipelineBarrier, copyImage, blitImage_images, blitImage, copyImageToBuffer,
      copyBufferToImage, copyBuffer, updateBuffer, clearColorImage,
      clearDepthStencilImage, resolveImage; frame.
Qed.


(** ** reset and the storage of the tracking lists *)

Lemma onReset_eq {k} gpu (w : World k) :
  onReset gpu w =
  Ok (tt, {| self := afterOnReset (self w); sems := sems w;
             calls := calls w ++ onResetCalls (self w) |}).
Proof.
  destruct k; cbn [onReset afterOnReset onResetCalls].
  - unfold Primary_onReset, bind, getSelf. now rewrite forEach_invoke.
  - unfold ret. now rewrite app_nil_r, World_eta.
Qed.

Lemma reset_rewinds {k} gpu (w : World k) :
  fIsActive (self w) = false ->
  fNumResets (self w) < INT_MAX ->
  fNumResets (self w) + 1 <= kNumRewindResetsBeforeFullReset ->
  reset gpu w =
  Ok (tt, {| self := afterOnReset (invalidated (rewound (self w)));
             sems := sems w;
             calls := (calls w ++ releaseCalls (self w) ++ rewindCalls ++
                       [ResetCommandBuffer (fCmdBuffer (self w)) 0]) ++
                      onResetCalls (invalidated (rewound (self w))) |}).
Proof.
  intros Ha Hmax Hk.
  unfold reset. unfold bind at 1, getSelf at 1.
  unfold bind at 1, SkASSERT at 1. rewrite Ha; cbn [negb].
  unfold bind at 1. rewrite forEach_invoke.
  unfold bind at 1. rewrite forEach_invoke.
  unfold bind at 1, preIncrement_fNumResets, bind at 1, getSelf at 1.
  cbn [self sems calls].
  replace (INT_MAX <=? fNumResets (self w)) with false by (symmetry; apply Z.leb_gt; lia).
  unfold bind at 1, modifySelf at 1, ret at 1. cbn [self sems calls].
  replace (fNumResets (self w) + 1 >? kNumRewindResetsBeforeFullReset) with false
    by (symmetry; rewrite Z.gtb_ltb; apply Z.ltb_ge; lia).
  unfold bind at 1. unfold arrayRewind, bind at 1, invoke, modifySelf.
  cbn [self sems calls set_trackList trackList bind].
  unfold bind at 1. rewrite invalidateState_eq.
  unfold bind at 1, GR_VK_CALL. cbn [self sems calls].
  rewrite onReset_eq. cbn [self sems calls].
  unfold releaseCalls, rewindCalls. rewrite <- !app_assoc. reflexivity.
Qed.

Lemma reset_full {k} gpu (w : World k) :
  fIsActive (self w) = false ->
  fNumResets (self w) < INT_MAX ->
  kNumRewindResetsBeforeFullReset < fNumResets (self w) + 1 ->
  reset gpu w =
  Ok (tt, {| self := afterOnReset (invalidated (fullyReset (self w)));
             sems := sems w;
             calls := (calls w ++ releaseCalls (self w) ++ fullResetCalls ++
                       [ResetCommandBuffer (fCmdBuffer (self w)) 0]) ++
                      onResetCalls (invalidated (fullyReset (self w))) |}).
Proof.
  intros Ha Hmax Hk.
  unfold reset. unfold bind at 1, getSelf at 1.
  unfold bind at 1, SkASSERT at 1. rewrite Ha; cbn [negb].
  unfold bind at 1. rewrite forEach_invoke.
  unfold bind at 1. rewrite forEach_invoke.
  unfold bind at 1, preIncrement_fNumResets, bind at 1, getSelf at 1.
  cbn [self sems calls].
  replace (INT_MAX <=? fNumResets (self w)) with false by (symmetry; apply Z.leb_gt; lia).
  unfold bind at 1, modifySelf at 1, ret at 1. cbn [self sems calls].
  replace (fNumResets (self w) + 1 >? kNumRewindResetsBeforeFullReset) with true
    by (symmetry; rewrite Z.gtb_ltb; apply Z.ltb_lt; lia).
  unfold bind at 1. unfold arrayReset, arraySetReserve, bind at 1, invoke, modifySelf.
  cbn [self sems calls set_trackList trackList bind].
  unfold bind at 1. rewrite invalidateState_eq.
  unfold bind at 1, GR_VK_CALL. cbn [self sems calls].
  rewrite onReset_eq. cbn [self sems calls].
  unfold releaseCalls, fullResetCalls. rewrite <- !app_assoc. reflexivity.
Qed.

Lemma storageCalls_app a b : storageCalls (a ++ b) = storageCalls a ++ storageCalls b.
Proof. apply List.filter_app. Qed.

Lemma storageCalls_map {A} (c : A -> call) l :
  (forall x, isStorageCall (c x) = false) -> storageCalls (List.map c l) = [].
Proof.
  intros Hc. induction l as [|x l IH]; [reflexivity|].
  cbn [List.map storageCalls List.filter]. now rewrite Hc.
Qed.

Lemma storageCalls_releaseCalls {k} (cb : GrVkCommandBuffer k) :
  storageCalls (releaseCalls cb) = [].
Proof.
  unfold releaseCalls. rewrite storageCalls_app, !storageCalls_map; auto.
Qed.

Lemma storageCalls_onResetCalls {k} (cb : GrVkCommandBuffer k) :
  storageCalls (onResetCalls cb) = [].
Proof. destruct k; [now apply storageCalls_map|reflexivity]. Qed.

Lemma reset_rewinds_step {k} gpu (w : World k) :
  fIsActive (self w) = false ->
  fNumResets (self w) < INT_MAX ->
  fNumResets (self w) + 1 <= kNumRewindResetsBeforeFullReset ->
  exists w' evs,
    reset gpu w = Ok (tt, w') /\
    fIsActive (self w') = false /\
    fNumResets (self w') = fNumResets (self w) + 1 /\
    reserves (self w') = reserves (self w) /\
    calls w' = calls w ++ evs /\
    storageCalls evs = rewindCalls.
Proof.
  intros Ha Hmax Hk. eexists. eexists.
  split; [apply (reset_rewinds gpu w Ha Hmax Hk)|].
  cbn [self calls]. repeat split.
  - destruct k; exact Ha.
  - now destruct k.
  - now destruct k.
  - rewrite <- app_assoc. reflexivity.
  - rewrite !storageCalls_app, storageCalls_releaseCalls, storageCalls_onResetCalls.
    reflexivity.
Qed.

Lemma reset_full_step {k} gpu (w : World k) :
  fIsActive (self w) = false ->
  fNumResets (self w) < INT_MAX ->
  kNumRewindResetsBeforeFullReset < fNumResets (self w) + 1 ->
  exists w' evs,
    reset gpu w = Ok (tt, w') /\
    fNumResets (self w') = 0 /\
    calls w' = calls w ++ evs /\
    storageCalls evs = fullResetCalls.
Proof.
  intros Ha Hmax Hk. eexists. eexists.
  split; [apply (reset_full gpu w Ha Hmax Hk)|].
  cbn [self calls]. repeat split.
  - now destruct k.
  - rewrite <- app_assoc. reflexivity.
  - rewrite !storageCalls_app, storageCalls_releaseCalls, storageCalls_onResetCalls.
    reflexivity.
Qed.

Lemma bind_assoc {k A B C} (m : M k A) (f : A -> M k B) (g : B -> M k C) w :
  bind (bind m f) g w = bind m (fun a => bind (f a) g) w.
Proof. unfold bind. now destruct (m w) as [[a w']| | |]. Qed.

Lemma bind_ext {k A B} (m : M k A) (f g : A -> M k B) w :
  (forall a w', f a w' = g a w') -> bind m f w = bind m g w.
Proof. intros H. unfold bind. destruct (m w) as [[a w']| | |]; auto. Qed.

Lemma repeatM_snoc {k} (m : M k unit) n w :
  repeatM (S n) m w = (repeatM n m ;;; m) w.
Proof.
  revert w. induction n as [|n IH]; intros w.
  - cbn [repeatM]. unfold bind, ret. now destruct (m w) as [[[] w']| | |].
  - transitivity (bind m (fun _ => repeatM (S n) m) w); [reflexivity|].
    transitivity (bind (bind m (fun _ => repeatM n m)) (fun _ => m) w); [|reflexivity].
    rewrite bind_assoc. apply bind_ext. intros _ w'. apply IH.
Qed.

(** [n] resets in a row that stay below the threshold only rewind. *)
Lemma rewinding_resets {k} gpu n : forall (w : World k),
  fIsActive (self w) = false ->
  0 <= fNumResets (self w) ->
  fNumResets (self w) + Z.of_nat n <= kNumRewindResetsBeforeFullReset ->
  kNumRewindResetsBeforeFullReset < INT_MAX ->
  exists w' evs,
    repeatM n (reset gpu) w = Ok (tt, w') /\
    fIsActive (self w') = false /\
    fNumResets (self w') = fNumResets (self w) + Z.of_nat n /\
    reserves (self w') = reserves (self w) /\
    calls w' = calls w ++ evs /\
    storageCalls evs = concat (repeat rewindCalls n).
Proof.
  induction n as [|n IH]; intros w Ha H0 Hn HK.
  - exists w, []. cbn [repeatM repeat concat]. unfold ret.
    repeat split; [exact Ha|lia|now rewrite app_nil_r].
  - destruct (reset_rewinds_step gpu w Ha) as (w1 & e1 & R1 & A1 & N1 & S1 & C1 & E1);
      [lia|lia|].
    destruct (IH w1 A1) as (w' & e2 & R2 & A2 & N2 & S2 & C2 & E2); [lia|lia|lia|].
    exists w', (e1 ++ e2). cbn [repeatM]. rewrite (bind_Ok _ _ _ _ _ R1).
    repeat split.
    + exact R2.
    + exact A2.
    + lia.
    + congruence.
    + now rewrite C2, C1, app_assoc.
    + rewrite storageCalls_app, E1, E2. reflexivity.
Qed.

(** C4: from a reset counter of zero, K + 1 resets in a row, K being
    kNumRewindResetsBeforeFullReset, are K rewind-only resets, which keep
    the storage of the two tracking lists, followed by one full reset, which
    deallocates both lists and reserves the initial capacity for both; the
    counter is zero again afterwards. *)
Theorem reset_K_plus_one_times {k} gpu (w : World k) :
  let K := kNumRewindResetsBeforeFullReset in
  0 <= K < INT_MAX ->
  fIsActive (self w) = false ->
  fNumResets (self w) = 0 ->
  exists wK w',
    repeatM (Z.to_nat K) (reset gpu) w = Ok (tt, wK) /\
    storageCalls (emitted w wK) = concat (repeat rewindCalls (Z.to_nat K)) /\
    reserves (self wK) = reserves (self w) /\
    repeatM (Z.to_nat (K + 1)) (reset gpu) w = Ok (tt, w') /\
    storageCalls (emitted w w') =
      concat (repeat rewindCalls (Z.to_nat K)) ++ fullResetCalls /\
    fNumResets (self w') = 0.
Proof.
  cbv zeta. intros HK Ha H0.
  destruct (rewinding_resets gpu (Z.to_nat kNumRewindResetsBeforeFullReset) w Ha)
    as (wK & e1 & R1 & A1 & N1 & S1 & C1 & E1); [lia|lia|lia|].
  destruct (reset_full_step gpu wK A1) as (w' & e2 & R2 & N2 & C2 & E2); [lia|lia|].
  exists wK, w'. repeat split.
  - exact R1.
  - now rewrite (emitted_app _ _ _ C1).
  - exact S1.
  - replace (Z.to_nat (kNumRewindResetsBeforeFullReset + 1))
      with (S (Z.to_nat kNumRewindResetsBeforeFullReset)) by lia.
    rewrite repeatM_snoc. now rewrite (bind_Ok _ _ _ _ _ R1).
  - rewrite (emitted_app w w' (e1 ++ e2)).
    + now rewrite storageCalls_app, E1, E2.
    + now rewrite C2, C1, app_assoc.
  - exact N2.
Qed.

(** ** submitToQueue *)

Lemma trackAll_app {k} a b (cb : GrVkCommandBuffer k) :
  trackAll (a ++ b) cb = trackAll b (trackAll a cb).
Proof. apply fold_left_app. Qed.

Lemma collectSignalSemaphores_eq l : forall acc (w : World Primary),
  collectSignalSemaphores l acc w =
  Ok (acc ++ List.map (semaphore (sems w)) (List.filter (shouldSignal (sems w)) l),
      {| self := trackAll (List.filter (shouldSignal (sems w)) l) (self w);
         sems := sems w;
         calls := calls w ++ List.map ResourceRef (List.filter (shouldSignal (sems w)) l) |}).
Proof.
  induction l as [|s l IH]; intros acc w; cbn [collectSignalSemaphores List.filter].
  - unfold ret. cbn. now rewrite !app_nil_r, World_eta.
  - unfold bind at 1, getSems at 1. destruct (shouldSignal (sems w) s).
    + unfold bind at 1. rewrite addResource_eq, IH. cbn [self sems calls List.map].
      now rewrite <- !app_assoc.
    + apply IH.
Qed.

Lemma collectWaitSemaphores_eq l : forall acc acc' (w : World Primary),
  collectWaitSemaphores l acc acc' w =
  Ok ((acc ++ List.map (semaphore (sems w)) (List.filter (shouldWait (sems w)) l),
       acc' ++ List.map (fun _ => VK_PIPELINE_STAGE_ALL_COMMANDS_BIT)
                        (List.filter (shouldWait (sems w)) l)),
      {| self := trackAll (List.filter (shouldWait (sems w)) l) (self w);
         sems := sems w;
         calls := calls w ++ List.map ResourceRef (List.filter (shouldWait (sems w)) l) |}).
Proof.
  induction l as [|s l IH]; intros acc acc' w; cbn [collectWaitSemaphores List.filter].
  - unfold ret. cbn. now rewrite !app_nil_r, World_eta.
  - unfold bind at 1, getSems at 1. destruct (shouldWait (sems w) s).
    + unfold bind at 1. rewrite addResource_eq, IH. cbn [self sems calls List.map].
      now rewrite <- !app_assoc.
    + apply IH.
Qed.

Lemma forEach_mark {k} (c : ptr -> call) mark (l : list ptr) : forall (w : World k),
  forEach l (fun s => invoke (c s) ;;; modifySems (mark s)) w =
  Ok (tt, {| self := self w; sems := markAll mark l (sems w);
             calls := calls w ++ List.map c l |}).
Proof.
  induction l as [|s l IH]; intros w; cbn [forEach List.map markAll fold_left].
  - unfold ret. now rewrite app_nil_r, World_eta.
  - unfold bind at 1. unfold bind at 1, invoke, modifySems. rewrite IH.
    cbn [self sems calls]. now rewrite <- app_assoc.
Qed.

Ltac inv_bind H :=
  let a := fresh "a" in
  let w1 := fresh "w" in
  let H1 := fresh "H" in
  apply bind_Ok_inv in H as (a & w1 & H1 & H).

Lemma SkASSERT_Ok_inv {k} e c (w : World k) r :
  SkASSERT e c w = Ok r -> c = true /\ r = (tt, w).
Proof. unfold SkASSERT. destruct c; [|discriminate]. intros H. now inversion H. Qed.

(** The first part of submitToQueue: the fence is created when the buffer
    holds none, and reset otherwise. *)
Lemma submitToQueue_fence gpu (w wA : World Primary) (u : unit) :
  (if VK_NULL_HANDLE =? fSubmitFence (primary (self w)) then
     r <- GR_VK_CALL gpu (CreateFence (device gpu)) ;;
     modifySelf (set_fSubmitFence (outHandle r)) ;;;
     SkASSERT "!err" (vkResult r =? 0)
   else
     _ <- GR_VK_CALL gpu (ResetFences (device gpu) 1 (fSubmitFence (primary (self w)))) ;;
     ret tt) w = Ok (u, wA) ->
  wA = {| self := set_fSubmitFence (fenceOfSubmission gpu w) (self w);
          sems := sems w;
          calls := calls w ++ fenceCalls gpu (fSubmitFence (primary (self w))) |}.
Proof.
  unfold fenceOfSubmission, fenceCalls. cbv zeta.
  destruct (VK_NULL_HANDLE =? fSubmitFence (primary (self w))) eqn:E.
  - unfold bind, GR_VK_CALL, modifySelf, SkASSERT. cbn [self sems calls].
    destruct (_ =? 0); [|discriminate]. intros H. now inversion H.
  - unfold bind, GR_VK_CALL, ret. cbn [self sems calls]. intros H. inversion H.
    f_equal. destruct w as [[? ? ? ? ? ? ? ? ? ? ? []] ? ?]. reflexivity.
Qed.

Lemma fSubmitFence_trackAll l (cb : GrVkCommandBuffer Primary) :
  fSubmitFence (primary (trackAll l cb)) = fSubmitFence (primary cb) /\
  fCmdBuffer (trackAll l cb) = fCmdBuffer cb.
Proof.
  revert cb. induction l as [|r l IH]; intros cb; [now split|].
  cbn [trackAll fold_left]. destruct (IH (track r cb)) as [H1 H2].
  unfold trackAll in H1, H2. now rewrite H1, H2.
Qed.

(** The second part, with semaphores: under the mutex, the semaphores that
    pass the filter are tracked and submitted, then every semaphore of the
    two lists is marked. *)
Lemma submitToQueue_locked gpu queue signals waits (w w1 : World Primary) (u : unit) :
  (invoke AcquireMutex ;;;
   vkSignalSems <- collectSignalSemaphores signals [] ;;
   wait <- collectWaitSemaphores waits [] [] ;;
   cb <- getSelf ;;
   submit_to_queue gpu queue (fSubmitFence (primary cb))
     (Z.of_nat (length (fst wait))) (fst wait) (snd wait) 1 [fCmdBuffer cb]
     (Z.of_nat (length vkSignalSems)) vkSignalSems ;;;
   forEach signals (fun s => invoke (MarkAsSignaled s) ;;; modifySems (markAsSignaled s)) ;;;
   forEach waits (fun s => invoke (MarkAsWaited s) ;;; modifySems (markAsWaited s)) ;;;
   invoke ReleaseMutex) w = Ok (u, w1) ->
  w1 = {| self := trackAll (List.filter (shouldWait (sems w)) waits)
                    (trackAll (List.filter (shouldSignal (sems w)) signals) (self w));
          sems := markAll markAsWaited waits (markAll markAsSignaled signals (sems w));
          calls := calls w ++
                   (AcquireMutex ::
                    List.map ResourceRef (List.filter (shouldSignal (sems w)) signals) ++
                    List.map ResourceRef (List.filter (shouldWait (sems w)) waits)) ++
                   [QueueSubmit queue 1
                      (filteredSubmitInfo (sems w) (fCmdBuffer (self w)) signals waits)
                      (fSubmitFence (primary (self w)))] ++
                   List.map MarkAsSignaled signals ++ List.map MarkAsWaited waits ++
                   [ReleaseMutex] |}.
Proof.
  unfold bind at 1, invoke at 1.
  unfold bind at 1. rewrite collectSignalSemaphores_eq. cbn [self sems calls].
  unfold bind at 1. rewrite collectWaitSemaphores_eq. cbn [self sems calls fst snd app].
  unfold bind at 1, getSelf at 1. cbn [self].
  unfold bind at 1, submit_to_queue, GR_VK_CALL_ERRCHECK, bind at 1, GR_VK_CALL, SkASSERT.
  cbn [self sems calls].
  destruct (errcheck _); [|discriminate].
  unfold bind at 1. rewrite forEach_mark. cbn [self sems calls].
  unfold bind at 1. rewrite forEach_mark. cbn [self sems calls].
  unfold invoke. cbn [self sems calls].
  intros H. inversion H. unfold filteredSubmitInfo. cbv zeta.
  destruct (fSubmitFence_trackAll (List.filter (shouldWait (sems w)) waits)
              (trackAll (List.filter (shouldSignal (sems w)) signals) (self w)))
    as [F1 C1].
  destruct (fSubmitFence_trackAll (List.filter (shouldSignal (sems w)) signals) (self w))
    as [F2 C2].
  rewrite F1, F2, C1, C2. f_equal.
  rewrite <- !app_assoc. reflexivity.
Qed.

(** What submitToQueue has done when it returns. *)
Lemma submitToQueue_inv gpu queue sync signals waits (w w' : World Primary) :
  submitToQueue gpu queue sync signals waits w = Ok (tt, w') ->
  let fence := fenceOfSubmission gpu w in
  fIsActive (self w) = false /\
  calls w' =
    calls w ++ fenceCalls gpu (fSubmitFence (primary (self w))) ++
    callsBeforeSubmit (sems w) signals waits ++
    [QueueSubmit queue 1 (submitInfoOf (sems w) (fCmdBuffer (self w)) signals waits)
                 fence] ++
    callsAfterSubmit signals waits ++
    syncCalls gpu sync fence /\
  fSubmitFence (primary (self w')) =
    match sync with
    | kForce_SyncQueue => VK_NULL_HANDLE
    | kSkip_SyncQueue => fence
    end /\
  sems w' = markAll markAsWaited waits (markAll markAsSignaled signals (sems w)).
Proof.
  cbv zeta. intros H. unfold submitToQueue in H.
  inv_bind H. inversion H0; subst a w0; clear H0.
  inv_bind H. apply SkASSERT_Ok_inv in H0 as [Ha E]. inversion E; subst a w0; clear E.
  apply negb_true_iff in Ha.
  inv_bind H. apply submitToQueue_fence in H0. cbv zeta in H.
  inv_bind H.
  assert (W1 : sems w1 = markAll markAsWaited waits
                            (markAll markAsSignaled signals (sems w)) /\
               fSubmitFence (primary (self w1)) = fenceOfSubmission gpu w /\
               calls w1 =
                 calls w ++ fenceCalls gpu (fSubmitFence (primary (self w))) ++
                 callsBeforeSubmit (sems w) signals waits ++
                 [QueueSubmit queue 1
                    (submitInfoOf (sems w) (fCmdBuffer (self w)) signals waits)
                    (fenceOfSubmission gpu w)] ++
                 callsAfterSubmit signals waits).
  { destruct signals as [|s signals], waits as [|t waits];
      [|apply submitToQueue_locked in H1..].
    - change ((0 =? Z.of_nat (length (@nil Z))) && (0 =? Z.of_nat (length (@nil Z))))
        with true in H1.
      cbv iota in H1.
      unfold bind, getSelf, submit_to_queue, GR_VK_CALL_ERRCHECK, bind, GR_VK_CALL,
        SkASSERT in H1.
      destruct (errcheck _); [|discriminate]. inversion H1. subst w0.
      cbn [self sems calls callsBeforeSubmit callsAfterSubmit submitInfoOf app].
      split; [reflexivity|]. split; [reflexivity|].
      rewrite <- app_assoc. reflexivity.
    - subst w1 w0. cbn [self sems calls].
      rewrite !(proj1 (fSubmitFence_trackAll _ _)).
      split; [reflexivity|]. split; [reflexivity|].
      unfold callsBeforeSubmit, callsAfterSubmit, submitInfoOf.
      rewrite <- !app_assoc. reflexivity.
    - subst w1 w0. cbn [self sems calls].
      rewrite !(proj1 (fSubmitFence_trackAll _ _)).
      split; [reflexivity|]. split; [reflexivity|].
      unfold callsBeforeSubmit, callsAfterSubmit, submitInfoOf.
      rewrite <- !app_assoc. reflexivity.
    - subst w1 w0. cbn [self sems calls].
      rewrite !(proj1 (fSubmitFence_trackAll _ _)).
      split; [reflexivity|]. split; [reflexivity|].
      unfold callsBeforeSubmit, callsAfterSubmit, submitInfoOf.
      rewrite <- !app_assoc. reflexivity. }
  destruct W1 as (S1 & F1 & C1). split; [exact Ha|].
  destruct sync.
  - unfold bind, getSelf, GR_VK_CALL, modifySelf, SkASSERT, invoke, SK_ABORT, ret in H.
    cbn [self sems calls] in H.
    destruct (VK_TIMEOUT =? _); [discriminate|].
    destruct (_ =? 0); [|discriminate].
    inversion H. cbn [self sems calls syncCalls]. split; [|now split].
    rewrite C1, F1. rewrite <- !app_assoc. reflexivity.
  - inversion H. subst w'. cbn [syncCalls]. split; [|now split].
    rewrite C1. now rewrite app_nil_r.
Qed.

(** *** What a log says about submissions, marks and fences *)

Lemma flat_map_map_nil {A B} (f : call -> list B) (c : A -> call) l :
  (forall x, f (c x) = []) -> flat_map f (List.map c l) = [].
Proof.
  intros H. induction l as [|x l IH]; [reflexivity|].
  cbn [List.map flat_map]. now rewrite H, IH.
Qed.

Lemma flat_map_map_single {A} (f : call -> list A) (c : A -> call) l :
  (forall x, f (c x) = [x]) -> flat_map f (List.map c l) = l.
Proof.
  intros H. induction l as [|x l IH]; [reflexivity|].
  cbn [List.map flat_map]. now rewrite H, IH.
Qed.

Ltac project_calls :=
  rewrite ?flat_map_app;
  repeat first [ rewrite flat_map_map_single by (intros; reflexivity)
               | rewrite flat_map_map_nil by (intros; reflexivity) ];
  cbn [flat_map app]; rewrite ?app_nil_r; reflexivity.

Lemma callsBeforeSubmit_quiet st signals waits :
  queueSubmits (callsBeforeSubmit st signals waits) = [] /\
  marksSignaled (callsBeforeSubmit st signals waits) = [] /\
  marksWaited (callsBeforeSubmit st signals waits) = [] /\
  fencesCreated (callsBeforeSubmit st signals waits) = [] /\
  fencesReset (callsBeforeSubmit st signals waits) = [].
Proof.
  unfold queueSubmits, marksSignaled, marksWaited, fencesCreated, fencesReset,
    callsBeforeSubmit.
  destruct signals, waits; cbn [flat_map app]; repeat split; project_calls.
Qed.

Lemma callsAfterSubmit_marks signals waits :
  queueSubmits (callsAfterSubmit signals waits) = [] /\
  marksSignaled (callsAfterSubmit signals waits) = signals /\
  marksWaited (callsAfterSubmit signals waits) = waits /\
  fencesCreated (callsAfterSubmit signals waits) = [] /\
  fencesReset (callsAfterSubmit signals waits) = [].
Proof.
  unfold queueSubmits, marksSignaled, marksWaited, fencesCreated, fencesReset,
    callsAfterSubmit.
  destruct signals as [|s signals], waits as [|t waits]; repeat split; project_calls.
Qed.

Lemma fenceCalls_quiet gpu old :
  queueSubmits (fenceCalls gpu old) = [] /\
  marksSignaled (fenceCalls gpu old) = [] /\
  marksWaited (fenceCalls gpu old) = [].
Proof. unfold fenceCalls. now destruct (VK_NULL_HANDLE =? old). Qed.

Lemma syncCalls_quiet gpu sync fence :
  queueSubmits (syncCalls gpu sync fence) = [] /\
  marksSignaled (syncCalls gpu sync fence) = [] /\
  marksWaited (syncCalls gpu sync fence) = [] /\
  fencesCreated (syncCalls gpu sync fence) = [] /\
  fencesReset (syncCalls gpu sync fence) = [].
Proof. now destruct sync. Qed.

Lemma items_trackAll {k} l (cb : GrVkCommandBuffer k) :
  items (fTrackedResources (trackAll l cb)) = items (fTrackedResources cb) ++ l /\
  fTrackedRecycledResources (trackAll l cb) = fTrackedRecycledResources cb.
Proof.
  revert cb. induction l as [|r l IH]; intros cb.
  - cbn. now rewrite app_nil_r.
  - cbn [trackAll fold_left]. destruct (IH (track r cb)) as [H1 H2].
    unfold trackAll in H1, H2. rewrite H1, H2. cbn. now rewrite <- app_assoc.
Qed.

(** What submitToQueue has tracked when it returns: the semaphores that
    passed the filters, appended to the list of tracked resources. *)
Lemma submitToQueue_tracked gpu queue sync signals waits (w w' : World Primary) :
  submitToQueue gpu queue sync signals waits w = Ok (tt, w') ->
  items (fTrackedResources (self w')) =
    items (fTrackedResources (self w)) ++
    List.filter (shouldSignal (sems w)) signals ++
    List.filter (shouldWait (sems w)) waits /\
  fTrackedRecycledResources (self w') = fTrackedRecycledResources (self w).
Proof.
  intros H. unfold submitToQueue in H.
  inv_bind H. inversion H0; subst a w0; clear H0.
  inv_bind H. apply SkASSERT_Ok_inv in H0 as [Ha E]. inversion E; subst a w0; clear E.
  inv_bind H. apply submitToQueue_fence in H0. cbv zeta in H.
  inv_bind H.
  assert (W1 : items (fTrackedResources (self w1)) =
                 items (fTrackedResources (self w)) ++
                 List.filter (shouldSignal (sems w)) signals ++
                 List.filter (shouldWait (sems w)) waits /\
               fTrackedRecycledResources (self w1) =
                 fTrackedRecycledResources (self w)).
  { destruct signals as [|s signals], waits as [|t waits];
      [|apply submitToQueue_locked in H1..].
    - change ((0 =? Z.of_nat (length (@nil Z))) && (0 =? Z.of_nat (length (@nil Z))))
        with true in H1.
      cbv iota in H1.
      unfold bind, getSelf, submit_to_queue, GR_VK_CALL_ERRCHECK, bind, GR_VK_CALL,
        SkASSERT in H1.
      destruct (errcheck _); [|discriminate]. inversion H1. subst w0.
      cbn. now rewrite app_nil_r.
    - subst w1 w0. cbn [self sems].
      destruct (items_trackAll (List.filter (shouldWait (sems w)) (t :: waits))
                  (trackAll (List.filter (shouldSignal (sems w)) [])
                     (set_fSubmitFence (fenceOfSubmission gpu w) (self w)))) as [I1 R1].
      rewrite I1, R1. cbn. now split.
    - subst w1 w0. cbn [self sems].
      destruct (items_trackAll (List.filter (shouldWait (sems w)) [])
                  (trackAll (List.filter (shouldSignal (sems w)) (s :: signals))
                     (set_fSubmitFence (fenceOfSubmission gpu w) (self w)))) as [I1 R1].
      destruct (items_trackAll (List.filter (shouldSignal (sems w)) (s :: signals))
                  (set_fSubmitFence (fenceOfSubmission gpu w) (self w))) as [I2 R2].
      rewrite I1, R1, I2, R2. cbn. now rewrite <- app_assoc.
    - subst w1 w0. cbn [self sems].
      destruct (items_trackAll (List.filter (shouldWait (sems w)) (t :: waits))
                  (trackAll (List.filter (shouldSignal (sems w)) (s :: signals))
                     (set_fSubmitFence (fenceOfSubmission gpu w) (self w)))) as [I1 R1].
      destruct (items_trackAll (List.filter (shouldSignal (sems w)) (s :: signals))
                  (set_fSubmitFence (fenceOfSubmission gpu w) (self w))) as [I2 R2].
      rewrite I1, R1, I2, R2. cbn. now rewrite <- app_assoc. }
  destruct sync.
  - unfold bind, getSelf, GR_VK_CALL, modifySelf, SkASSERT, invoke, SK_ABORT, ret in H.
    cbn [self sems calls] in H.
    destruct (VK_TIMEOUT =? _); [discriminate|].
    destruct (_ =? 0); [|discriminate].
    inversion H. cbn [self]. exact W1.
  - inversion H. subst w'. exact W1.
Qed.

Lemma submit_calls_acquired gpu old st signals waits sync fence :
  acquired (fenceCalls gpu old) = [] /\
  acquired (callsBeforeSubmit st signals waits) =
    List.filter (shouldSignal st) signals ++ List.filter (shouldWait st) waits /\
  acquired (callsAfterSubmit signals waits) = [] /\
  acquired (syncCalls gpu sync fence) = [].
Proof.
  unfold acquired, fenceCalls, callsBeforeSubmit, callsAfterSubmit.
  repeat match goal with |- _ /\ _ => split end.
  - now destruct (VK_NULL_HANDLE =? old).
  - destruct signals, waits; [reflexivity|..]; cbn [flat_map app]; project_calls.
  - destruct signals, waits; [reflexivity|..]; project_calls.
  - now destruct sync.
Qed.

(** C1, as amended: a submitToQueue call with N signal and M wait semaphores
    (N + M > 0, and also N = M = 0) makes one native submission; its signal
    and wait lists hold exactly the semaphores whose shouldSignal or
    shouldWait predicate is true at filter time, and exactly these are
    tracked: a reference is taken on each of them before the submission, on
    no other resource and none afterwards, and they are appended to the list
    of tracked resources; after the submission every semaphore of the two
    input lists, whether it passed the filter or not, is marked signaled or
    waited, and none is marked before. *)
Theorem submitToQueue_submits_filtered_marks_all gpu queue sync signals waits
    (w w' : World Primary) :
  submitToQueue gpu queue sync signals waits w = Ok (tt, w') ->
  let st := sems w in
  exists before after info fence,
    emitted w w' = before ++ QueueSubmit queue 1 info fence :: after /\
    queueSubmits before = [] /\ queueSubmits after = [] /\
    pSignalSemaphores info =
      List.map (semaphore st) (List.filter (shouldSignal st) signals) /\
    signalSemaphoreCount info =
      Z.of_nat (length (List.filter (shouldSignal st) signals)) /\
    pWaitSemaphores info =
      List.map (semaphore st) (List.filter (shouldWait st) waits) /\
    waitSemaphoreCount info =
      Z.of_nat (length (List.filter (shouldWait st) waits)) /\
    acquired before =
      List.filter (shouldSignal st) signals ++ List.filter (shouldWait st) waits /\
    acquired after = [] /\
    items (fTrackedResources (self w')) =
      items (fTrackedResources (self w)) ++
      List.filter (shouldSignal st) signals ++ List.filter (shouldWait st) waits /\
    fTrackedRecycledResources (self w') = fTrackedRecycledResources (self w) /\
    marksSignaled before = [] /\ marksWaited before = [] /\
    marksSignaled after = signals /\ marksWaited after = waits /\
    sems w' = markAll markAsWaited waits (markAll markAsSignaled signals st).
Proof.
  intros H. cbv zeta.
  destruct (submitToQueue_tracked _ _ _ _ _ _ _ H) as [T1 T2].
  destruct (submit_calls_acquired gpu (fSubmitFence (primary (self w))) (sems w)
              signals waits sync (fenceOfSubmission gpu w)) as (A1 & A2 & A3 & A4).
  apply submitToQueue_inv in H as (Ha & C & F & S).
  exists (fenceCalls gpu (fSubmitFence (primary (self w))) ++
          callsBeforeSubmit (sems w) signals waits),
         (callsAfterSubmit signals waits ++ syncCalls gpu sync (fenceOfSubmission gpu w)),
         (submitInfoOf (sems w) (fCmdBuffer (self w)) signals waits),
         (fenceOfSubmission gpu w).
  destruct (fenceCalls_quiet gpu (fSubmitFence (primary (self w)))) as (Q1 & M1 & W1).
  destruct (callsBeforeSubmit_quiet (sems w) signals waits) as (Q2 & M2 & W2 & _).
  destruct (callsAfterSubmit_marks signals waits) as (Q3 & M3 & W3 & _).
  destruct (syncCalls_quiet gpu sync (fenceOfSubmission gpu w)) as (Q4 & M4 & W4 & _).
  assert (I : submitInfoOf (sems w) (fCmdBuffer (self w)) signals waits =
              filteredSubmitInfo (sems w) (fCmdBuffer (self w)) signals waits).
  { now destruct signals, waits. }
  split; [apply emitted_app; rewrite C, <- !app_assoc; reflexivity|].
  unfold queueSubmits, marksSignaled, marksWaited, acquired in *.
  rewrite I, !flat_map_app, Q1, Q2, Q3, Q4, M1, M2, M3, M4, W1, W2, W3, W4,
    A1, A2, A3, A4.
  unfold filteredSubmitInfo.
  cbn [pSignalSemaphores signalSemaphoreCount pWaitSemaphores waitSemaphoreCount app].
  rewrite !length_map, !app_nil_r.
  repeat split; try reflexivity; assumption.
Qed.

Lemma submission_calls_leave_the_fence st signals waits :
  fencesCreated (callsBeforeSubmit st signals waits) = [] /\
  fencesReset (callsBeforeSubmit st signals waits) = [] /\
  fencesWaited (callsBeforeSubmit st signals waits) = [] /\
  fencesDestroyed (callsBeforeSubmit st signals waits) = [] /\
  fencesCreated (callsAfterSubmit signals waits) = [] /\
  fencesReset (callsAfterSubmit signals waits) = [] /\
  fencesWaited (callsAfterSubmit signals waits) = [] /\
  fencesDestroyed (callsAfterSubmit signals waits) = [].
Proof.
  unfold fencesCreated, fencesReset, fencesWaited, fencesDestroyed, callsBeforeSubmit,
    callsAfterSubmit.
  destruct signals as [|s signals], waits as [|t waits];
    repeat match goal with |- _ /\ _ => split end;
    try reflexivity; cbn [flat_map app]; project_calls.
Qed.

(** C3, as amended: a submitToQueue call creates the submission fence
    exactly when the buffer holds none at that point, which is the case at
    the first submission and after every submission with forced sync;
    otherwise the call resets the fence the buffer holds and submits with
    it.  The creation or the reset comes first, the one submission with the
    fence follows, and a forced sync ends the call with the wait for that
    fence and its destruction, after which the buffer holds no fence; without
    forced sync nothing is waited for or destroyed, and the buffer holds the
    fence of the submission. *)
Theorem submitToQueue_fence_lifecycle gpu queue sync signals waits
    (w w' : World Primary) :
  submitToQueue gpu queue sync signals waits w = Ok (tt, w') ->
  let old := fSubmitFence (primary (self w)) in
  let fence := fenceOfSubmission gpu w in
  (old = VK_NULL_HANDLE ->
     fencesCreated (emitted w w') = [device gpu] /\ fencesReset (emitted w w') = []) /\
  (old <> VK_NULL_HANDLE ->
     fencesCreated (emitted w w') = [] /\ fencesReset (emitted w w') = [old] /\
     fence = old) /\
  List.map snd (queueSubmits (emitted w w')) = [fence] /\
  fSubmitFence (primary (self w')) =
    match sync with
    | kForce_SyncQueue => VK_NULL_HANDLE
    | kSkip_SyncQueue => fence
    end /\
  fencesWaited (emitted w w') =
    match sync with
    | kForce_SyncQueue => [fence]
    | kSkip_SyncQueue => []
    end /\
  fencesDestroyed (emitted w w') =
    match sync with
    | kForce_SyncQueue => [fence]
    | kSkip_SyncQueue => []
    end /\
  exists submission,
    emitted w w' =
      (if VK_NULL_HANDLE =? old then [CreateFence (device gpu)]
       else [ResetFences (device gpu) 1 old]) ++
      submission ++
      match sync with
      | kForce_SyncQueue =>
          [WaitForFences (device gpu) 1 fence true UINT64_MAX;
           DestroyFence (device gpu) fence]
      | kSkip_SyncQueue => []
      end /\
    List.map snd (queueSubmits submission) = [fence] /\
    fencesCreated submission = [] /\ fencesReset submission = [] /\
    fencesWaited submission = [] /\ fencesDestroyed submission = [].
Proof.
  intros H. cbv zeta.
  apply submitToQueue_inv in H as (Ha & C & F & S).
  rewrite (emitted_app _ _ _ C).
  destruct (submission_calls_leave_the_fence (sems w) signals waits)
    as (B1 & B2 & B3 & B4 & A1 & A2 & A3 & A4).
  assert (Q0 : queueSubmits (callsBeforeSubmit (sems w) signals waits) = [] /\
               queueSubmits (callsAfterSubmit signals waits) = []).
  { split; [apply callsBeforeSubmit_quiet|apply callsAfterSubmit_marks]. }
  assert (Tail :
    fencesWaited (fenceCalls gpu (fSubmitFence (primary (self w))) ++
                  callsBeforeSubmit (sems w) signals waits ++
                  [QueueSubmit queue 1
                     (submitInfoOf (sems w) (fCmdBuffer (self w)) signals waits)
                     (fenceOfSubmission gpu w)] ++
                  callsAfterSubmit signals waits ++
                  syncCalls gpu sync (fenceOfSubmission gpu w)) =
      match sync with
      | kForce_SyncQueue => [fenceOfSubmission gpu w]
      | kSkip_SyncQueue => []
      end /\
    fencesDestroyed (fenceCalls gpu (fSubmitFence (primary (self w))) ++
                     callsBeforeSubmit (sems w) signals waits ++
                     [QueueSubmit queue 1
                        (submitInfoOf (sems w) (fCmdBuffer (self w)) signals waits)
                        (fenceOfSubmission gpu w)] ++
                     callsAfterSubmit signals waits ++
                     syncCalls gpu sync (fenceOfSubmission gpu w)) =
      match sync with
      | kForce_SyncQueue => [fenceOfSubmission gpu w]
      | kSkip_SyncQueue => []
      end /\
    exists submission,
      fenceCalls gpu (fSubmitFence (primary (self w))) ++
      callsBeforeSubmit (sems w) signals waits ++
      [QueueSubmit queue 1
         (submitInfoOf (sems w) (fCmdBuffer (self w)) signals waits)
         (fenceOfSubmission gpu w)] ++
      callsAfterSubmit signals waits ++
      syncCalls gpu sync (fenceOfSubmission gpu w) =
        (if VK_NULL_HANDLE =? fSubmitFence (primary (self w))
         then [CreateFence (device gpu)]
         else [ResetFences (device gpu) 1 (fSubmitFence (primary (self w)))]) ++
        submission ++
        match sync with
        | kForce_SyncQueue =>
            [WaitForFences (device gpu) 1 (fenceOfSubmission gpu w) true UINT64_MAX;
             DestroyFence (device gpu) (fenceOfSubmission gpu w)]
        | kSkip_SyncQueue => []
        end /\
      List.map snd (queueSubmits submission) = [fenceOfSubmission gpu w] /\
      fencesCreated submission = [] /\ fencesReset submission = [] /\
      fencesWaited submission = [] /\ fencesDestroyed submission = []).
  { destruct Q0 as [Q0 Q0'].
    unfold fencesWaited, fencesDestroyed, fencesCreated, fencesReset, queueSubmits in *.
    rewrite !flat_map_app, B3, B4, A3, A4.
    split; [|split].
    - unfold fenceCalls. destruct (VK_NULL_HANDLE =? _), sync; reflexivity.
    - unfold fenceCalls. destruct (VK_NULL_HANDLE =? _), sync; reflexivity.
    - exists (callsBeforeSubmit (sems w) signals waits ++
              [QueueSubmit queue 1
                 (submitInfoOf (sems w) (fCmdBuffer (self w)) signals waits)
                 (fenceOfSubmission gpu w)] ++
              callsAfterSubmit signals waits).
      rewrite !flat_map_app, Q0, Q0', B1, B2, B3, B4, A1, A2, A3, A4.
      split; [|now repeat split].
      unfold fenceCalls, syncCalls. rewrite <- !app_assoc. now destruct sync. }
  destruct Tail as (T1 & T2 & T3).
  destruct (fenceCalls_quiet gpu (fSubmitFence (primary (self w)))) as (Q1 & _).
  destruct (callsBeforeSubmit_quiet (sems w) signals waits) as (Q2 & _ & _ & C2 & R2).
  destruct (callsAfterSubmit_marks signals waits) as (Q3 & _ & _ & C3 & R3).
  destruct (syncCalls_quiet gpu sync (fenceOfSubmission gpu w)) as (Q4 & _ & _ & C4 & R4).
  unfold queueSubmits, fencesCreated, fencesReset in *.
  rewrite !flat_map_app, Q1, Q2, Q3, Q4, C2, C3, C4, R2, R3, R4.
  cbn [flat_map app]. rewrite !app_nil_r.
  unfold fenceCalls. split; [|split; [|split]].
  - intros ->. now split.
  - intros Hn. unfold fenceOfSubmission. cbv zeta.
    apply not_eq_sym, Z.eqb_neq in Hn. now rewrite Hn.
  - reflexivity.
  - split; [exact F|]. split; [exact T1|]. split; [exact T2|exact T3].
Qed.

(** ** The three points of invalidation *)

Lemma reset_progress {k} gpu (w : World k) :
  fIsActive (self w) = false -> fNumResets (self w) < INT_MAX ->
  exists w', reset gpu w = Ok (tt, w').
Proof.
  intros Ha Hmax.
  destruct (Z_le_gt_dec (fNumResets (self w) + 1) kNumRewindResetsBeforeFullReset)
    as [Hk|Hk].
  - eexists. exact (reset_rewinds gpu w Ha Hmax Hk).
  - eexists. apply (reset_full gpu w Ha Hmax). lia.
Qed.

Lemma executeCommands_returns gpu buffer (w : World Primary) rp rp' :
  fIsActive (self w) = true ->
  fIsActive (sec_object buffer) = false ->
  fActiveRenderPass (self w) = Some rp ->
  fActiveRenderPass (sec_object buffer) = Some rp' ->
  isCompatiblePass rp rp' = true ->
  exists w', executeCommands gpu buffer w = Ok (tt, w').
Proof.
  intros Ha Hs Hp Hp' Hc. unfold executeCommands.
  unfold bind at 1, getSelf at 1. unfold bind at 1, SkASSERT at 1. rewrite Ha.
  unfold bind at 1, SkASSERT at 1. rewrite Hs. cbn [negb].
  unfold bind at 1, SkASSERT at 1. rewrite Hp. cbn [nonNull].
  rewrite Hp'. unfold bind at 1, SkASSERT at 1. rewrite Hc.
  unfold bind at 1, GR_VK_CALL at 1. unfold bind at 1, invoke at 1.
  unfold bind at 1, modifySelf at 1. rewrite invalidateState_eq.
  now eexists.
Qed.

Lemma Primary_end_returns gpu (w : World Primary) :
  fIsActive (self w) = true ->
  fActiveRenderPass (self w) = None ->
  errcheck (vkResult (vkInterface gpu (calls w)
                        (EndCommandBuffer (fCmdBuffer (self w))))) = true ->
  exists w', Primary_end gpu w = Ok (tt, w').
Proof.
  intros Ha Hp He. unfold Primary_end, GR_VK_CALL_ERRCHECK.
  unfold bind at 1, getSelf at 1. unfold bind at 1, SkASSERT at 1. rewrite Ha.
  unfold bind at 1, SkASSERT at 1. rewrite Hp. cbn [negb nonNull].
  unfold bind at 1. unfold bind at 1, GR_VK_CALL at 1, SkASSERT at 1. rewrite He.
  unfold bind. rewrite invalidateState_eq. unfold modifySelf. now eexists.
Qed.

Lemma Secondary_end_returns gpu (w : World Secondary) :
  fIsActive (self w) = true ->
  errcheck (vkResult (vkInterface gpu (calls w)
                        (EndCommandBuffer (fCmdBuffer (self w))))) = true ->
  exists w', Secondary_end gpu w = Ok (tt, w').
Proof.
  intros Ha He. unfold Secondary_end, GR_VK_CALL_ERRCHECK.
  unfold bind at 1, getSelf at 1. unfold bind at 1, SkASSERT at 1. rewrite Ha.
  unfold bind at 1. unfold bind at 1, GR_VK_CALL at 1, SkASSERT at 1. rewrite He.
  unfold bind. rewrite invalidateState_eq. unfold modifySelf. now eexists.
Qed.

(** C6: the cached dynamic state is set to its unset-sentinels by the end of
    a buffer, by reset and by executeCommands on a primary, whatever the
    secondary buffer; every other method leaves the cache as it is, or
    records its own argument in its own slot.  The three do so whatever the
    cache holds: under the preconditions they assert, and with a device that
    accepts the end of the recording, executeCommands, reset and end return,
    and the cache holds the sentinels afterwards. *)
Theorem cached_state_invalidated_at_three_points gpu :
  (forall op (w w' : World Primary),
     runPrimaryOp gpu op w = Ok (tt, w') ->
     cachedState (self w') =
       if invalidatesPrimary op then unsetState (cachedState (self w))
       else recordsPrimary op (cachedState (self w))) /\
  (forall op (w w' : World Secondary),
     runSecondaryOp gpu op w = Ok (tt, w') ->
     cachedState (self w') =
       if invalidatesSecondary op then unsetState (cachedState (self w))
       else recordsSecondary op (cachedState (self w))) /\
  (forall buffer (w : World Primary) rp rp',
     fIsActive (self w) = true ->
     fIsActive (sec_object buffer) = false ->
     fActiveRenderPass (self w) = Some rp ->
     fActiveRenderPass (sec_object buffer) = Some rp' ->
     isCompatiblePass rp rp' = true ->
     exists w', executeCommands gpu buffer w = Ok (tt, w') /\
                cachedState (self w') = unsetState (cachedState (self w))) /\
  (forall k (w : World k),
     fIsActive (self w) = false ->
     fNumResets (self w) < INT_MAX ->
     exists w', reset gpu w = Ok (tt, w') /\
                cachedState (self w') = unsetState (cachedState (self w))) /\
  (forall (w : World Primary),
     fIsActive (self w) = true ->
     fActiveRenderPass (self w) = None ->
     errcheck (vkResult (vkInterface gpu (calls w)
                           (EndCommandBuffer (fCmdBuffer (self w))))) = true ->
     exists w', Primary_end gpu w = Ok (tt, w') /\
                cachedState (self w') = unsetState (cachedState (self w))) /\
  (forall (w : World Secondary),
     fIsActive (self w) = true ->
     errcheck (vkResult (vkInterface gpu (calls w)
                           (EndCommandBuffer (fCmdBuffer (self w))))) = true ->
     exists w', Secondary_end gpu w = Ok (tt, w') /\
                cachedState (self w') = unsetState (cachedState (self w))).
Proof.
  split; [|split; [|split; [|split; [|split]]]]; [intros op w w'|intros op w w'|..].
  - destruct op as [bop| | | | | | | |oop];
      cbn [runPrimaryOp invalidatesPrimary recordsPrimary].
    + destruct bop;
        try (apply (transforms_runBaseOp gpu); discriminate).
      apply transforms_reset.
    + assert (F : frames (Primary_begin gpu)) by (unfold Primary_begin; frame).
      apply F.
    + apply transforms_Primary_end.
    + assert (F : frames (beginRenderPass gpu renderPass clearValues target bounds
                                          forSecondaryCB))
        by (unfold beginRenderPass; frame).
      apply F.
    + assert (F : frames (endRenderPass gpu)) by (unfold endRenderPass; frame).
      apply F.
    + apply transforms_executeCommands.
    + apply frames_submitToQueue.
    + assert (F : frames (_ <- finished gpu ;; ret tt)) by (unfold finished; frame).
      apply F.
    + apply frames_runOutsidePassOp.
  - destruct op as [bop| |]; cbn [runSecondaryOp invalidatesSecondary recordsSecondary].
    + destruct bop;
        try (apply (transforms_runBaseOp gpu); discriminate).
      apply transforms_reset.
    + assert (F : frames (Secondary_begin gpu framebuffer compatibleRenderPass))
        by (unfold Secondary_begin; frame).
      apply F.
    + apply transforms_Secondary_end.
  - intros buffer w rp rp' Ha Hs Hp Hp' Hc.
    destruct (executeCommands_returns gpu buffer w rp rp' Ha Hs Hp Hp' Hc) as [w' H].
    exists w'. split; [exact H|]. exact (transforms_executeCommands gpu buffer _ _ _ H).
  - intros k w Ha Hmax.
    destruct (reset_progress gpu w Ha Hmax) as [w' H].
    exists w'. split; [exact H|]. exact (transforms_reset gpu _ _ _ H).
  - intros w Ha Hp He.
    destruct (Primary_end_returns gpu w Ha Hp He) as [w' H].
    exists w'. split; [exact H|]. exact (transforms_Primary_end gpu _ _ _ H).
  - intros w Ha He.
    destruct (Secondary_end_returns gpu w Ha He) as [w' H].
    exists w'. split; [exact H|]. exact (transforms_Secondary_end gpu _ _ _ H).
Qed.

(** * Further properties *)

Lemma PrimaryOp_is_reset (op : PrimaryOp) : op = PBase BReset \/ op <> PBase BReset.
Proof.
  destruct op as [bop| | | | | | | |oop]; try (right; discriminate).
  destruct bop; try (right; discriminate). now left.
Qed.

(** ** Relations kept by the statements of a method *)

Section Keeps.
Context {k : BufferKind} (R : World k -> World k -> Prop).
Hypothesis R_refl : forall w, R w w.
Hypothesis R_trans : forall w1 w2 w3, R w1 w2 -> R w2 w3 -> R w1 w3.

Lemma keeps_ret {A} (a : A) : keeps R (ret a).
Proof. intros w a' w' H. inversion H. apply R_refl. Qed.

Lemma keeps_bind {A B} (m : M k A) (f : A -> M k B) :
  keeps R m -> (forall a, keeps R (f a)) -> keeps R (bind m f).
Proof.
  intros Hm Hf w b w' H. apply bind_Ok_inv in H as (a & w1 & H1 & H2).
  exact (R_trans _ _ _ (Hm _ _ _ H1) (Hf _ _ _ _ H2)).
Qed.

Lemma keeps_getSelf : keeps R getSelf.
Proof. intros w a w' H. inversion H. apply R_refl. Qed.

Lemma keeps_getSems : keeps R getSems.
Proof. intros w a w' H. inversion H. apply R_refl. Qed.

Lemma keeps_SkASSERT e c : keeps R (SkASSERT e c).
Proof.
  intros w a w' H. apply SkASSERT_Ok_inv in H as [_ H]. inversion H. apply R_refl.
Qed.

Lemma keeps_SK_ABORT {A} e : keeps R (SK_ABORT (A := A) e).
Proof. intros w a w' H. discriminate. Qed.

Lemma keeps_undefinedBehaviour {A} e : keeps R (undefinedBehaviour (A := A) e).
Proof. intros w a w' H. discriminate. Qed.

Lemma keeps_invoke c : (forall w, R w (logged c w)) -> keeps R (invoke c).
Proof. intros Hc w a w' H. inversion H. apply Hc. Qed.

Lemma keeps_GR_VK_CALL gpu c : (forall w, R w (logged c w)) -> keeps R (GR_VK_CALL gpu c).
Proof. intros Hc w a w' H. inversion H. apply Hc. Qed.

Lemma keeps_GR_VK_CALL_ERRCHECK gpu c :
  (forall w, R w (logged c w)) -> keeps R (GR_VK_CALL_ERRCHECK gpu c).
Proof.
  intros Hc. apply keeps_bind; [now apply keeps_GR_VK_CALL|].
  intros r. apply keeps_SkASSERT.
Qed.

Lemma keeps_modifySelf f :
  (forall w, R w (withSelf (f (self w)) w)) -> keeps R (modifySelf f).
Proof. intros Hf w a w' H. inversion H. apply Hf. Qed.

Lemma keeps_modifySems f :
  (forall w, R w (withSems (f (sems w)) w)) -> keeps R (modifySems f).
Proof. intros Hf w a w' H. inversion H. apply Hf. Qed.

Lemma keeps_forEach {A} (l : list A) (body : A -> M k unit) :
  (forall x, keeps R (body x)) -> keeps R (forEach l body).
Proof.
  intros Hb. induction l as [|x l IH]; cbn [forEach].
  - apply keeps_ret.
  - apply keeps_bind; [apply Hb|intros _; apply IH].
Qed.

End Keeps.

(** One step of the decomposition of a method; [special] is tried first,
    [side] closes what a primitive step asks for. *)
Ltac keep_step reflT transT special side :=
  first
  [ special
  | match goal with
    | |- keeps _ (bind _ _) => apply keeps_bind; [transT| |intros ?]
    | |- keeps _ (ret _) => apply keeps_ret; reflT
    | |- keeps _ getSelf => apply keeps_getSelf; reflT
    | |- keeps _ getSems => apply keeps_getSems; reflT
    | |- keeps _ (SkASSERT _ _) => apply keeps_SkASSERT; reflT
    | |- keeps _ (SK_ABORT _) => apply keeps_SK_ABORT
    | |- keeps _ (undefinedBehaviour _) => apply keeps_undefinedBehaviour
    | |- keeps _ (invoke _) => apply keeps_invoke; intros ?; side
    | |- keeps _ (GR_VK_CALL _ _) => apply keeps_GR_VK_CALL; intros ?; side
    | |- keeps _ (GR_VK_CALL_ERRCHECK _ _) =>
        apply keeps_GR_VK_CALL_ERRCHECK; [reflT|transT|intros ?; side]
    | |- keeps _ (modifySelf _) => apply keeps_modifySelf; intros ?; side
    | |- keeps _ (modifySems _) => apply keeps_modifySems; intros ?; side
    | |- keeps _ (forEach _ _) => apply keeps_forEach; [reflT|transT|intros ?]
    | |- keeps _ invalidateState => unfold invalidateState
    | |- keeps _ (if ?c then _ else _) => destruct c
    | |- keeps _ (match ?x with _ => _ end) => destruct x
    | |- keeps _ (let _ := _ in _) => cbv zeta
    end ].

(** ** Every reference acquired is released or held *)

Lemma occurrences_app r a b :
  occurrences r (a ++ b) = (occurrences r a + occurrences r b)%nat.
Proof. apply count_occ_app. Qed.

Lemma balanced_refl {k} (w : World k) : balanced w w.
Proof. exists []. split; [now rewrite app_nil_r|]. intros r. cbn. lia. Qed.

Lemma balanced_trans {k} (w1 w2 w3 : World k) :
  balanced w1 w2 -> balanced w2 w3 -> balanced w1 w3.
Proof.
  intros (e1 & C1 & B1) (e2 & C2 & B2). exists (e1 ++ e2). split.
  - now rewrite C2, C1, app_assoc.
  - intros r. unfold acquired, released in *. rewrite !flat_map_app, !occurrences_app.
    specialize (B1 r). specialize (B2 r). lia.
Qed.

Lemma balanced_logged {k} c (w : World k) :
  acquired [c] = [] -> released [c] = [] -> balanced w (logged c w).
Proof.
  intros Ha Hr. exists [c]. split; [reflexivity|].
  intros r. rewrite Ha, Hr. cbn. lia.
Qed.

Lemma balanced_withSelf {k} cb (w : World k) :
  held cb = held (self w) -> balanced w (withSelf cb w).
Proof.
  intros Hh. exists []. split; [cbn; now rewrite app_nil_r|].
  intros r. cbn [withSelf self]. rewrite Hh. cbn. lia.
Qed.

Lemma balanced_withSems {k} st (w : World k) : balanced w (withSems st w).
Proof. exists []. split; [cbn; now rewrite app_nil_r|]. intros r. cbn. lia. Qed.

Lemma keeps_balanced_addResource {k} r : keeps (k := k) balanced (addResource r).
Proof.
  intros w a w' H. rewrite addResource_eq in H. inversion H.
  exists [ResourceRef r]. split; [reflexivity|]. intros r'.
  unfold held, track, td_append. cbn [self fTrackedResources fTrackedRecycledResources
    set_fTrackedResources items acquired released flat_map app].
  rewrite !occurrences_app. cbn. lia.
Qed.

Lemma keeps_balanced_addRecycledResource {k} r :
  keeps (k := k) balanced (addRecycledResource r).
Proof.
  intros w a w' H. inversion H.
  exists [ResourceRef r]. split; [reflexivity|]. intros r'.
  unfold held, td_append. cbn [self fTrackedResources fTrackedRecycledResources
    set_fTrackedRecycledResources items acquired released flat_map app].
  rewrite !occurrences_app. cbn. lia.
Qed.

Ltac balanced_special :=
  idtac;
  match goal with
  | |- keeps _ (addResource _) => apply keeps_balanced_addResource
  | |- keeps _ (addRecycledResource _) => apply keeps_balanced_addRecycledResource
  end.

Ltac balanced_side :=
  first [ apply balanced_logged; reflexivity
        | apply balanced_withSelf; reflexivity
        | apply balanced_withSems ].

Ltac balance :=
  repeat keep_step ltac:(exact balanced_refl) ltac:(exact balanced_trans)
                   balanced_special balanced_side.

(** What reset has done when it returns. *)
Lemma reset_Ok_inv {k} gpu (w w' : World k) :
  reset gpu w = Ok (tt, w') ->
  fIsActive (self w) = false /\
  fNumResets (self w) < INT_MAX /\
  exists cb storage,
    ((fNumResets (self w) + 1 <= kNumRewindResetsBeforeFullReset /\
      cb = rewound (self w) /\ storage = rewindCalls) \/
     (kNumRewindResetsBeforeFullReset < fNumResets (self w) + 1 /\
      cb = fullyReset (self w) /\ storage = fullResetCalls)) /\
    w' = {| self := afterOnReset (invalidated cb);
            sems := sems w;
            calls := (calls w ++ releaseCalls (self w) ++ storage ++
                      [ResetCommandBuffer (fCmdBuffer (self w)) 0]) ++
                     onResetCalls (invalidated cb) |}.
Proof.
  intros H.
  destruct (fIsActive (self w)) eqn:Ha.
  { unfold reset, bind, getSelf, SkASSERT in H. rewrite Ha in H. discriminate. }
  destruct (Z.lt_ge_cases (fNumResets (self w)) INT_MAX) as [Hmax|Hmax].
  - split; [reflexivity|]. split; [exact Hmax|].
    destruct (Z_le_gt_dec (fNumResets (self w) + 1) kNumRewindResetsBeforeFullReset)
      as [Hk|Hk].
    + rewrite (reset_rewinds gpu w Ha Hmax Hk) in H. inversion H.
      exists (rewound (self w)), rewindCalls. split; [left; auto|reflexivity].
    + rewrite (reset_full gpu w Ha Hmax) in H by lia. inversion H.
      exists (fullyReset (self w)), fullResetCalls. split; [right; split; [lia|auto]|].
      reflexivity.
  - exfalso. unfold reset in H. unfold bind at 1, getSelf at 1 in H.
    unfold bind at 1, SkASSERT at 1 in H. rewrite Ha in H; cbn [negb] in H.
    unfold bind at 1 in H. rewrite forEach_invoke in H.
    unfold bind at 1 in H. rewrite forEach_invoke in H.
    unfold bind at 1, preIncrement_fNumResets, bind at 1, getSelf at 1 in H.
    cbn [self sems calls] in H.
    replace (INT_MAX <=? fNumResets (self w)) with true in H
      by (symmetry; apply Z.leb_le; lia).
    discriminate.
Qed.

Lemma released_releaseCalls {k} (cb : GrVkCommandBuffer k) :
  released (releaseCalls cb) = held cb /\ acquired (releaseCalls cb) = [].
Proof.
  unfold released, acquired, releaseCalls, held. rewrite !flat_map_app. split.
  - now rewrite !flat_map_map_single.
  - now rewrite !flat_map_map_nil.
Qed.

Lemma onResetCalls_quiet {k} (cb : GrVkCommandBuffer k) :
  released (onResetCalls cb) = [] /\ acquired (onResetCalls cb) = [].
Proof.
  destruct k; cbn [onResetCalls]; [|now split].
  unfold released, acquired. now rewrite !flat_map_map_nil.
Qed.

Lemma keeps_balanced_reset {k} gpu : keeps (k := k) balanced (reset gpu).
Proof.
  intros w [] w' H. apply reset_Ok_inv in H as (_ & _ & cb & storage & Hc & ->).
  eexists. split; [cbn [calls]; rewrite <- app_assoc; reflexivity|].
  intros r. cbn [self].
  destruct (released_releaseCalls (self w)) as [R1 A1].
  destruct (onResetCalls_quiet (invalidated cb)) as [R2 A2].
  unfold acquired, released in *.
  rewrite !flat_map_app, R1, A1, R2, A2.
  assert (Hs : flat_map (fun c => match c with ResourceRef r0 => [r0] | _ => [] end)
                 storage = [] /\
               flat_map (fun c => match c with
                                  | ResourceUnref r0 | ResourceRecycle r0
                                  | ResourceUnrefAndAbandon r0 => [r0]
                                  | _ => []
                                  end) storage = [] /\
               held (afterOnReset (invalidated cb)) = []).
  { destruct Hc as [(_ & -> & ->)|(_ & -> & ->)]; destruct k; now repeat split. }
  destruct Hs as (S1 & S2 & S3). rewrite S1, S2, S3. cbn [flat_map app].
  rewrite !occurrences_app. cbn. lia.
Qed.

Lemma keeps_balanced_onFreeGPUData {k} gpu : keeps (k := k) balanced (onFreeGPUData gpu).
Proof. destruct k; cbn [onFreeGPUData]; unfold Primary_onFreeGPUData; balance. Qed.

Lemma keeps_balanced_runBaseOp {k} gpu op :
  op <> BFreeGPUData -> op <> BAbandonGPUData ->
  keeps (k := k) balanced (runBaseOp gpu op).
Proof.
  intros H1 H2. destruct op; cbn [runBaseOp]; try congruence;
    try apply keeps_balanced_reset;
    unfold pipelineBarrier, bindInputBuffer, bindIndexBuffer, clearAttachments,
      bindDescriptorSets_pipelineState, bindDescriptorSets, bindPipeline, drawIndexed,
      draw, setViewport, setScissor, setBlendConstants;
    balance.
Qed.

Lemma keeps_balanced_collectSignalSemaphores l acc :
  keeps balanced (collectSignalSemaphores l acc).
Proof.
  revert acc. induction l as [|s l IH]; intros acc; cbn [collectSignalSemaphores].
  - apply keeps_ret. exact balanced_refl.
  - balance; apply IH.
Qed.

Lemma keeps_balanced_collectWaitSemaphores l acc acc' :
  keeps balanced (collectWaitSemaphores l acc acc').
Proof.
  revert acc acc'. induction l as [|s l IH]; intros acc acc'; cbn [collectWaitSemaphores].
  - apply keeps_ret. exact balanced_refl.
  - balance; apply IH.
Qed.

Lemma keeps_balanced_runPrimaryOp gpu op :
  releasesWithoutClearing op = false -> keeps balanced (runPrimaryOp gpu op).
Proof.
  intros Hop. destruct op as [bop| | | | | | | |oop]; cbn [runPrimaryOp].
  - apply keeps_balanced_runBaseOp; intros ->; discriminate.
  - unfold Primary_begin. balance.
  - unfold Primary_end. balance.
  - unfold beginRenderPass. balance.
  - unfold endRenderPass. balance.
  - unfold executeCommands. balance.
  - unfold submitToQueue, submit_to_queue. cbv zeta.
    balance; try apply keeps_balanced_collectSignalSemaphores;
      try apply keeps_balanced_collectWaitSemaphores.
  - unfold finished. balance.
  - destruct oop; cbn [runOutsidePassOp];
      unfold pipelineBarrier, copyImage, blitImage_images, blitImage, copyImageToBuffer,
        copyBufferToImage, copyBuffer, updateBuffer, clearColorImage,
        clearDepthStencilImage, resolveImage;
      balance.
Qed.

Lemma references_are_accounted_for_aux gpu ops (w w' : World Primary) :
  Forall (fun op => releasesWithoutClearing op = false) ops ->
  runPrimaryOps gpu ops w = Ok (tt, w') ->
  forall r,
    (occurrences r (held (self w)) + occurrences r (acquired (emitted w w')) =
     occurrences r (released (emitted w w')) + occurrences r (held (self w')))%nat.
Proof.
  intros Hops H.
  assert (B : balanced w w').
  { revert w H. unfold runPrimaryOps.
    induction Hops as [|op ops Hop _ IH]; intros w H; cbn [forEach] in H.
    - inversion H. apply balanced_refl.
    - apply bind_Ok_inv in H as ([] & w1 & H1 & H2).
      eapply balanced_trans; [|apply (IH _ H2)].
      exact (keeps_balanced_runPrimaryOp gpu op Hop _ _ _ H1). }
  destruct B as (evs & C & B). now rewrite (emitted_app _ _ _ C).
Qed.


(** ** The recording state, method by method *)

Lemma sameAt_refl {k T} (view : GrVkCommandBuffer k -> T) (w : World k) :
  sameAt view w w.
Proof. reflexivity. Qed.

Lemma sameAt_trans {k T} (view : GrVkCommandBuffer k -> T) (w1 w2 w3 : World k) :
  sameAt view w1 w2 -> sameAt view w2 w3 -> sameAt view w1 w3.
Proof. unfold sameAt. congruence. Qed.

Ltac same_special :=
  idtac;
  match goal with
  | |- keeps _ (addResource _) => unfold addResource
  | |- keeps _ (addRecycledResource _) => unfold addRecycledResource
  | |- keeps _ (arrayReset _) => unfold arrayReset
  | |- keeps _ (arraySetReserve _ _) => unfold arraySetReserve
  | |- keeps _ (arrayRewind _) => unfold arrayRewind
  | |- keeps _ preIncrement_fNumResets => unfold preIncrement_fNumResets
  | |- keeps _ (submit_to_queue _ _ _ _ _ _ _ _ _ _) => unfold submit_to_queue
  end.

Ltac same :=
  repeat keep_step ltac:(exact (sameAt_refl _)) ltac:(exact (sameAt_trans _))
                   same_special ltac:(reflexivity).

Lemma same_collectSignalSemaphores {T} (view : GrVkCommandBuffer Primary -> T) l acc :
  (forall r cb, view (track r cb) = view cb) ->
  keeps (sameAt view) (collectSignalSemaphores l acc).
Proof.
  intros Hv. revert acc. induction l as [|s l IH]; intros acc;
    cbn [collectSignalSemaphores].
  - apply keeps_ret. exact (sameAt_refl _).
  - apply keeps_bind; [exact (sameAt_trans _)|apply keeps_getSems; exact (sameAt_refl _)|].
    intros st. destruct (shouldSignal st s); [|apply IH].
    apply keeps_bind; [exact (sameAt_trans _)| |intros _; apply IH].
    intros w a w' H. rewrite addResource_eq in H. inversion H. apply Hv.
Qed.

Lemma same_collectWaitSemaphores {T} (view : GrVkCommandBuffer Primary -> T) l acc acc' :
  (forall r cb, view (track r cb) = view cb) ->
  keeps (sameAt view) (collectWaitSemaphores l acc acc').
Proof.
  intros Hv. revert acc acc'. induction l as [|s l IH]; intros acc acc';
    cbn [collectWaitSemaphores].
  - apply keeps_ret. exact (sameAt_refl _).
  - apply keeps_bind; [exact (sameAt_trans _)|apply keeps_getSems; exact (sameAt_refl _)|].
    intros st. destruct (shouldWait st s); [|apply IH].
    apply keeps_bind; [exact (sameAt_trans _)| |intros _; apply IH].
    intros w a w' H. rewrite addResource_eq in H. inversion H. apply Hv.
Qed.

Lemma same_recording_runBaseOp {k} gpu op :
  keeps (k := k) (sameAt recordingState) (runBaseOp gpu op).
Proof.
  destruct op; cbn [runBaseOp];
    unfold freeGPUData, abandonGPUData, reset, pipelineBarrier, bindInputBuffer,
      bindIndexBuffer, clearAttachments, bindDescriptorSets_pipelineState,
      bindDescriptorSets, bindPipeline, drawIndexed, draw, setViewport, setScissor,
      setBlendConstants;
    same;
    destruct k; cbn [onReset onFreeGPUData];
    unfold Primary_onReset, Primary_onFreeGPUData; same.
Qed.

Lemma same_recording_runOutsidePassOp gpu op :
  keeps (sameAt recordingState) (runOutsidePassOp gpu op).
Proof.
  destruct op; cbn [runOutsidePassOp];
    unfold pipelineBarrier, copyImage, blitImage_images, blitImage, copyImageToBuffer,
      copyBufferToImage, copyBuffer, updateBuffer, clearColorImage,
      clearDepthStencilImage, resolveImage;
    same.
Qed.

Lemma same_recording_submitToQueue gpu queue sync signals waits :
  keeps (sameAt recordingState) (submitToQueue gpu queue sync signals waits).
Proof.
  unfold submitToQueue. cbv zeta.
  same; first [ now apply same_collectSignalSemaphores
              | now apply same_collectWaitSemaphores ].
Qed.

Lemma recordingState_trackAll {k} l (cb : GrVkCommandBuffer k) :
  recordingState (trackAll l cb) = recordingState cb.
Proof.
  revert cb. induction l as [|r l IH]; intros cb; [reflexivity|].
  cbn [trackAll fold_left]. fold (trackAll l (track r cb)). now rewrite IH.
Qed.

(** X3: the recording state changes at six places only.  begin makes the
    buffer Active and end makes it idle; beginRenderPass opens the render
    pass it is given and endRenderPass closes it; begin of a secondary
    buffer also stores the render pass it is given.  No other method changes
    whether the buffer is Active or which render pass is open, and no method
    changes the native handle. *)
Theorem recording_state_transitions gpu :
  (forall op (w w' : World Primary),
     runPrimaryOp gpu op w = Ok (tt, w') ->
     recordingState (self w') = recordingAfterPrimary op (recordingState (self w))) /\
  (forall op (w w' : World Secondary),
     runSecondaryOp gpu op w = Ok (tt, w') ->
     recordingState (self w') = recordingAfterSecondary op (recordingState (self w))).
Proof.
  split; intros op w w' H.
  - destruct op as [bop| | | | | | | |oop];
      cbn [runPrimaryOp recordingAfterPrimary] in *.
    + exact (same_recording_runBaseOp gpu bop _ _ _ H).
    + unfold Primary_begin, GR_VK_CALL_ERRCHECK, bind, getSelf, SkASSERT, GR_VK_CALL,
        modifySelf in H. cbn [self sems calls] in H.
      destruct (negb (fIsActive (self w))); [|discriminate].
      destruct (errcheck _); [|discriminate]. now inversion H.
    + unfold Primary_end in H.
      apply bind_Ok_inv in H as (cb & w1 & H1 & H). inversion H1; subst cb w1; clear H1.
      apply bind_Ok_inv in H as (u1 & w1 & H1 & H).
      apply SkASSERT_Ok_inv in H1 as [_ E]. inversion E; subst u1 w1; clear E.
      apply bind_Ok_inv in H as (u1 & w1 & H1 & H).
      apply SkASSERT_Ok_inv in H1 as [_ E]. inversion E; subst u1 w1; clear E.
      apply bind_Ok_inv in H as (u1 & w1 & H1 & H).
      assert (S1 : sameAt recordingState w w1).
      { assert (F : keeps (k := Primary) (sameAt recordingState)
                      (GR_VK_CALL_ERRCHECK gpu (EndCommandBuffer (fCmdBuffer (self w)))))
          by same.
        exact (F _ _ _ H1). }
      unfold bind in H. rewrite invalidateState_eq in H.
      unfold modifySelf in H. inversion H. cbn [self].
      unfold sameAt in S1. unfold recordingState in *.
      cbn [invalidated set_fIsActive fIsActive fActiveRenderPass fCmdBuffer
           set_fCachedBlendConstant set_fCachedScissor set_fCachedViewport
           set_fBoundIndexBuffer set_fBoundInputBuffers].
      cbn [rs_activeRenderPass rs_cmdBuffer]. inversion S1. congruence.
    + unfold beginRenderPass, bind, getSelf, SkASSERT in H.
      destruct (fIsActive (self w)); [|discriminate].
      destruct (negb (nonNull (fActiveRenderPass (self w)))); [|discriminate].
      destruct (isCompatibleTarget renderPass target); [|discriminate].
      cbv beta iota zeta in H. unfold GR_VK_CALL, modifySelf in H.
      rewrite addResource_eq, forEach_addResource in H. inversion H.
      cbn [self]. now rewrite recordingState_trackAll.
    + unfold endRenderPass, bind, getSelf, SkASSERT, GR_VK_CALL, modifySelf in H.
      destruct (fIsActive (self w)); [|discriminate].
      destruct (nonNull (fActiveRenderPass (self w))); [|discriminate].
      now inversion H.
    + assert (F : keeps (sameAt recordingState) (executeCommands gpu buffer))
        by (unfold executeCommands; same).
      exact (F _ _ _ H).
    + exact (same_recording_submitToQueue gpu queue sync signalSemaphores
               waitSemaphores _ _ _ H).
    + assert (F : keeps (sameAt recordingState) (_ <- finished gpu ;; ret tt))
        by (unfold finished; same).
      exact (F _ _ _ H).
    + exact (same_recording_runOutsidePassOp gpu oop _ _ _ H).
  - destruct op as [bop| |]; cbn [runSecondaryOp recordingAfterSecondary] in *.
    + exact (same_recording_runBaseOp gpu bop _ _ _ H).
    + unfold Secondary_begin, GR_VK_CALL_ERRCHECK, bind, getSelf, SkASSERT, GR_VK_CALL,
        modifySelf in H. cbn [self sems calls] in H.
      destruct (negb (fIsActive (self w))); [|discriminate].
      destruct compatibleRenderPass as [rp|]; [|discriminate].
      cbn [nonNull] in H. cbv beta iota zeta in H.
      destruct (errcheck _); [|discriminate]. now inversion H.
    + unfold Secondary_end, GR_VK_CALL_ERRCHECK, bind, getSelf, SkASSERT, GR_VK_CALL
        in H. cbn [self sems calls] in H.
      destruct (fIsActive (self w)) eqn:Ha; [|discriminate].
      destruct (errcheck _); [|discriminate].
      rewrite invalidateState_eq in H. unfold modifySelf in H. now inversion H.
Qed.

(** ** The secondary buffers of a primary buffer *)

Lemma secondariesLedger_refl (w : World Primary) : secondariesLedger w w.
Proof. exists []. split; [now rewrite app_nil_r|]. cbn. now rewrite app_nil_r. Qed.

Lemma secondariesLedger_trans (w1 w2 w3 : World Primary) :
  secondariesLedger w1 w2 -> secondariesLedger w2 w3 -> secondariesLedger w1 w3.
Proof.
  intros (e1 & C1 & B1) (e2 & C2 & B2). exists (e1 ++ e2). split.
  - now rewrite C2, C1, app_assoc.
  - unfold secondariesTaken, secondariesReturned in *. rewrite !flat_map_app.
    rewrite app_assoc, B1, <- app_assoc, B2, app_assoc. reflexivity.
Qed.

Lemma secondariesLedger_logged c (w : World Primary) :
  secondariesTaken [c] = [] -> secondariesReturned [c] = [] ->
  secondariesLedger w (logged c w).
Proof.
  intros Ht Hr. exists [c]. split; [reflexivity|].
  rewrite Ht, Hr. cbn. now rewrite app_nil_r.
Qed.

Lemma secondariesLedger_withSelf cb (w : World Primary) :
  fSecondaryCommandBuffers (primary cb) = fSecondaryCommandBuffers (primary (self w)) ->
  secondariesLedger w (withSelf cb w).
Proof.
  intros Hs. exists []. split; [cbn; now rewrite app_nil_r|].
  cbn [withSelf self]. rewrite Hs. cbn. now rewrite app_nil_r.
Qed.

Lemma secondariesLedger_withSems st (w : World Primary) :
  secondariesLedger w (withSems st w).
Proof. exists []. split; [cbn; now rewrite app_nil_r|]. cbn. now rewrite app_nil_r. Qed.

(** The two statements of executeCommands that take the secondary buffer. *)
Lemma secondariesLedger_take b (rest : M Primary unit) :
  keeps secondariesLedger rest ->
  keeps secondariesLedger
    (invoke (SecondaryRef b) ;;;
     modifySelf (fun cb =>
       set_fSecondaryCommandBuffers (fSecondaryCommandBuffers (primary cb) ++ [b]) cb) ;;;
     rest).
Proof.
  intros Hrest w a w' H.
  unfold bind at 1 2, invoke, modifySelf in H. cbn [self sems calls] in H.
  eapply secondariesLedger_trans; [|exact (Hrest _ _ _ H)].
  exists [SecondaryRef b]. split; reflexivity.
Qed.

Ltac ledger_special :=
  first
  [ same_special
  | match goal with
    | |- keeps _ (bind (invoke (SecondaryRef _)) _) => apply secondariesLedger_take
    end ].

Ltac ledger_side :=
  first [ apply secondariesLedger_logged; reflexivity
        | apply secondariesLedger_withSelf; reflexivity
        | apply secondariesLedger_withSems ].

Ltac ledger :=
  repeat keep_step ltac:(exact secondariesLedger_refl) ltac:(exact secondariesLedger_trans)
                   ledger_special ledger_side.

Lemma secondariesLedger_reset gpu : keeps secondariesLedger (reset gpu).
Proof.
  intros w [] w' H. apply reset_Ok_inv in H as (_ & _ & cb & storage & Hc & ->).
  eexists. split; [cbn [calls]; rewrite <- app_assoc; reflexivity|].
  cbn [self afterOnReset onResetCalls].
  assert (Hs : secondariesTaken storage = [] /\ secondariesReturned storage = [] /\
               fSecondaryCommandBuffers (primary (invalidated cb)) =
                 fSecondaryCommandBuffers (primary (self w))).
  { destruct Hc as [(_ & -> & ->)|(_ & -> & ->)]; now repeat split. }
  destruct Hs as (S1 & S2 & S3).
  assert (R1 : secondariesTaken (releaseCalls (self w)) = [] /\
               secondariesReturned (releaseCalls (self w)) = []).
  { unfold secondariesTaken, secondariesReturned, releaseCalls.
    rewrite !flat_map_app, !flat_map_map_nil by reflexivity. now split. }
  assert (R2 : forall l, secondariesTaken (List.map RecycleSecondaryCommandBuffer l) = [] /\
                         secondariesReturned (List.map RecycleSecondaryCommandBuffer l) = l).
  { intros l. split; [now apply flat_map_map_nil|now apply flat_map_map_single]. }
  destruct R1 as [R1 R1']. destruct (R2 (fSecondaryCommandBuffers (primary (self w))))
    as [R2a R2b].
  unfold secondariesTaken, secondariesReturned in *.
  rewrite !flat_map_app, S1, S2, S3, R1, R1', R2a, R2b.
  cbn. now rewrite !app_nil_r.
Qed.

Lemma secondariesLedger_collectSignalSemaphores l acc :
  keeps secondariesLedger (collectSignalSemaphores l acc).
Proof.
  revert acc. induction l as [|s l IH]; intros acc; cbn [collectSignalSemaphores].
  - apply keeps_ret. exact secondariesLedger_refl.
  - ledger; apply IH.
Qed.

Lemma secondariesLedger_collectWaitSemaphores l acc acc' :
  keeps secondariesLedger (collectWaitSemaphores l acc acc').
Proof.
  revert acc acc'. induction l as [|s l IH]; intros acc acc'; cbn [collectWaitSemaphores].
  - apply keeps_ret. exact secondariesLedger_refl.
  - ledger; apply IH.
Qed.

Lemma secondariesLedger_runPrimaryOp gpu op :
  keeps secondariesLedger (runPrimaryOp gpu op).
Proof.
  destruct op as [bop| | | | | | | |oop]; cbn [runPrimaryOp].
  - destruct bop; cbn [runBaseOp]; try apply secondariesLedger_reset;
      unfold freeGPUData, abandonGPUData, pipelineBarrier, bindInputBuffer,
        bindIndexBuffer, clearAttachments, bindDescriptorSets_pipelineState,
        bindDescriptorSets, bindPipeline, drawIndexed, draw, setViewport, setScissor,
        setBlendConstants;
      cbn [onFreeGPUData]; unfold Primary_onFreeGPUData; ledger.
  - unfold Primary_begin. ledger.
  - unfold Primary_end. ledger.
  - unfold beginRenderPass. ledger.
  - unfold endRenderPass. ledger.
  - unfold executeCommands. ledger.
  - unfold submitToQueue. cbv zeta.
    ledger; first [ apply secondariesLedger_collectSignalSemaphores
                  | apply secondariesLedger_collectWaitSemaphores ].
  - unfold finished. ledger.
  - destruct oop; cbn [runOutsidePassOp];
      unfold pipelineBarrier, copyImage, blitImage_images, blitImage, copyImageToBuffer,
        copyBufferToImage, copyBuffer, updateBuffer, clearColorImage,
        clearDepthStencilImage, resolveImage;
      ledger.
Qed.

Lemma secondariesQuiet_refl (w : World Primary) : secondariesQuiet w w.
Proof. exists []. now rewrite app_nil_r. Qed.

Lemma secondariesQuiet_trans (w1 w2 w3 : World Primary) :
  secondariesQuiet w1 w2 -> secondariesQuiet w2 w3 -> secondariesQuiet w1 w3.
Proof.
  intros (e1 & C1 & T1 & R1 & S1) (e2 & C2 & T2 & R2 & S2). exists (e1 ++ e2).
  unfold secondariesTaken, secondariesReturned in *.
  rewrite !flat_map_app, T1, T2, R1, R2, C2, C1, S2, S1, app_assoc. now repeat split.
Qed.

Lemma secondariesQuiet_logged c (w : World Primary) :
  secondariesTaken [c] = [] -> secondariesReturned [c] = [] ->
  secondariesQuiet w (logged c w).
Proof. intros Ht Hr. exists [c]. now repeat split. Qed.

Lemma secondariesQuiet_withSelf cb (w : World Primary) :
  fSecondaryCommandBuffers (primary cb) = fSecondaryCommandBuffers (primary (self w)) ->
  secondariesQuiet w (withSelf cb w).
Proof. intros Hs. exists []. cbn. now rewrite app_nil_r. Qed.

Lemma secondariesQuiet_withSems st (w : World Primary) :
  secondariesQuiet w (withSems st w).
Proof. exists []. cbn. now rewrite app_nil_r. Qed.

Ltac quiet_side :=
  first [ apply secondariesQuiet_logged; reflexivity
        | apply secondariesQuiet_withSelf; reflexivity
        | apply secondariesQuiet_withSems ].

Ltac quietly :=
  repeat keep_step ltac:(exact secondariesQuiet_refl) ltac:(exact secondariesQuiet_trans)
                   same_special quiet_side.

Lemma secondariesQuiet_collectSignalSemaphores l acc :
  keeps secondariesQuiet (collectSignalSemaphores l acc).
Proof.
  revert acc. induction l as [|s l IH]; intros acc; cbn [collectSignalSemaphores].
  - apply keeps_ret. exact secondariesQuiet_refl.
  - quietly; apply IH.
Qed.

Lemma secondariesQuiet_collectWaitSemaphores l acc acc' :
  keeps secondariesQuiet (collectWaitSemaphores l acc acc').
Proof.
  revert acc acc'. induction l as [|s l IH]; intros acc acc'; cbn [collectWaitSemaphores].
  - apply keeps_ret. exact secondariesQuiet_refl.
  - quietly; apply IH.
Qed.

(** Every method but executeCommands and reset takes no secondary buffer,
    hands none back and leaves the list as it is. *)
Lemma secondariesQuiet_runPrimaryOp gpu op :
  takesSecondary op = [] -> op <> PBase BReset ->
  keeps secondariesQuiet (runPrimaryOp gpu op).
Proof.
  intros Ht Hr. destruct op as [bop| | | | | | | |oop]; cbn [runPrimaryOp];
    try discriminate.
  - destruct bop; try congruence; cbn [runBaseOp];
      unfold freeGPUData, abandonGPUData, pipelineBarrier, bindInputBuffer,
        bindIndexBuffer, clearAttachments, bindDescriptorSets_pipelineState,
        bindDescriptorSets, bindPipeline, drawIndexed, draw, setViewport, setScissor,
        setBlendConstants;
      cbn [onFreeGPUData]; unfold Primary_onFreeGPUData; quietly.
  - unfold Primary_begin. quietly.
  - unfold Primary_end. quietly.
  - unfold beginRenderPass. quietly.
  - unfold endRenderPass. quietly.
  - unfold submitToQueue. cbv zeta.
    quietly; first [ apply secondariesQuiet_collectSignalSemaphores
                   | apply secondariesQuiet_collectWaitSemaphores ].
  - unfold finished. quietly.
  - destruct oop; cbn [runOutsidePassOp];
      unfold pipelineBarrier, copyImage, blitImage_images, blitImage, copyImageToBuffer,
        copyBufferToImage, copyBuffer, updateBuffer, clearColorImage,
        clearDepthStencilImage, resolveImage;
      quietly.
Qed.

Lemma executeCommands_takes gpu buffer (w w' : World Primary) :
  executeCommands gpu buffer w = Ok (tt, w') ->
  secondariesTaken (emitted w w') = [sec_this buffer] /\
  secondariesReturned (emitted w w') = [] /\
  fSecondaryCommandBuffers (primary (self w')) =
    fSecondaryCommandBuffers (primary (self w)) ++ [sec_this buffer].
Proof.
  intros H. unfold executeCommands, bind, getSelf, SkASSERT in H.
  destruct (fIsActive (self w)); [|discriminate]. cbv beta iota in H.
  destruct (negb (fIsActive (sec_object buffer))); [|discriminate]. cbv beta iota in H.
  destruct (fActiveRenderPass (self w)) as [rp|]; [|discriminate].
  cbn [nonNull] in H. cbv beta iota in H.
  destruct (fActiveRenderPass (sec_object buffer)) as [rp'|]; [|discriminate].
  destruct (isCompatiblePass rp rp'); [|discriminate].
  unfold GR_VK_CALL, invoke, modifySelf in H. cbn [self sems calls] in H.
  rewrite invalidateState_eq in H. inversion H. cbn [self sems calls].
  rewrite (emitted_app w _ [CmdExecuteCommands (fCmdBuffer (self w)) 1
                              (fCmdBuffer (sec_object buffer));
                            SecondaryRef (sec_this buffer)])
    by (cbn [calls]; now rewrite <- app_assoc).
  now repeat split.
Qed.

Lemma reset_hands_back gpu (w w' : World Primary) :
  reset gpu w = Ok (tt, w') ->
  secondariesTaken (emitted w w') = [] /\
  secondariesReturned (emitted w w') = fSecondaryCommandBuffers (primary (self w)) /\
  fSecondaryCommandBuffers (primary (self w')) = [].
Proof.
  intros H. apply reset_Ok_inv in H as (_ & _ & cb & storage & Hc & ->).
  rewrite (emitted_app w _ (releaseCalls (self w) ++ storage ++
                              [ResetCommandBuffer (fCmdBuffer (self w)) 0] ++
                              onResetCalls (invalidated cb)))
    by (cbn [calls]; rewrite <- !app_assoc; reflexivity).
  cbn [self afterOnReset onResetCalls].
  assert (Hs : secondariesTaken storage = [] /\ secondariesReturned storage = [] /\
               fSecondaryCommandBuffers (primary (invalidated cb)) =
                 fSecondaryCommandBuffers (primary (self w))).
  { destruct Hc as [(_ & -> & ->)|(_ & -> & ->)]; now repeat split. }
  destruct Hs as (S1 & S2 & S3).
  assert (R1 : secondariesTaken (releaseCalls (self w)) = [] /\
               secondariesReturned (releaseCalls (self w)) = []).
  { unfold secondariesTaken, secondariesReturned, releaseCalls.
    rewrite !flat_map_app, !flat_map_map_nil by reflexivity. now split. }
  assert (R2 : forall l, secondariesTaken (List.map RecycleSecondaryCommandBuffer l) = [] /\
                         secondariesReturned (List.map RecycleSecondaryCommandBuffer l) = l).
  { intros l. split; [now apply flat_map_map_nil|now apply flat_map_map_single]. }
  destruct R1 as [R1 R1']. destruct (R2 (fSecondaryCommandBuffers (primary (self w))))
    as [R2a R2b].
  unfold secondariesTaken, secondariesReturned in *.
  rewrite !flat_map_app, S1, S2, S3, R1, R1', R2a, R2b.
  cbn. now repeat split.
Qed.

Lemma secondaries_step gpu op (w w' : World Primary) :
  runPrimaryOp gpu op w = Ok (tt, w') ->
  secondariesTaken (emitted w w') = takesSecondary op /\
  secondariesReturned (emitted w w') =
    returnsSecondaries op (fSecondaryCommandBuffers (primary (self w))) /\
  fSecondaryCommandBuffers (primary (self w')) =
    secondariesAfter op (fSecondaryCommandBuffers (primary (self w))).
Proof.
  intros H.
  destruct (PrimaryOp_is_reset op) as [->|Hr].
  { cbn [runPrimaryOp runBaseOp] in H. exact (reset_hands_back gpu w w' H). }
  destruct (takesSecondary op) as [|b l] eqn:Ht.
  - destruct (secondariesQuiet_runPrimaryOp gpu op Ht Hr _ _ _ H)
      as (evs & C & T & R & S).
    rewrite (emitted_app _ _ _ C), T, R, S.
    destruct op as [bop| | | | |buffer| | |oop]; try discriminate;
      try (now repeat split).
    destruct bop; try congruence; now repeat split.
  - destruct op as [bop| | | | |buffer| | |oop]; try discriminate.
    rewrite <- Ht. cbn [runPrimaryOp] in H.
    exact (executeCommands_takes gpu buffer w w' H).
Qed.

Lemma secondaries_ledger gpu ops (w w' : World Primary) :
  runPrimaryOps gpu ops w = Ok (tt, w') ->
  fSecondaryCommandBuffers (primary (self w)) ++ secondariesTaken (emitted w w') =
  secondariesReturned (emitted w w') ++ fSecondaryCommandBuffers (primary (self w')).
Proof.
  intros H.
  assert (B : secondariesLedger w w').
  { revert w H. unfold runPrimaryOps.
    induction ops as [|op ops IH]; intros w H; cbn [forEach] in H.
    - inversion H. apply secondariesLedger_refl.
    - apply bind_Ok_inv in H as ([] & w1 & H1 & H2).
      eapply secondariesLedger_trans; [|apply (IH _ H2)].
      exact (secondariesLedger_runPrimaryOp gpu op _ _ _ H1). }
  destruct B as (evs & C & B). now rewrite (emitted_app _ _ _ C).
Qed.

(** ** Every reference taken is accounted for *)

(** X1: over any sequence of methods of a primary command buffer other than
    freeGPUData and abandonGPUData, every reference taken is accounted for.
    A reference on a resource, taken by addResource or addRecycledResource:
    per resource, the entries of the two tracking lists at the start plus the
    references taken equal the references released (unref, recycle) plus the
    entries of the two lists at the end.  The reference on a secondary
    buffer, taken by executeCommands: the buffers listed at the start
    followed by those taken are those handed to recycleSecondaryCommandBuffer
    followed by the buffers listed at the end. *)
Theorem references_are_accounted_for gpu ops (w w' : World Primary) :
  Forall (fun op => releasesWithoutClearing op = false) ops ->
  runPrimaryOps gpu ops w = Ok (tt, w') ->
  (forall r,
     (occurrences r (held (self w)) + occurrences r (acquired (emitted w w')) =
      occurrences r (released (emitted w w')) + occurrences r (held (self w')))%nat) /\
  fSecondaryCommandBuffers (primary (self w)) ++ secondariesTaken (emitted w w') =
  secondariesReturned (emitted w w') ++ fSecondaryCommandBuffers (primary (self w')).
Proof.
  intros Hops H. split.
  - exact (references_are_accounted_for_aux gpu ops w w' Hops H).
  - exact (secondaries_ledger gpu ops w w' H).
Qed.

(** X2: a sequence of methods that starts with nothing in the tracking
    lists and ends with reset gives back exactly what it took: the resources
    referenced (addResource, addRecycledResource) and the resources released
    (unref, recycle) are the same up to their order, and the tracking lists
    are empty afterwards; the secondary buffers handed to
    recycleSecondaryCommandBuffer are those listed at the start followed by
    those that executeCommands took, in this order, and the list of
    secondary buffers is empty afterwards. *)
Theorem reset_releases_what_was_acquired gpu ops (w w' : World Primary) :
  Forall (fun op => releasesWithoutClearing op = false) ops ->
  held (self w) = [] ->
  runPrimaryOps gpu (ops ++ [PBase BReset]) w = Ok (tt, w') ->
  Permutation (acquired (emitted w w')) (released (emitted w w')) /\
  held (self w') = [] /\
  secondariesReturned (emitted w w') =
    fSecondaryCommandBuffers (primary (self w)) ++ secondariesTaken (emitted w w') /\
  fSecondaryCommandBuffers (primary (self w')) = [].
Proof.
  intros Hops Hh H.
  assert (E : held (self w') = []).
  { unfold runPrimaryOps in H.
    assert (L : forall l (w0 : World Primary),
              forEach (l ++ [PBase BReset]) (runPrimaryOp gpu) w0 = Ok (tt, w') ->
              held (self w') = []).
    { induction l as [|op l IH]; intros w0 H0; cbn [app forEach] in H0.
      - apply bind_Ok_inv in H0 as ([] & w1 & H1 & H2). inversion H2. subst w1.
        cbn [runPrimaryOp runBaseOp] in H1.
        apply reset_Ok_inv in H1 as (_ & _ & cb & storage & Hc & ->).
        cbn [self]. now destruct Hc as [(_ & -> & _)|(_ & -> & _)].
      - apply bind_Ok_inv in H0 as ([] & w1 & _ & H2). exact (IH _ H2). }
    exact (L _ _ H). }
  assert (S : secondariesReturned (emitted w w') =
                fSecondaryCommandBuffers (primary (self w)) ++
                secondariesTaken (emitted w w') /\
              fSecondaryCommandBuffers (primary (self w')) = []).
  { assert (E2 : fSecondaryCommandBuffers (primary (self w')) = []).
    { unfold runPrimaryOps in H. revert H. generalize w.
      induction ops as [|op l IH]; intros w0 H0; cbn [app forEach] in H0.
      - apply bind_Ok_inv in H0 as ([] & w1 & H1 & H2). inversion H2. subst w1.
        cbn [runPrimaryOp runBaseOp] in H1. now apply reset_hands_back in H1.
      - apply bind_Ok_inv in H0 as ([] & w1 & _ & H2).
        inversion Hops; subst. now apply (IH ltac:(assumption) w1). }
    split; [|exact E2].
    pose proof (secondaries_ledger gpu _ w w' H) as L.
    rewrite E2, app_nil_r in L. now symmetry. }
  split; [|split; [exact E|exact S]].
  apply (Permutation_count_occ Z.eq_dec). intros r.
  assert (Hall : Forall (fun op => releasesWithoutClearing op = false)
                        (ops ++ [PBase BReset])).
  { apply Forall_app. split; [exact Hops|]. now constructor. }
  pose proof (references_are_accounted_for_aux gpu _ w w' Hall H r) as B.
  rewrite Hh, E in B. unfold occurrences in B. cbn in B. lia.
Qed.

(** X4: a primary buffer hands back the secondary buffers it has executed,
    in the order of their execution, each once.  Method by method:
    executeCommands takes the buffer it is given and appends it to the list;
    reset hands back every buffer of the list, in order, and empties the
    list; every other method, freeGPUData and abandonGPUData included, takes
    none, hands none back and leaves the list as it is.  Hence, over any
    sequence of methods, the buffers listed at the start followed by those
    taken are those handed back followed by the buffers listed at the end,
    and when the sequence ends with reset every buffer listed or taken has
    been handed back and the list is empty. *)
Theorem secondary_buffers_are_returned_in_order gpu :
  (forall op (w w' : World Primary),
     runPrimaryOp gpu op w = Ok (tt, w') ->
     secondariesTaken (emitted w w') = takesSecondary op /\
     secondariesReturned (emitted w w') =
       returnsSecondaries op (fSecondaryCommandBuffers (primary (self w))) /\
     fSecondaryCommandBuffers (primary (self w')) =
       secondariesAfter op (fSecondaryCommandBuffers (primary (self w)))) /\
  (forall ops (w w' : World Primary),
     runPrimaryOps gpu ops w = Ok (tt, w') ->
     fSecondaryCommandBuffers (primary (self w)) ++ secondariesTaken (emitted w w') =
     secondariesReturned (emitted w w') ++
     fSecondaryCommandBuffers (primary (self w'))) /\
  (forall ops (w w' : World Primary),
     runPrimaryOps gpu (ops ++ [PBase BReset]) w = Ok (tt, w') ->
     secondariesReturned (emitted w w') =
       fSecondaryCommandBuffers (primary (self w)) ++ secondariesTaken (emitted w w') /\
     fSecondaryCommandBuffers (primary (self w')) = []).
Proof.
  split; [exact (secondaries_step gpu)|]. split; [exact (secondaries_ledger gpu)|].
  intros ops w w' H.
  assert (E : fSecondaryCommandBuffers (primary (self w')) = []).
  { unfold runPrimaryOps in H. revert w H.
    induction ops as [|op ops IH]; intros w H; cbn [app forEach] in H.
    - apply bind_Ok_inv in H as ([] & w1 & H1 & H2). inversion H2. subst w1.
      cbn [runPrimaryOp runBaseOp] in H1. now apply reset_hands_back in H1.
    - apply bind_Ok_inv in H as ([] & w1 & _ & H2). exact (IH _ H2). }
  split; [|exact E].
  pose proof (secondaries_ledger gpu _ w w' H) as L.
  rewrite E, app_nil_r in L. now symmetry.
Qed.

(** ** freeGPUData and abandonGPUData *)

(** X5: freeGPUData is refused on a buffer that is recording, and on a
    primary buffer inside a render pass.  Otherwise it returns, having
    released every tracked resource once (unref for the one list, recycle for
    the other), freed the native buffer, and destroyed the fence when the
    primary buffer holds one; the buffer itself is left as it was: the two
    lists keep their entries and the fence handle stays in place. *)
Theorem freeGPUData_releases_and_keeps_the_lists {k} gpu (w : World k) :
  freeGPUData gpu w =
  if fIsActive (self w) then AssertFailed "!fIsActive"
  else if onFreeGPUDataRejects (self w) then AssertFailed "!fActiveRenderPass"
  else Ok (tt, {| self := self w; sems := sems w;
                  calls := calls w ++ freeCalls gpu (self w) |}).
Proof.
  unfold freeGPUData, freeCalls, releaseCalls.
  unfold bind at 1, getSelf at 1. unfold bind at 1, SkASSERT at 1.
  destruct (fIsActive (self w)); cbn [negb]; [reflexivity|].
  unfold bind at 1. rewrite forEach_invoke.
  unfold bind at 1. rewrite forEach_invoke.
  unfold bind at 1, GR_VK_CALL at 1. cbn [self sems calls].
  destruct k; cbn [onFreeGPUData onFreeGPUDataRejects onFreeGPUDataCalls].
  - unfold Primary_onFreeGPUData, bind, getSelf, SkASSERT. cbn [self sems calls].
    destruct (nonNull (fActiveRenderPass (self w))); cbn [negb]; [reflexivity|].
    destruct (negb (fSubmitFence (primary (self w)) =? VK_NULL_HANDLE));
      unfold GR_VK_CALL, ret; cbn [self sems calls];
      rewrite <- !app_assoc; reflexivity.
  - unfold ret. rewrite <- !app_assoc. reflexivity.
Qed.

(** X6: abandonGPUData never fails, whatever the state of the buffer, and
    makes no call but unrefAndAbandon, once for every entry of the two lists
    (nothing is recycled and the device is not called); the buffer is left as
    it was. *)
Theorem abandonGPUData_never_fails {k} (w : World k) :
  abandonGPUData w =
  Ok (tt, {| self := self w; sems := sems w;
             calls := calls w ++ abandonCalls (self w) |}).
Proof.
  unfold abandonGPUData, abandonCalls.
  unfold bind at 1, getSelf at 1.
  unfold bind at 1. rewrite forEach_invoke. rewrite forEach_invoke.
  cbn [self sems calls]. now rewrite <- app_assoc.
Qed.

Lemma freeGPUData_Ok_inv {k} gpu (w w' : World k) :
  freeGPUData gpu w = Ok (tt, w') ->
  fIsActive (self w) = false /\
  w' = {| self := self w; sems := sems w; calls := calls w ++ freeCalls gpu (self w) |}.
Proof.
  unfold freeGPUData, freeCalls, releaseCalls.
  unfold bind at 1, getSelf at 1. unfold bind at 1, SkASSERT at 1.
  destruct (fIsActive (self w)); cbn [negb]; [discriminate|].
  unfold bind at 1. rewrite forEach_invoke.
  unfold bind at 1. rewrite forEach_invoke.
  unfold bind at 1, GR_VK_CALL at 1. cbn [self sems calls].
  destruct k; cbn [onFreeGPUData onFreeGPUDataCalls].
  - unfold Primary_onFreeGPUData, bind, getSelf, SkASSERT. cbn [self sems calls].
    destruct (nonNull (fActiveRenderPass (self w))); cbn [negb]; [discriminate|].
    destruct (negb (fSubmitFence (primary (self w)) =? VK_NULL_HANDLE));
      unfold GR_VK_CALL, ret; cbn [self sems calls];
      rewrite <- !app_assoc; intros H; inversion H; now split.
  - unfold ret. rewrite <- !app_assoc. intros H; inversion H; now split.
Qed.

Lemma released_freeCalls {k} gpu (cb : GrVkCommandBuffer k) :
  released (freeCalls gpu cb) = held cb /\ acquired (freeCalls gpu cb) = [].
Proof.
  destruct (released_releaseCalls cb) as [R A].
  unfold freeCalls. unfold released, acquired in *. rewrite !flat_map_app, R, A.
  assert (H : flat_map (fun c => match c with
                                 | ResourceUnref r0 | ResourceRecycle r0
                                 | ResourceUnrefAndAbandon r0 => [r0]
                                 | _ => []
                                 end) (onFreeGPUDataCalls gpu cb) = [] /\
              flat_map (fun c => match c with ResourceRef r0 => [r0] | _ => [] end)
                (onFreeGPUDataCalls gpu cb) = []).
  { destruct k; cbn [onFreeGPUDataCalls]; [|now split].
    destruct (negb _); now split. }
  destruct H as [H1 H2]. rewrite H1, H2. cbn. now rewrite app_nil_r.
Qed.

(** X7: freeGPUData does not make reset forget: a reset that follows
    freeGPUData releases every reference that freeGPUData has released
    already, so that each resource the buffer held is released twice. *)
Theorem reset_after_freeGPUData_releases_again {k} gpu (w w1 w2 : World k) :
  freeGPUData gpu w = Ok (tt, w1) ->
  reset gpu w1 = Ok (tt, w2) ->
  released (emitted w w2) = held (self w) ++ held (self w) /\
  acquired (emitted w w2) = [] /\
  held (self w2) = [].
Proof.
  intros Hf Hr.
  apply freeGPUData_Ok_inv in Hf as [_ ->].
  apply reset_Ok_inv in Hr as (_ & _ & cb & storage & Hc & ->).
  cbn [self sems calls] in *.
  rewrite (emitted_app w _ (freeCalls gpu (self w) ++ releaseCalls (self w) ++ storage ++
                              [ResetCommandBuffer (fCmdBuffer (self w)) 0] ++
                              onResetCalls (invalidated cb)))
    by (cbn [calls]; rewrite <- !app_assoc; reflexivity).
  destruct (released_freeCalls gpu (self w)) as [R0 A0].
  destruct (released_releaseCalls (self w)) as [R1 A1].
  destruct (onResetCalls_quiet (invalidated cb)) as [R2 A2].
  assert (Hs : released storage = [] /\ acquired storage = [] /\
               held (afterOnReset (invalidated cb)) = []).
  { destruct Hc as [(_ & -> & ->)|(_ & -> & ->)]; destruct k; now repeat split. }
  destruct Hs as (S1 & S2 & S3).
  unfold released, acquired in *.
  rewrite !flat_map_app, R0, A0, R1, A1, R2, A2, S1, S2.
  cbn [flat_map app]. rewrite !app_nil_r. now repeat split.
Qed.

(** ** What the methods ask of the recording state *)

Ltac unfold_methods :=
  unfold freeGPUData, abandonGPUData, reset, pipelineBarrier, bindInputBuffer,
    bindIndexBuffer, clearAttachments, bindDescriptorSets_pipelineState,
    bindDescriptorSets, bindPipeline, drawIndexed, draw, setViewport, setScissor,
    setBlendConstants, Primary_begin, Primary_end, beginRenderPass, endRenderPass,
    executeCommands, submitToQueue, finished, copyImage, blitImage_images, blitImage,
    copyImageToBuffer, copyBufferToImage, copyBuffer, updateBuffer, clearColorImage,
    clearDepthStencilImage, resolveImage, Secondary_begin, Secondary_end.

Lemma requiredActiveBase_checked {k} gpu op b (w : World k) :
  requiredActiveBase op = Some b ->
  fIsActive (self w) = negb b ->
  runBaseOp gpu op w = AssertFailed (activeAssertion b).
Proof.
  intros Hop Ha.
  destruct op; cbn [requiredActiveBase] in Hop; try discriminate;
    inversion Hop; subst b; cbn [negb activeAssertion] in *; cbn [runBaseOp];
    unfold_methods; unfold bind, getSelf, SkASSERT; now rewrite Ha.
Qed.

Lemma requiredRenderPassBase_checked {k} gpu op b (w : World k) :
  requiredRenderPassBase op = Some b ->
  fIsActive (self w) = true ->
  nonNull (fActiveRenderPass (self w)) = negb b ->
  runBaseOp gpu op w = AssertFailed (renderPassAssertion b).
Proof.
  intros Hop Ha Hp.
  destruct op; cbn [requiredRenderPassBase] in Hop; try discriminate;
    inversion Hop; subst b; cbn [negb renderPassAssertion] in *; cbn [runBaseOp];
    unfold_methods; unfold bind, getSelf, SkASSERT; rewrite Ha; cbv beta iota;
    now rewrite Hp.
Qed.

(** X8: the assertions on the recording state.  A method that records a
    command is refused on a buffer that is not recording, and begin, reset,
    freeGPUData and submitToQueue are refused on one that is; the drawing
    methods, clearAttachments and endRenderPass are refused outside a render
    pass, and end, beginRenderPass, the barrier, and the transfers and clears
    are refused inside one.  The assertion that fails is the one on fIsActive
    when both fail. *)
Theorem methods_check_the_recording_state gpu :
  (forall op b (w : World Primary),
     requiredActivePrimary op = Some b ->
     fIsActive (self w) = negb b ->
     runPrimaryOp gpu op w = AssertFailed (activeAssertion b)) /\
  (forall op b (w : World Secondary),
     requiredActiveSecondary op = Some b ->
     fIsActive (self w) = negb b ->
     runSecondaryOp gpu op w = AssertFailed (activeAssertion b)) /\
  (forall op b (w : World Primary),
     requiredRenderPassPrimary op = Some b ->
     fIsActive (self w) = true ->
     nonNull (fActiveRenderPass (self w)) = negb b ->
     runPrimaryOp gpu op w = AssertFailed (renderPassAssertion b)) /\
  (forall op b (w : World Secondary),
     requiredRenderPassSecondary op = Some b ->
     fIsActive (self w) = true ->
     nonNull (fActiveRenderPass (self w)) = negb b ->
     runSecondaryOp gpu op w = AssertFailed (renderPassAssertion b)).
Proof.
  repeat match goal with |- _ /\ _ => split end.
  - intros op b w Hop Ha.
    destruct op as [bop| | | | | | | |oop]; cbn [requiredActivePrimary] in Hop;
      try discriminate;
      [exact (requiredActiveBase_checked gpu bop b w Hop Ha)|..];
      inversion Hop; subst b; cbn [negb activeAssertion] in *; cbn [runPrimaryOp];
      try (destruct oop; cbn [runOutsidePassOp]);
      unfold_methods; unfold bind, getSelf, SkASSERT; now rewrite Ha.
  - intros op b w Hop Ha.
    destruct op as [bop| |]; cbn [requiredActiveSecondary] in Hop;
      [exact (requiredActiveBase_checked gpu bop b w Hop Ha)|..];
      inversion Hop; subst b; cbn [negb activeAssertion] in *; cbn [runSecondaryOp];
      unfold_methods; unfold bind, getSelf, SkASSERT; now rewrite Ha.
  - intros op b w Hop Ha Hp.
    destruct op as [bop| | | | | | | |oop]; cbn [requiredRenderPassPrimary] in Hop;
      try discriminate;
      [exact (requiredRenderPassBase_checked gpu bop b w Hop Ha Hp)|..];
      inversion Hop; subst b; cbn [negb renderPassAssertion] in *; cbn [runPrimaryOp];
      try (destruct oop; cbn [runOutsidePassOp]);
      unfold_methods; unfold bind, getSelf, SkASSERT; rewrite Ha; cbv beta iota;
      now rewrite Hp.
  - intros op b w Hop Ha Hp.
    destruct op as [bop| |]; cbn [requiredRenderPassSecondary] in Hop;
      try discriminate.
    exact (requiredRenderPassBase_checked gpu bop b w Hop Ha Hp).
Qed.

(** ** copyBuffer and updateBuffer *)

Lemma land_3_mod_4 x : (0 =? Z.land x 3) = (x mod 4 =? 0).
Proof.
  change 3 with (Z.ones 2). rewrite Z.land_ones by lia.
  change (2 ^ 2) with 4. apply Z.eqb_sym.
Qed.

Lemma copyBuffer_region_checks srcBuffer dstBuffer (regions : list VkBufferCopy)
    (l : list nat) (w : World Primary) :
  let checks :=
    forEach l (fun i =>
      match regions !! i with
      | Some region =>
          SkASSERT "region.size > 0" (size region >? 0) ;;;
          SkASSERT "region.srcOffset < srcBuffer->size()"
                   (srcOffset region <? buf_size srcBuffer) ;;;
          SkASSERT "region.dstOffset < dstBuffer->size()"
                   (dstOffset region <? buf_size dstBuffer) ;;;
          SkASSERT "region.srcOffset + region.size <= srcBuffer->size()"
                   (add_uint64 (srcOffset region) (size region) <=? buf_size srcBuffer) ;;;
          SkASSERT "region.dstOffset + region.size <= dstBuffer->size()"
                   (add_uint64 (dstOffset region) (size region) <=? buf_size dstBuffer)
      | None => undefinedBehaviour "regions[i]"
      end) in
  let ok :=
    forallb (fun i => match regions !! i with
                      | Some region => regionInBounds srcBuffer dstBuffer region
                      | None => false
                      end) l in
  (ok = true -> checks w = Ok (tt, w)) /\
  (ok = false -> forall r, checks w <> Ok r).
Proof.
  cbv zeta. induction l as [|i l [IH1 IH2]]; cbn [forEach forallb].
  - split; [reflexivity|discriminate].
  - unfold bind at 1 3. destruct (regions !! i) as [region|].
    + unfold regionInBounds, bind, SkASSERT. rewrite Z.gtb_ltb.
      destruct (0 <? size region); cbn [andb]; [|split; [discriminate|intros _ r; discriminate]].
      destruct (srcOffset region <? buf_size srcBuffer); cbn [andb];
        [|split; [discriminate|intros _ r; discriminate]].
      destruct (dstOffset region <? buf_size dstBuffer); cbn [andb];
        [|split; [discriminate|intros _ r; discriminate]].
      destruct (add_uint64 (srcOffset region) (size region) <=? buf_size srcBuffer);
        cbn [andb]; [|split; [discriminate|intros _ r; discriminate]].
      destruct (add_uint64 (dstOffset region) (size region) <=? buf_size dstBuffer);
        cbn [andb]; [|split; [discriminate|intros _ r; discriminate]].
      split; [exact IH1|exact IH2].
    + cbn [andb]. split; [discriminate|intros _ r; discriminate].
Qed.

(** X9: copyBuffer records the copy exactly when the buffer is recording
    outside a render pass and each of the first regionCount regions has a
    positive size and lies inside both buffers, the ends of the region being
    computed in 64 bits.  It then takes a reference to the resource of the
    source and to that of the destination, in this order, and records one
    vkCmdCopyBuffer with the regions as given. *)
Theorem copyBuffer_accepts_regions_in_bounds gpu srcBuffer dstBuffer regionCount regions
    (w : World Primary) :
  let accepted := recordingOutsidePass (self w) &&
                  regionsInBounds srcBuffer dstBuffer regionCount regions in
  (accepted = true ->
   copyBuffer gpu srcBuffer dstBuffer regionCount regions w =
   Ok (tt, {| self := track (buf_resource dstBuffer)
                        (track (buf_resource srcBuffer) (self w));
              sems := sems w;
              calls := calls w ++
                [ResourceRef (buf_resource srcBuffer);
                 ResourceRef (buf_resource dstBuffer);
                 CmdCopyBuffer (fCmdBuffer (self w)) (buf_buffer srcBuffer)
                               (buf_buffer dstBuffer) regionCount regions] |})) /\
  (accepted = false ->
   forall r, copyBuffer gpu srcBuffer dstBuffer regionCount regions w <> Ok r).
Proof.
  cbv zeta. unfold recordingOutsidePass, regionsInBounds.
  destruct (copyBuffer_region_checks srcBuffer dstBuffer regions
              (seq 0 (Z.to_nat regionCount)) w) as [C1 C2].
  cbv zeta in C1, C2.
  destruct (fIsActive (self w)) eqn:Ha; cbn [andb];
    [|split; [discriminate|intros _ r];
      unfold copyBuffer, bind, getSelf, SkASSERT; rewrite Ha; discriminate].
  destruct (negb (nonNull (fActiveRenderPass (self w)))) eqn:Hp; cbn [andb];
    [|split; [discriminate|intros _ r];
      unfold copyBuffer, bind, getSelf, SkASSERT; rewrite Ha; cbv beta iota;
      rewrite Hp; discriminate].
  split.
  - intros Hok. unfold copyBuffer.
    unfold bind at 1, getSelf at 1. unfold bind at 1, SkASSERT at 1. rewrite Ha.
    unfold bind at 1, SkASSERT at 1. rewrite Hp.
    unfold bind at 1. rewrite (C1 Hok).
    unfold bind at 1. rewrite addResource_eq.
    unfold bind at 1. rewrite addResource_eq.
    unfold bind, GR_VK_CALL, ret. cbn [self sems calls].
    rewrite <- !app_assoc. reflexivity.
  - intros Hok r. specialize (C2 Hok). unfold copyBuffer.
    unfold bind at 1, getSelf at 1. unfold bind at 1, SkASSERT at 1. rewrite Ha.
    unfold bind at 1, SkASSERT at 1. rewrite Hp.
    unfold bind at 1.
    match goal with
    | |- context [forEach ?l ?body w] => destruct (forEach l body w) as [[[] w1]| | |] eqn:E
    end; try discriminate.
    now destruct (C2 (tt, w1)).
Qed.

(** X10: updateBuffer records the update exactly when the buffer is
    recording outside a render pass, the offset and the size are multiples of
    four, and the size is at most 65536 bytes.  It then takes a reference to
    the resource of the destination and records one vkCmdUpdateBuffer. *)
Theorem updateBuffer_accepts_aligned_small_updates gpu dstBuffer dstOffset dataSize data
    (w : World Primary) :
  let accepted := recordingOutsidePass (self w) && updateInBounds dstOffset dataSize in
  (accepted = true ->
   updateBuffer gpu dstBuffer dstOffset dataSize data w =
   Ok (tt, {| self := track (buf_resource dstBuffer) (self w);
              sems := sems w;
              calls := calls w ++
                [ResourceRef (buf_resource dstBuffer);
                 CmdUpdateBuffer (fCmdBuffer (self w)) (buf_buffer dstBuffer)
                                 dstOffset dataSize data] |})) /\
  (accepted = false ->
   forall r, updateBuffer gpu dstBuffer dstOffset dataSize data w <> Ok r).
Proof.
  cbv zeta. unfold recordingOutsidePass, updateInBounds, updateBuffer.
  unfold bind, getSelf, SkASSERT. rewrite !land_3_mod_4.
  destruct (fIsActive (self w)); cbn [andb];
    [|split; [discriminate|intros _ r; discriminate]].
  destruct (negb (nonNull (fActiveRenderPass (self w)))); cbn [andb];
    [|split; [discriminate|intros _ r; discriminate]].
  destruct (dstOffset mod 4 =? 0); cbn [andb];
    [|split; [discriminate|intros _ r; discriminate]].
  destruct (dataSize mod 4 =? 0), (dataSize <=? 65536); cbn [andb];
    try (split; [discriminate|intros _ r; discriminate]).
  split; [intros _|discriminate].
  rewrite addResource_eq. unfold GR_VK_CALL, ret. cbn [self sems calls].
  rewrite <- !app_assoc. reflexivity.
Qed.

(** ** Forced synchronisation *)

(** X11: a submission with forced synchronisation is the submission without
    it, followed by the wait for the fence.  When the wait times out the
    process is aborted; when it fails otherwise, the assertion on its result
    fails; when it succeeds, the fence is destroyed and the buffer holds no
    fence. *)
Theorem forced_sync_is_submission_then_wait gpu queue signals waits
    (w w1 : World Primary) :
  submitToQueue gpu queue kSkip_SyncQueue signals waits w = Ok (tt, w1) ->
  submitToQueue gpu queue kForce_SyncQueue signals waits w =
  if VK_TIMEOUT =? waitResult gpu w1 then Aborted "failing"
  else if waitResult gpu w1 =? 0 then
    Ok (tt, {| self := set_fSubmitFence VK_NULL_HANDLE (self w1);
               sems := sems w1;
               calls := calls w1 ++
                 [waitForSubmitFence gpu w1;
                  DestroyFence (device gpu) (fSubmitFence (primary (self w1)))] |})
  else AssertFailed "!err".
Proof.
  intros H. unfold submitToQueue in *. cbv zeta in *.
  apply bind_Ok_inv in H as (cb & wa & Ha & H). rewrite (bind_Ok _ _ _ _ _ Ha).
  apply bind_Ok_inv in H as (u1 & wb & Hb & H). rewrite (bind_Ok _ _ _ _ _ Hb).
  apply bind_Ok_inv in H as (u2 & wc & Hc & H). rewrite (bind_Ok _ _ _ _ _ Hc).
  apply bind_Ok_inv in H as (u3 & wd & Hd & H). rewrite (bind_Ok _ _ _ _ _ Hd).
  inversion H; subst wd; clear H.
  unfold waitResult, waitForSubmitFence.
  unfold bind, getSelf, GR_VK_CALL, invoke, SK_ABORT, SkASSERT, modifySelf, ret.
  cbn [self sems calls].
  destruct (VK_TIMEOUT =? _); [reflexivity|].
  destruct (_ =? 0); [|reflexivity].
  cbn [self sems calls]. rewrite <- app_assoc. reflexivity.
Qed.

(** ** The mutex of the semaphores *)

Lemma callsWhile_app want locked l l' :
  Forall (fun c => isMutexCall c = false) l ->
  callsWhile want locked (l ++ l') =
  (if Bool.eqb locked want then l else []) ++ callsWhile want locked l'.
Proof.
  induction 1 as [|c l Hc _ IH]; cbn [app].
  - now destruct (Bool.eqb locked want).
  - destruct c; try discriminate; cbn [callsWhile]; rewrite IH;
      now destruct (Bool.eqb locked want).
Qed.

Lemma mutexCalls_app_quiet l l' :
  Forall (fun c => isMutexCall c = false) l ->
  mutexCalls (l ++ l') = mutexCalls l'.
Proof.
  unfold mutexCalls. induction 1 as [|c l Hc _ IH]; cbn [app List.filter];
    [reflexivity|]. now rewrite Hc.
Qed.

Lemma quiet_map {A} (c : A -> call) (l : list A) :
  (forall x, isMutexCall (c x) = false) ->
  Forall (fun c => isMutexCall c = false) (List.map c l).
Proof. intros H. induction l; cbn; constructor; auto. Qed.

Lemma quiet_fenceCalls gpu old :
  Forall (fun c => isMutexCall c = false) (fenceCalls gpu old).
Proof. unfold fenceCalls. destruct (_ =? _); repeat constructor. Qed.

Lemma quiet_syncCalls gpu sync fence :
  Forall (fun c => isMutexCall c = false) (syncCalls gpu sync fence).
Proof. destruct sync; repeat constructor. Qed.

Lemma noSemaphores_nil signals waits :
  noSemaphores signals waits = true -> signals = [] /\ waits = [].
Proof. destruct signals, waits; cbn; try discriminate; auto. Qed.

Lemma callsWhile_quiet want l :
  Forall (fun c => isMutexCall c = false) l ->
  callsWhile want false l = if want then [] else l.
Proof.
  intros Q. rewrite <- (app_nil_r l) at 1. rewrite (callsWhile_app _ _ _ _ Q).
  destruct want; cbn; now rewrite ?app_nil_r.
Qed.

Lemma callsWhile_bracket want A B C :
  Forall (fun c => isMutexCall c = false) A ->
  Forall (fun c => isMutexCall c = false) B ->
  Forall (fun c => isMutexCall c = false) C ->
  callsWhile want false (A ++ AcquireMutex :: B ++ ReleaseMutex :: C) =
  if want then B else A ++ C.
Proof.
  intros QA QB QC. rewrite (callsWhile_app _ _ _ _ QA). cbn [callsWhile].
  rewrite (callsWhile_app _ _ _ _ QB). cbn [callsWhile].
  rewrite (callsWhile_quiet _ _ QC).
  destruct want; cbn; now rewrite ?app_nil_r.
Qed.

Lemma mutexCalls_quiet l :
  Forall (fun c => isMutexCall c = false) l -> mutexCalls l = [].
Proof.
  intros Q. rewrite <- (app_nil_r l). now rewrite (mutexCalls_app_quiet _ _ Q).
Qed.

Lemma mutexCalls_bracket A B C :
  Forall (fun c => isMutexCall c = false) A ->
  Forall (fun c => isMutexCall c = false) B ->
  Forall (fun c => isMutexCall c = false) C ->
  mutexCalls (A ++ AcquireMutex :: B ++ ReleaseMutex :: C) =
  [AcquireMutex; ReleaseMutex].
Proof.
  intros QA QB QC. rewrite (mutexCalls_app_quiet _ _ QA).
  change (mutexCalls (AcquireMutex :: B ++ ReleaseMutex :: C))
    with (AcquireMutex :: mutexCalls (B ++ ReleaseMutex :: C)).
  rewrite (mutexCalls_app_quiet _ _ QB).
  change (mutexCalls (ReleaseMutex :: C)) with (ReleaseMutex :: mutexCalls C).
  now rewrite (mutexCalls_quiet _ QC).
Qed.

(** X12: submitToQueue takes the mutex of the semaphores exactly when it is
    given a semaphore, once, and gives it back.  The calls come in this
    order: the creation or the reset of the fence; then, with a semaphore,
    the lock, the references to the semaphores that pass the filters, the
    submission, the marks of all the semaphores and the unlock, and without a
    semaphore the submission alone; then, with forced synchronisation, the
    wait for the fence and its destruction.  So the references, the
    submission and the marks are made while the mutex is held, and the calls
    on the fence while it is not. *)
Theorem submitToQueue_holds_the_mutex_around_the_semaphores gpu queue sync
    signals waits (w w' : World Primary) :
  submitToQueue gpu queue sync signals waits w = Ok (tt, w') ->
  let fence := fenceOfSubmission gpu w in
  let submission :=
    QueueSubmit queue 1 (submitInfoOf (sems w) (fCmdBuffer (self w)) signals waits)
                fence in
  let before := fenceCalls gpu (fSubmitFence (primary (self w))) in
  let afterwards := syncCalls gpu sync fence in
  emitted w w' =
    before ++
    (if noSemaphores signals waits then [submission]
     else
       [AcquireMutex] ++
       List.map ResourceRef (List.filter (shouldSignal (sems w)) signals) ++
       List.map ResourceRef (List.filter (shouldWait (sems w)) waits) ++
       [submission] ++
       List.map MarkAsSignaled signals ++ List.map MarkAsWaited waits ++
       [ReleaseMutex]) ++
    afterwards /\
  if noSemaphores signals waits then
    mutexCalls (emitted w w') = [] /\
    underMutex (emitted w w') = [] /\
    outsideMutex (emitted w w') = before ++ [submission] ++ afterwards
  else
    mutexCalls (emitted w w') = [AcquireMutex; ReleaseMutex] /\
    underMutex (emitted w w') =
      List.map ResourceRef (List.filter (shouldSignal (sems w)) signals) ++
      List.map ResourceRef (List.filter (shouldWait (sems w)) waits) ++
      [submission] ++
      List.map MarkAsSignaled signals ++ List.map MarkAsWaited waits /\
    outsideMutex (emitted w w') = before ++ afterwards.
Proof.
  intros H. cbv zeta.
  apply submitToQueue_inv in H as (_ & C & _ & _). cbv zeta in C.
  rewrite (emitted_app _ _ _ C).
  pose proof (quiet_fenceCalls gpu (fSubmitFence (primary (self w)))) as Qf.
  pose proof (quiet_syncCalls gpu sync (fenceOfSubmission gpu w)) as Qs.
  unfold underMutex, outsideMutex.
  destruct (noSemaphores signals waits) eqn:E.
  - apply noSemaphores_nil in E as [-> ->].
    cbn [callsBeforeSubmit callsAfterSubmit app].
    split; [reflexivity|].
    assert (Q : Forall (fun c => isMutexCall c = false)
                  (fenceCalls gpu (fSubmitFence (primary (self w))) ++
                   QueueSubmit queue 1
                     (submitInfoOf (sems w) (fCmdBuffer (self w)) [] [])
                     (fenceOfSubmission gpu w) ::
                   syncCalls gpu sync (fenceOfSubmission gpu w))).
    { apply Forall_app. split; [exact Qf|]. now constructor. }
    rewrite (mutexCalls_quiet _ Q), !(callsWhile_quiet _ _ Q). now repeat split.
  - assert (Eb : callsBeforeSubmit (sems w) signals waits =
                 AcquireMutex ::
                 List.map ResourceRef (List.filter (shouldSignal (sems w)) signals) ++
                 List.map ResourceRef (List.filter (shouldWait (sems w)) waits))
      by (destruct signals, waits; try reflexivity; discriminate).
    assert (Ea : callsAfterSubmit signals waits =
                 List.map MarkAsSignaled signals ++ List.map MarkAsWaited waits ++
                 [ReleaseMutex])
      by (destruct signals, waits; try reflexivity; discriminate).
    rewrite Eb, Ea.
    split; [cbn [app]; rewrite <- !app_assoc; cbn [app]; rewrite <- ?app_assoc;
            reflexivity|].
    match goal with
    | |- context [mutexCalls ?l] =>
        replace l with
          (fenceCalls gpu (fSubmitFence (primary (self w))) ++
           AcquireMutex ::
           (List.map ResourceRef (List.filter (shouldSignal (sems w)) signals) ++
            List.map ResourceRef (List.filter (shouldWait (sems w)) waits) ++
            [QueueSubmit queue 1
               (submitInfoOf (sems w) (fCmdBuffer (self w)) signals waits)
               (fenceOfSubmission gpu w)] ++
            List.map MarkAsSignaled signals ++ List.map MarkAsWaited waits) ++
           ReleaseMutex :: syncCalls gpu sync (fenceOfSubmission gpu w))
          by (cbn [app]; rewrite <- !app_assoc; cbn [app];
              rewrite <- ?app_assoc; cbn [app]; reflexivity)
    end.
    assert (Q : Forall (fun c => isMutexCall c = false)
                  (List.map ResourceRef (List.filter (shouldSignal (sems w)) signals) ++
                   List.map ResourceRef (List.filter (shouldWait (sems w)) waits) ++
                   [QueueSubmit queue 1
                      (submitInfoOf (sems w) (fCmdBuffer (self w)) signals waits)
                      (fenceOfSubmission gpu w)] ++
                   List.map MarkAsSignaled signals ++ List.map MarkAsWaited waits)).
    { repeat (apply Forall_app; split); try (now apply quiet_map).
      now repeat constructor. }
    rewrite (mutexCalls_bracket _ _ _ Qf Q Qs), !(callsWhile_bracket _ _ _ _ Qf Q Qs).
    now repeat split.
Qed.

(** ** finished, after a submission *)

(** X13: after a submission with forced synchronisation, finished answers
    true without a call to the device, whatever the device; after a
    submission without it, finished asks the device for the status of the
    fence of that submission, and for nothing else. *)
Theorem finished_after_submission gpu queue sync signals waits (w w' : World Primary) :
  submitToQueue gpu queue sync signals waits w = Ok (tt, w') ->
  match sync with
  | kForce_SyncQueue => forall gpu', finished gpu' w' = Ok (true, w')
  | kSkip_SyncQueue =>
      fenceOfSubmission gpu w <> VK_NULL_HANDLE ->
      forall gpu' b w'',
        finished gpu' w' = Ok (b, w'') ->
        emitted w' w'' = [GetFenceStatus (device gpu') (fenceOfSubmission gpu w)] /\
        self w'' = self w'
  end.
Proof.
  intros H. apply submitToQueue_inv in H as (_ & _ & F & _). cbv zeta in F.
  destruct sync.
  - intros gpu'. unfold finished, bind, getSelf. now rewrite F.
  - intros Hn gpu' b w'' Hf. unfold finished, bind, getSelf, GR_VK_CALL in Hf.
    rewrite F in Hf. apply not_eq_sym, Z.eqb_neq in Hn. rewrite Hn in Hf.
    cbv beta iota zeta in Hf. cbn [self sems calls] in Hf.
    destruct (_ =? VK_SUCCESS).
    + inversion Hf. cbn [self]. split; [|reflexivity].
      now apply emitted_app.
    + destruct (_ =? VK_NOT_READY); [|discriminate].
      inversion Hf. cbn [self]. split; [|reflexivity].
      now apply emitted_app.
Qed.

(** ** The first use of a state after its invalidation *)

Lemma lookup_map_const {A B} (c : B) (l : list A) i h :
  List.map (fun _ => c) l !! i = Some h -> h = c.
Proof.
  revert i. induction l as [|x l IH]; intros [|i]; cbn; try discriminate.
  - now intros [= <-].
  - apply IH.
Qed.

(** X14: while the cache holds what invalidateState has left in it, no bind
    is skipped: every bind whose arguments pass the assertions records its
    command and takes a reference to the resource of the buffer.  A viewport,
    a scissor rectangle or blend constants are recorded and cached unless
    they are, byte for byte, the value that invalidateState has left; then
    the call is skipped. *)
Theorem first_use_after_invalidation_is_recorded {k} gpu (w : World k) :
  cachedState (self w) = unsetState (cachedState (self w)) ->
  (forall b h,
     bindingArgumentsOk b = true ->
     cachedBinding b (self w) = Some h ->
     bindBuffer gpu b w =
     Ok (tt, {| self := track (buf_resource (boundBuffer b)) (cacheBinding b (self w));
                sems := sems w;
                calls := calls w ++ [bindCommand b (self w);
                                     ResourceRef (buf_resource (boundBuffer b))] |})) /\
  (forall d,
     fIsActive (self w) = true ->
     ~ isSentinel d ->
     setDynamicState gpu d w =
     Ok (tt, {| self := cacheDynamicState d (self w); sems := sems w;
                calls := calls w ++ [dynamicStateCommand d (self w)] |})) /\
  (forall d,
     fIsActive (self w) = true ->
     isSentinel d ->
     setDynamicState gpu d w = Ok (tt, w)).
Proof.
  intros Hc. unfold cachedState, unsetState in Hc.
  cbn [cs_boundInputBuffers cs_boundIndexBuffer cs_viewport cs_scissor cs_blendConstant]
    in Hc.
  injection Hc as Hin Hix Hv Hs Hb.
  split; [|split].
  - intros b h Hok Hslot.
    assert (Hh : h = VK_NULL_HANDLE).
    { destruct b; cbn [cachedBinding] in Hslot.
      - rewrite Hin in Hslot. exact (lookup_map_const _ _ _ _ Hslot).
      - injection Hslot as <-. exact Hix. }
    subst h. apply (bindBuffer_emit gpu b VK_NULL_HANDLE w Hok Hslot).
    unfold bindingArgumentsOk in Hok. apply andb_true_iff in Hok as [Hnull _].
    apply negb_true_iff in Hnull. now rewrite Z.eqb_sym.
  - intros d Ha Hd. apply setDynamicState_emit; [exact Ha|].
    destruct (differsFromCache d (self w)) eqn:E; [reflexivity|].
    exfalso. apply Hd. apply differsFromCache_false in E.
    destruct d; cbn [isCached isSentinel] in *; congruence.
  - intros d Ha Hd. apply setDynamicState_skip; [exact Ha|].
    destruct d; cbn [isSentinel differsFromCache] in *; subst;
      [rewrite Hv|rewrite Hs|rewrite Hb]; now rewrite memcmp_refl.
Qed.

(** ** A secondary buffer, from its recording to its execution *)

Lemma Secondary_begin_Ok_inv gpu framebuffer renderPass (w w' : World Secondary) :
  Secondary_begin gpu framebuffer (Some renderPass) w = Ok (tt, w') ->
  self w' = set_fIsActive true (set_fActiveRenderPass (Some renderPass) (self w)).
Proof.
  unfold Secondary_begin, GR_VK_CALL_ERRCHECK, bind, getSelf, SkASSERT, GR_VK_CALL,
    modifySelf. cbn [self sems calls nonNull].
  destruct (negb (fIsActive (self w))); [|discriminate].
  destruct (errcheck _); [|discriminate].
  intros H. now inversion H.
Qed.

Lemma Secondary_end_Ok_inv gpu (w w' : World Secondary) :
  Secondary_end gpu w = Ok (tt, w') ->
  self w' = set_fIsActive false (invalidated (self w)).
Proof.
  unfold Secondary_end, GR_VK_CALL_ERRCHECK, bind, getSelf, SkASSERT, GR_VK_CALL.
  cbn [self sems calls].
  destruct (fIsActive (self w)); [|discriminate].
  destruct (errcheck _); [|discriminate].
  rewrite invalidateState_eq. unfold modifySelf. intros H. now inversion H.
Qed.

(** X15: a secondary buffer can be executed once its recording has ended,
    and not before.  Between its begin and its end, executeCommands refuses
    it; after its end, a primary buffer that is recording inside a render
    pass compatible with the one the secondary buffer was begun with records
    its execution, takes a reference to it, appends it to its list and
    invalidates its own cached state.  A secondary buffer that was never
    begun has no render pass to compare with. *)
Theorem secondary_buffer_is_executed_after_its_end gpu gpu' framebuffer renderPass
    (this : ptr) (ws ws1 ws2 : World Secondary) (wp : World Primary) rp :
  Secondary_begin gpu framebuffer (Some renderPass) ws = Ok (tt, ws1) ->
  Secondary_end gpu ws1 = Ok (tt, ws2) ->
  fIsActive (self wp) = true ->
  fActiveRenderPass (self wp) = Some rp ->
  executeCommands gpu' {| sec_this := this; sec_object := self ws1 |} wp =
    AssertFailed "!buffer->fIsActive" /\
  executeCommands gpu' {| sec_this := this; sec_object := self ws2 |} wp =
    (if isCompatiblePass rp renderPass then
       Ok (tt, {| self := invalidated
                            (set_fSecondaryCommandBuffers
                               (fSecondaryCommandBuffers (primary (self wp)) ++ [this])
                               (self wp));
                  sems := sems wp;
                  calls := calls wp ++
                    [CmdExecuteCommands (fCmdBuffer (self wp)) 1 (fCmdBuffer (self ws));
                     SecondaryRef this] |})
     else AssertFailed "fActiveRenderPass->isCompatible(*buffer->fActiveRenderPass)") /\
  (fActiveRenderPass (self ws) = None -> fIsActive (self ws) = false ->
   executeCommands gpu' {| sec_this := this; sec_object := self ws |} wp =
     Undefined "*buffer->fActiveRenderPass").
Proof.
  intros Hb He Ha Hp.
  apply Secondary_begin_Ok_inv in Hb. apply Secondary_end_Ok_inv in He.
  split; [|split].
  - unfold executeCommands, bind, getSelf, SkASSERT. rewrite Ha. cbv beta iota.
    cbn [sec_object]. now rewrite Hb.
  - unfold executeCommands. unfold bind at 1, getSelf at 1.
    unfold bind at 1, SkASSERT at 1. rewrite Ha.
    unfold bind at 1, SkASSERT at 1. cbn [sec_object]. rewrite He, Hb.
    cbn [fIsActive set_fIsActive negb].
    unfold bind at 1, SkASSERT at 1. rewrite Hp. cbn [nonNull].
    cbn [fActiveRenderPass fCmdBuffer set_fIsActive invalidated set_fActiveRenderPass
         set_fCachedBlendConstant set_fCachedScissor set_fCachedViewport
         set_fBoundIndexBuffer set_fBoundInputBuffers].
    unfold bind at 1, SkASSERT at 1.
    destruct (isCompatiblePass rp renderPass); [|reflexivity].
    unfold bind at 1, GR_VK_CALL at 1. unfold bind at 1, invoke at 1.
    unfold bind at 1, modifySelf at 1. rewrite invalidateState_eq.
    cbn [self sems calls]. now rewrite <- app_assoc.
  - intros Hn Hi. unfold executeCommands, bind, getSelf, SkASSERT. rewrite Ha.
    cbv beta iota. cbn [sec_object]. rewrite Hi. cbn [negb]. rewrite Hp. cbn [nonNull].
    now rewrite Hn.
Qed.

(** ** The reset counter *)

Lemma same_counter_runBaseOp {k} gpu op :
  op <> BReset -> keeps (k := k) (sameAt fNumResets) (runBaseOp gpu op).
Proof.
  intros Hop. destruct op; try congruence; cbn [runBaseOp];
    unfold freeGPUData, abandonGPUData, pipelineBarrier, bindInputBuffer,
      bindIndexBuffer, clearAttachments, bindDescriptorSets_pipelineState,
      bindDescriptorSets, bindPipeline, drawIndexed, draw, setViewport, setScissor,
      setBlendConstants;
    same;
    destruct k; cbn [onFreeGPUData]; unfold Primary_onFreeGPUData; same.
Qed.

Lemma same_counter_runPrimaryOp gpu op :
  op <> PBase BReset -> keeps (sameAt fNumResets) (runPrimaryOp gpu op).
Proof.
  intros Hop. destruct op as [bop| | | | | | | |oop]; cbn [runPrimaryOp].
  - apply same_counter_runBaseOp. congruence.
  - unfold Primary_begin. same.
  - unfold Primary_end. same.
  - unfold beginRenderPass. same.
  - unfold endRenderPass. same.
  - unfold executeCommands. same.
  - unfold submitToQueue. cbv zeta.
    same; first [ now apply same_collectSignalSemaphores
                | now apply same_collectWaitSemaphores ].
  - unfold finished. same.
  - destruct oop; cbn [runOutsidePassOp];
      unfold pipelineBarrier, copyImage, blitImage_images, blitImage, copyImageToBuffer,
        copyBufferToImage, copyBuffer, updateBuffer, clearColorImage,
        clearDepthStencilImage, resolveImage;
      same.
Qed.

Lemma reset_counter {k} gpu (w w' : World k) :
  reset gpu w = Ok (tt, w') ->
  fNumResets (self w') =
  if fNumResets (self w) + 1 >? kNumRewindResetsBeforeFullReset then 0
  else fNumResets (self w) + 1.
Proof.
  intros H. apply reset_Ok_inv in H as (_ & _ & cb & storage & Hc & ->).
  cbn [self].
  assert (E : fNumResets (afterOnReset (invalidated cb)) = fNumResets cb)
    by (destruct k; reflexivity).
  rewrite E. destruct Hc as [(Hk & -> & _)|(Hk & -> & _)]; cbn.
  - replace (_ >? _) with false by (symmetry; rewrite Z.gtb_ltb; apply Z.ltb_ge; lia).
    reflexivity.
  - replace (_ >? _) with true by (symmetry; rewrite Z.gtb_ltb; apply Z.ltb_lt; lia).
    reflexivity.
Qed.

Lemma counter_step_base {k} gpu op (w w' : World k) :
  runBaseOp gpu op w = Ok (tt, w') ->
  fNumResets (self w') = counterAfterBase op (fNumResets (self w)).
Proof.
  intros H.
  assert (D : op = BReset \/ op <> BReset)
    by (destruct op; try (right; discriminate); now left).
  destruct D as [->|Hop].
  - cbn [runBaseOp] in H. exact (reset_counter gpu w w' H).
  - pose proof (same_counter_runBaseOp gpu op Hop _ _ _ H) as S. unfold sameAt in S.
    rewrite S. destruct op; try reflexivity. congruence.
Qed.

(** X16: the reset counter is written by reset only, which counts up to
    kNumRewindResetsBeforeFullReset and starts again at zero; every other
    method of a primary or a secondary buffer leaves it as it is.  Hence,
    over any sequence of methods, a counter between zero and that bound stays
    between zero and that bound. *)
Theorem reset_counter_stays_in_range gpu :
  (forall op (w w' : World Primary),
     runPrimaryOp gpu op w = Ok (tt, w') ->
     fNumResets (self w') = counterAfterPrimary op (fNumResets (self w))) /\
  (forall op (w w' : World Secondary),
     runSecondaryOp gpu op w = Ok (tt, w') ->
     fNumResets (self w') = counterAfterSecondary op (fNumResets (self w))) /\
  (forall ops (w w' : World Primary),
     runPrimaryOps gpu ops w = Ok (tt, w') ->
     resetCounterInRange (self w) ->
     resetCounterInRange (self w')).
Proof.
  split; [|split].
  - intros op w w' H. destruct (PrimaryOp_is_reset op) as [->|Hop].
    + cbn [runPrimaryOp] in H. exact (counter_step_base gpu BReset w w' H).
    + pose proof (same_counter_runPrimaryOp gpu op Hop _ _ _ H) as S.
      unfold sameAt in S. rewrite S.
      destruct op as [bop| | | | | | | |oop]; try reflexivity.
      destruct bop; try reflexivity. congruence.
  - intros op w w' H. destruct op as [bop| |]; cbn [runSecondaryOp] in H.
    + exact (counter_step_base gpu bop w w' H).
    + assert (F : keeps (sameAt fNumResets)
                    (Secondary_begin gpu framebuffer compatibleRenderPass))
        by (unfold Secondary_begin; same).
      exact (F _ _ _ H).
    + assert (F : keeps (sameAt fNumResets) (Secondary_end gpu))
        by (unfold Secondary_end; same).
      exact (F _ _ _ H).
  - intros ops. unfold runPrimaryOps, resetCounterInRange.
    induction ops as [|op ops IH]; intros w w' H Hr; cbn [forEach] in H.
    + inversion H. now subst w'.
    + apply bind_Ok_inv in H as ([] & w1 & H1 & H2). apply (IH _ _ H2).
      destruct (PrimaryOp_is_reset op) as [->|Hop].
      * cbn [runPrimaryOp runBaseOp] in H1. rewrite (reset_counter _ _ _ H1).
        destruct (_ >? _) eqn:E; [lia|].
        rewrite Z.gtb_ltb in E. apply Z.ltb_ge in E. lia.
      * pose proof (same_counter_runPrimaryOp gpu op Hop _ _ _ H1) as S.
        unfold sameAt in S. now rewrite S.
Qed.

(** X17: reset returns on every buffer that is not recording and whose
    counter of resets is within its range, when the bound of the range is
    below INT_MAX: the increment of the counter cannot overflow there, and
    nothing else in reset can fail. *)
Theorem reset_returns_on_an_idle_buffer {k} gpu (w : World k) :
  kNumRewindResetsBeforeFullReset < INT_MAX ->
  fIsActive (self w) = false ->
  resetCounterInRange (self w) ->
  exists w', reset gpu w = Ok (tt, w').
Proof.
  intros HK Ha Hr. apply reset_progress; [exact Ha|].
  unfold resetCounterInRange in Hr. lia.
Qed.

(** ** clearAttachments *)

Lemma clearAttachments_check_one renderPass a (w : World Primary) :
  let check :=
    if aspectMask a =? VK_IMAGE_ASPECT_COLOR_BIT then
      match colorAttachmentIndex renderPass with
      | Some testIndex =>
          SkASSERT "testIndex == attachments[i].colorAttachment"
                   (testIndex =? colorAttachment a)
      | None =>
          SkASSERT "fActiveRenderPass->colorAttachmentIndex(&testIndex)" false
      end
    else ret tt in
  (attachmentMatches renderPass a = true -> check w = Ok (tt, w)) /\
  (attachmentMatches renderPass a = false -> forall r, check w <> Ok r).
Proof.
  cbv zeta. unfold attachmentMatches.
  destruct (aspectMask a =? VK_IMAGE_ASPECT_COLOR_BIT);
    [|split; [reflexivity|discriminate]].
  destruct (colorAttachmentIndex renderPass) as [testIndex|]; unfold SkASSERT;
    [destruct (testIndex =? colorAttachment a)|];
    split; try reflexivity; try discriminate; intros _ r; discriminate.
Qed.

Lemma clearAttachments_checks renderPass (attachments : list VkClearAttachment)
    (l : list nat) (w : World Primary) :
  let checks :=
    forEach l (fun i =>
      match attachments !! i, Some renderPass with
      | Some a, Some rp =>
          if aspectMask a =? VK_IMAGE_ASPECT_COLOR_BIT then
            match colorAttachmentIndex rp with
            | Some testIndex =>
                SkASSERT "testIndex == attachments[i].colorAttachment"
                         (testIndex =? colorAttachment a)
            | None =>
                SkASSERT "fActiveRenderPass->colorAttachmentIndex(&testIndex)" false
            end
          else ret tt
      | None, _ => undefinedBehaviour "attachments[i]"
      | _, None => undefinedBehaviour "fActiveRenderPass->"
      end) in
  let ok :=
    forallb (fun i => match attachments !! i with
                      | Some a => attachmentMatches renderPass a
                      | None => false
                      end) l in
  (ok = true -> checks w = Ok (tt, w)) /\
  (ok = false -> forall r, checks w <> Ok r).
Proof.
  cbv zeta. induction l as [|i l [IH1 IH2]]; cbn [forEach forallb].
  - split; [reflexivity|discriminate].
  - unfold bind at 1 2. destruct (attachments !! i) as [a|];
      [|split; [discriminate|intros _ r; discriminate]].
    cbv beta iota.
    destruct (clearAttachments_check_one renderPass a w) as [K1 K2].
    cbv zeta in K1, K2.
    destruct (attachmentMatches renderPass a); cbn [andb].
    + rewrite (K1 eq_refl). split; [exact IH1|exact IH2].
    + split; [discriminate|intros _ r].
      match goal with
      | |- match ?m with _ => _ end <> _ => destruct m as [[[] w1]| | |] eqn:E
      end; try discriminate.
      now destruct (K2 eq_refl (tt, w1)).
Qed.

(** X18: clearAttachments records the clear exactly when the buffer is
    recording inside a render pass, the two counts are positive, and every
    colour attachment among the first numAttachments has the index of the
    colour attachment of that render pass; attachments of another aspect are
    not compared.  It then records one vkCmdClearAttachments and changes
    nothing in the buffer. *)
Theorem clearAttachments_accepts_matching_attachments gpu numAttachments attachments
    numRects clearRects (w : World Primary) :
  let accepted :=
    fIsActive (self w) &&
    match fActiveRenderPass (self w) with
    | Some renderPass =>
        (numAttachments >? 0) && (numRects >? 0) &&
        attachmentsMatch renderPass numAttachments attachments
    | None => false
    end in
  (accepted = true ->
   clearAttachments gpu numAttachments attachments numRects clearRects w =
   Ok (tt, {| self := self w; sems := sems w;
              calls := calls w ++
                [CmdClearAttachments (fCmdBuffer (self w)) numAttachments attachments
                                     numRects clearRects] |})) /\
  (accepted = false ->
   forall r, clearAttachments gpu numAttachments attachments numRects clearRects w <>
             Ok r).
Proof.
  cbv zeta. unfold attachmentsMatch.
  destruct (fIsActive (self w)) eqn:Ha; cbn [andb];
    [|split; [discriminate|intros _ r];
      unfold clearAttachments, bind, getSelf, SkASSERT; rewrite Ha; discriminate].
  destruct (fActiveRenderPass (self w)) as [renderPass|] eqn:Hp;
    [|split; [discriminate|intros _ r];
      unfold clearAttachments, bind, getSelf, SkASSERT; rewrite Ha; cbv beta iota;
      rewrite Hp; discriminate].
  destruct (numAttachments >? 0) eqn:Hn; cbn [andb];
    [|split; [discriminate|intros _ r];
      unfold clearAttachments, bind, getSelf, SkASSERT; rewrite Ha; cbv beta iota;
      rewrite Hp; cbn [nonNull]; rewrite Hn; discriminate].
  destruct (numRects >? 0) eqn:Hr; cbn [andb];
    [|split; [discriminate|intros _ r];
      unfold clearAttachments, bind, getSelf, SkASSERT; rewrite Ha; cbv beta iota;
      rewrite Hp; cbn [nonNull]; rewrite Hn; cbv beta iota; rewrite Hr; discriminate].
  destruct (clearAttachments_checks renderPass attachments
              (seq 0 (Z.to_nat numAttachments)) w) as [C1 C2].
  cbv zeta in C1, C2.
  split.
  - intros Hok. unfold clearAttachments.
    unfold bind at 1, getSelf at 1. unfold bind at 1, SkASSERT at 1. rewrite Ha.
    unfold bind at 1, SkASSERT at 1. rewrite Hp. cbn [nonNull].
    unfold bind at 1, SkASSERT at 1. rewrite Hn.
    unfold bind at 1, SkASSERT at 1. rewrite Hr.
    unfold bind at 1. rewrite (C1 Hok).
    unfold bind, GR_VK_CALL, ret. reflexivity.
  - intros Hok r. specialize (C2 Hok). unfold clearAttachments.
    unfold bind at 1, getSelf at 1. unfold bind at 1, SkASSERT at 1. rewrite Ha.
    unfold bind at 1, SkASSERT at 1. rewrite Hp. cbn [nonNull].
    unfold bind at 1, SkASSERT at 1. rewrite Hn.
    unfold bind at 1, SkASSERT at 1. rewrite Hr.
    unfold bind at 1.
    match goal with
    | |- context [forEach ?l ?body w] => destruct (forEach l body w) as [[[] w1]| | |] eqn:E
    end; try discriminate.
    now destruct (C2 (tt, w1)).
Qed.

(** ** bindPipeline *)

Lemma bindPipeline_eq {k} gpu pipeline (w : World k) :
  fIsActive (self w) = true ->
  bindPipeline gpu pipeline w =
  Ok (tt, {| self := track (pl_this pipeline) (self w); sems := sems w;
             calls := calls w ++ bindPipelineCalls pipeline (self w) |}).
Proof.
  intros Ha. unfold bindPipeline, bind, getSelf, SkASSERT, GR_VK_CALL. rewrite Ha.
  rewrite addResource_eq. cbn [self sems calls]. now rewrite <- app_assoc.
Qed.

(** X19: a pipeline bind is never skipped: the buffer keeps no record of the
    bound pipeline, so every one of n binds of the same pipeline in a row
    records its command and takes one more reference to the pipeline, which
    the buffer holds until it is reset. *)
Theorem repeated_bindPipeline_binds_every_time {k} gpu pipeline n (w : World k) :
  fIsActive (self w) = true ->
  repeatM n (bindPipeline gpu pipeline) w =
  Ok (tt, {| self := trackAll (repeat (pl_this pipeline) n) (self w);
             sems := sems w;
             calls := calls w ++ concat (repeat (bindPipelineCalls pipeline (self w)) n) |}).
Proof.
  revert w. induction n as [|n IH]; intros w Ha; cbn [repeatM repeat concat].
  - unfold ret, trackAll. cbn [fold_left]. now rewrite app_nil_r, World_eta.
  - unfold bind. rewrite (bindPipeline_eq gpu pipeline w Ha).
    rewrite IH by exact Ha. cbn [self sems calls trackAll fold_left].
    rewrite <- app_assoc. reflexivity.
Qed.

(** ** A recording, from reset to end *)

Lemma runPrimaryOps_cons gpu op ops (w w1 : World Primary) :
  runPrimaryOp gpu op w = Ok (tt, w1) ->
  runPrimaryOps gpu (op :: ops) w = runPrimaryOps gpu ops w1.
Proof. intros H. unfold runPrimaryOps. cbn [forEach]. unfold bind. now rewrite H. Qed.


Lemma Primary_begin_progress gpu (w : World Primary) :
  deviceSucceeds gpu -> fIsActive (self w) = false ->
  exists w', Primary_begin gpu w = Ok (tt, w') /\
             self w' = set_fIsActive true (self w).
Proof.
  intros Hd Ha. unfold Primary_begin, GR_VK_CALL_ERRCHECK, bind, getSelf, SkASSERT,
    GR_VK_CALL, modifySelf. rewrite Ha. cbn [negb self sems calls]. rewrite Hd.
  eexists. split; reflexivity.
Qed.

Lemma beginRenderPass_progress gpu renderPass clearValues target bounds forSecondaryCB
    (w : World Primary) :
  fIsActive (self w) = true -> fActiveRenderPass (self w) = None ->
  isCompatibleTarget renderPass target = true ->
  exists w', beginRenderPass gpu renderPass clearValues target bounds forSecondaryCB w =
             Ok (tt, w') /\
             recordingState (self w') =
             {| rs_isActive := true; rs_activeRenderPass := Some renderPass;
                rs_cmdBuffer := fCmdBuffer (self w) |}.
Proof.
  intros Ha Hp Hc. unfold beginRenderPass, bind, getSelf, SkASSERT.
  rewrite Ha. cbv beta iota. rewrite Hp. cbn [negb nonNull]. rewrite Hc.
  cbv beta iota zeta. unfold GR_VK_CALL, modifySelf.
  rewrite addResource_eq, forEach_addResource.
  eexists. split; [reflexivity|].
  cbn [self]. rewrite recordingState_trackAll. unfold recordingState. cbn. now rewrite Ha.
Qed.

Lemma endRenderPass_progress gpu (w : World Primary) :
  fIsActive (self w) = true -> nonNull (fActiveRenderPass (self w)) = true ->
  exists w', endRenderPass gpu w = Ok (tt, w') /\
             self w' = set_fActiveRenderPass None (self w).
Proof.
  intros Ha Hp. unfold endRenderPass, bind, getSelf, SkASSERT, GR_VK_CALL, modifySelf.
  rewrite Ha. cbv beta iota. rewrite Hp. eexists. split; reflexivity.
Qed.

Lemma Primary_end_progress gpu (w : World Primary) :
  deviceSucceeds gpu ->
  fIsActive (self w) = true -> fActiveRenderPass (self w) = None ->
  exists w', Primary_end gpu w = Ok (tt, w') /\
             fIsActive (self w') = false /\ fActiveRenderPass (self w') = None.
Proof.
  intros Hd Ha Hp. unfold Primary_end, GR_VK_CALL_ERRCHECK.
  unfold bind at 1, getSelf at 1. unfold bind at 1, SkASSERT at 1. rewrite Ha.
  unfold bind at 1, SkASSERT at 1. rewrite Hp. cbn [negb nonNull].
  unfold bind at 1. unfold bind at 1, GR_VK_CALL at 1, SkASSERT at 1. rewrite Hd.
  unfold bind. rewrite invalidateState_eq. unfold modifySelf. cbn [self sems calls].
  eexists. split; [reflexivity|]. cbn. now split.
Qed.

Lemma recordsInsidePass_progress gpu op (w : World Primary) :
  recordsInsidePass op = true ->
  fIsActive (self w) = true -> nonNull (fActiveRenderPass (self w)) = true ->
  exists w', runBaseOp gpu op w = Ok (tt, w').
Proof.
  intros Hop Ha Hp.
  destruct op; try discriminate; cbn [runBaseOp].
  - rewrite (bindPipeline_eq gpu pipeline w Ha). now eexists.
  - unfold drawIndexed, bind, getSelf, SkASSERT, GR_VK_CALL, ret.
    rewrite Ha. cbv beta iota. rewrite Hp. now eexists.
  - unfold draw, bind, getSelf, SkASSERT, GR_VK_CALL, ret.
    rewrite Ha. cbv beta iota. rewrite Hp. now eexists.
  - destruct (differsFromCache (DynBlendConstants blendConstants) (self w)) eqn:E.
    + pose proof (setDynamicState_emit gpu (DynBlendConstants blendConstants) w Ha E)
        as H. cbn [setDynamicState] in H. rewrite H. now eexists.
    + pose proof (setDynamicState_skip gpu (DynBlendConstants blendConstants) w Ha E)
        as H. cbn [setDynamicState] in H. rewrite H. now eexists.
Qed.

Lemma inside_progress gpu inside rest : forall (w : World Primary),
  Forall (fun op => recordsInsidePass op = true) inside ->
  fIsActive (self w) = true -> nonNull (fActiveRenderPass (self w)) = true ->
  exists w1, runPrimaryOps gpu (List.map PBase inside ++ rest) w =
             runPrimaryOps gpu rest w1 /\
             fIsActive (self w1) = true /\
             nonNull (fActiveRenderPass (self w1)) = true.
Proof.
  induction inside as [|op inside IH]; intros w Hin Ha Hp; cbn [List.map app].
  - now exists w.
  - inversion Hin as [|? ? Hop Hrest]; subst.
    destruct (recordsInsidePass_progress gpu op w Hop Ha Hp) as [w1 H1].
    pose proof (same_recording_runBaseOp gpu op _ _ _ H1) as S.
    unfold sameAt, recordingState in S. injection S as Sa Sp _.
    rewrite (runPrimaryOps_cons gpu (PBase op) _ w w1 H1).
    apply IH; [exact Hrest|congruence|congruence].
Qed.

(** X20: a well-formed recording goes through.  On a device that answers
    every call with success, a buffer that is not recording and has no render
    pass open can be reset, begun, taken into a render pass that is
    compatible with its target, made to record any number of draws, pipeline
    binds and blend constants, taken out of the render pass and ended: no
    assertion fails on the way, and the buffer is idle again at the end. *)
Theorem well_formed_recording_succeeds gpu renderPass clearValues target bounds inside
    (w : World Primary) :
  deviceSucceeds gpu ->
  fIsActive (self w) = false ->
  fActiveRenderPass (self w) = None ->
  fNumResets (self w) < INT_MAX ->
  isCompatibleTarget renderPass target = true ->
  Forall (fun op => recordsInsidePass op = true) inside ->
  exists w',
    runPrimaryOps gpu (recordingOf renderPass clearValues target bounds inside) w =
    Ok (tt, w') /\
    fIsActive (self w') = false /\ fActiveRenderPass (self w') = None.
Proof.
  intros Hd Ha Hp Hmax Hc Hin. unfold recordingOf. cbn [app].
  destruct (reset_progress gpu w Ha Hmax) as [w1 H1].
  pose proof (same_recording_runBaseOp gpu BReset _ _ _ H1) as S1.
  unfold sameAt, recordingState in S1. injection S1 as Sa Sp _.
  rewrite (runPrimaryOps_cons gpu (PBase BReset) _ w w1 H1).
  destruct (Primary_begin_progress gpu w1 Hd) as (w2 & H2 & E2); [congruence|].
  rewrite (runPrimaryOps_cons gpu PBegin _ w1 w2 H2).
  destruct (beginRenderPass_progress gpu renderPass clearValues target bounds false w2)
    as (w3 & H3 & E3); [now rewrite E2|rewrite E2; cbn; congruence|exact Hc|].
  rewrite (runPrimaryOps_cons gpu (PBeginRenderPass _ _ _ _ _) _ w2 w3 H3).
  unfold recordingState in E3. injection E3 as E3a E3p _.
  destruct (inside_progress gpu inside [PEndRenderPass; PEnd] w3 Hin)
    as (w4 & H4 & A4 & P4); [exact E3a|now rewrite E3p|].
  rewrite H4.
  destruct (endRenderPass_progress gpu w4 A4 P4) as (w5 & H5 & E5).
  rewrite (runPrimaryOps_cons gpu PEndRenderPass _ w4 w5 H5).
  destruct (Primary_end_progress gpu w5 Hd) as (w6 & H6 & A6 & P6);
    [rewrite E5; exact A4|now rewrite E5|].
  rewrite (runPrimaryOps_cons gpu PEnd _ w5 w6 H6).
  exists w6. unfold runPrimaryOps. cbn [forEach]. now repeat split.
Qed.

End Properties.

#[export] Existing Instance sampleExternals.

(** * The sample configuration at work *)

(** The encodings of the sample values. *)
Example float_neg_one_bytes : bytes_of_word32 float_neg_one = [x00; x00; x80; xbf].
Proof. reflexivity. Qed.

Example float_640_bytes :
  bytes_of_word32 (float_bits false 136 2097152) = [x00; x00; x20; x44].
Proof. reflexivity. Qed.

Example recordingPrimary_is_active : fIsActive (self recordingPrimary) = true.
Proof. reflexivity. Qed.

Example inRenderPass_is_open :
  fActiveRenderPass (self inRenderPass) = Some sampleRenderPass.
Proof. reflexivity. Qed.

Example submittedPrimary_holds_a_fence :
  fSubmitFence (primary (self submittedPrimary)) = 100.
Proof. reflexivity. Qed.

(** ** The theorems at work *)

Lemma submitToQueue_submits_filtered_marks_all_witness :
  let w := idlePrimary in
  let w' := after (submitToQueue sampleGpu 5 kSkip_SyncQueue [21; 22] [23; 24]) w in
  submitToQueue sampleGpu 5 kSkip_SyncQueue [21; 22] [23; 24] w = Ok (tt, w') /\
  exists before after info fence,
    emitted w w' = before ++ QueueSubmit 5 1 info fence :: after /\
    queueSubmits before = [] /\ queueSubmits after = [] /\
    pSignalSemaphores info =
      List.map (semaphore (sems w)) (List.filter (shouldSignal (sems w)) [21; 22]) /\
    signalSemaphoreCount info =
      Z.of_nat (length (List.filter (shouldSignal (sems w)) [21; 22])) /\
    pWaitSemaphores info =
      List.map (semaphore (sems w)) (List.filter (shouldWait (sems w)) [23; 24]) /\
    waitSemaphoreCount info =
      Z.of_nat (length (List.filter (shouldWait (sems w)) [23; 24])) /\
    acquired before =
      List.filter (shouldSignal (sems w)) [21; 22] ++
      List.filter (shouldWait (sems w)) [23; 24] /\
    acquired after = [] /\
    items (fTrackedResources (self w')) =
      items (fTrackedResources (self w)) ++
      List.filter (shouldSignal (sems w)) [21; 22] ++
      List.filter (shouldWait (sems w)) [23; 24] /\
    fTrackedRecycledResources (self w') = fTrackedRecycledResources (self w) /\
    marksSignaled before = [] /\ marksWaited before = [] /\
    marksSignaled after = [21; 22] /\ marksWaited after = [23; 24] /\
    sems w' = markAll markAsWaited [23; 24] (markAll markAsSignaled [21; 22] (sems w)).
Proof.
  cbv zeta.
  assert (H : submitToQueue sampleGpu 5 kSkip_SyncQueue [21; 22] [23; 24] idlePrimary =
              Ok (tt, after (submitToQueue sampleGpu 5 kSkip_SyncQueue [21; 22] [23; 24])
                            idlePrimary))
    by (vm_compute; reflexivity).
  split; [exact H|].
  exact (submitToQueue_submits_filtered_marks_all
           sampleGpu 5 kSkip_SyncQueue [21; 22] [23; 24] idlePrimary _ H).
Defined.

Lemma repeated_bind_tracks_only_when_it_binds_witness :
  let b := BindInput 0 sampleVertexBuffer in
  let w := recordingPrimary in
  bindingArgumentsOk b = true /\
  cachedBinding b (self w) = Some VK_NULL_HANDLE /\
  exists w',
    repeatM 2 (bindBuffer sampleGpu b) w = Ok (tt, w') /\
    emitted w w' =
      (if buf_buffer (boundBuffer b) =? VK_NULL_HANDLE then []
       else [bindCommand b (self w); ResourceRef (buf_resource (boundBuffer b))]) /\
    items (fTrackedResources (self w')) =
      items (fTrackedResources (self w)) ++
      (if buf_buffer (boundBuffer b) =? VK_NULL_HANDLE then []
       else [buf_resource (boundBuffer b)]) /\
    cachedBinding b (self w') = Some (buf_buffer (boundBuffer b)).
Proof.
  cbv zeta.
  assert (H1 : bindingArgumentsOk (BindInput 0 sampleVertexBuffer) = true)
    by (vm_compute; reflexivity).
  assert (H2 : cachedBinding (BindInput 0 sampleVertexBuffer) (self recordingPrimary) =
               Some VK_NULL_HANDLE)
    by (vm_compute; reflexivity).
  split; [exact H1|]. split; [exact H2|].
  exact (repeated_bind_tracks_only_when_it_binds
           sampleGpu (BindInput 0 sampleVertexBuffer) VK_NULL_HANDLE 1
           recordingPrimary H1 H2).
Defined.

Lemma submitToQueue_fence_lifecycle_witness :
  let w := submittedPrimary in
  let w' := after (submitToQueue sampleGpu 5 kForce_SyncQueue [] []) w in
  submitToQueue sampleGpu 5 kForce_SyncQueue [] [] w = Ok (tt, w') /\
  (fSubmitFence (primary (self w)) = VK_NULL_HANDLE ->
     fencesCreated (emitted w w') = [device sampleGpu] /\
     fencesReset (emitted w w') = []) /\
  (fSubmitFence (primary (self w)) <> VK_NULL_HANDLE ->
     fencesCreated (emitted w w') = [] /\
     fencesReset (emitted w w') = [fSubmitFence (primary (self w))] /\
     fenceOfSubmission sampleGpu w = fSubmitFence (primary (self w))) /\
  List.map snd (queueSubmits (emitted w w')) = [fenceOfSubmission sampleGpu w] /\
  fSubmitFence (primary (self w')) = VK_NULL_HANDLE /\
  fencesWaited (emitted w w') = [fenceOfSubmission sampleGpu w] /\
  fencesDestroyed (emitted w w') = [fenceOfSubmission sampleGpu w] /\
  exists submission,
    emitted w w' =
      (if VK_NULL_HANDLE =? fSubmitFence (primary (self w))
       then [CreateFence (device sampleGpu)]
       else [ResetFences (device sampleGpu) 1 (fSubmitFence (primary (self w)))]) ++
      submission ++
      [WaitForFences (device sampleGpu) 1 (fenceOfSubmission sampleGpu w) true UINT64_MAX;
       DestroyFence (device sampleGpu) (fenceOfSubmission sampleGpu w)] /\
    List.map snd (queueSubmits submission) = [fenceOfSubmission sampleGpu w] /\
    fencesCreated submission = [] /\ fencesReset submission = [] /\
    fencesWaited submission = [] /\ fencesDestroyed submission = [].
Proof.
  cbv zeta.
  assert (H : submitToQueue sampleGpu 5 kForce_SyncQueue [] [] submittedPrimary =
              Ok (tt, after (submitToQueue sampleGpu 5 kForce_SyncQueue [] [])
                            submittedPrimary))
    by (vm_compute; reflexivity).
  split; [exact H|].
  exact (submitToQueue_fence_lifecycle
           sampleGpu 5 kForce_SyncQueue [] [] submittedPrimary _ H).
Defined.

Lemma reset_K_plus_one_times_witness :
  let w := idlePrimary in
  0 <= kNumRewindResetsBeforeFullReset < INT_MAX /\
  fIsActive (self w) = false /\
  fNumResets (self w) = 0 /\
  exists wK w',
    repeatM (Z.to_nat kNumRewindResetsBeforeFullReset) (reset sampleGpu) w = Ok (tt, wK) /\
    storageCalls (emitted w wK) =
      concat (repeat rewindCalls (Z.to_nat kNumRewindResetsBeforeFullReset)) /\
    reserves (self wK) = reserves (self w) /\
    repeatM (Z.to_nat (kNumRewindResetsBeforeFullReset + 1)) (reset sampleGpu) w =
      Ok (tt, w') /\
    storageCalls (emitted w w') =
      concat (repeat rewindCalls (Z.to_nat kNumRewindResetsBeforeFullReset)) ++
      fullResetCalls /\
    fNumResets (self w') = 0.
Proof.
  cbv zeta.
  assert (H1 : 0 <= kNumRewindResetsBeforeFullReset < INT_MAX)
    by (vm_compute; split; [discriminate|reflexivity]).
  assert (H2 : fIsActive (self idlePrimary) = false) by reflexivity.
  assert (H3 : fNumResets (self idlePrimary) = 0) by reflexivity.
  split; [exact H1|]. split; [exact H2|]. split; [exact H3|].
  exact (reset_K_plus_one_times sampleGpu idlePrimary H1 H2 H3).
Defined.

Lemma repeated_set_emits_at_most_once_witness :
  let d := DynViewport 0 sampleViewport in
  let w := recordingPrimary in
  fIsActive (self w) = true /\
  exists w',
    repeatM 3 (setDynamicState sampleGpu d) w = Ok (tt, w') /\
    emitted w w' =
      (if differsFromCache d (self w) then [dynamicStateCommand d (self w)] else []) /\
    isCached d (self w').
Proof.
  cbv zeta.
  assert (H : fIsActive (self recordingPrimary) = true) by (vm_compute; reflexivity).
  split; [exact H|].
  exact (repeated_set_emits_at_most_once
           sampleGpu (DynViewport 0 sampleViewport) 2 recordingPrimary H).
Defined.

Lemma cached_state_invalidated_at_three_points_witness :
  let w := boundPrimary in
  fIsActive (self w) = true /\
  fIsActive (sec_object sampleSecondary) = false /\
  fActiveRenderPass (self w) = Some sampleRenderPass /\
  fActiveRenderPass (sec_object sampleSecondary) = Some sampleRenderPass /\
  isCompatiblePass sampleRenderPass sampleRenderPass = true /\
  cachedState (self w) <> unsetState (cachedState (self w)) /\
  exists w', executeCommands sampleGpu sampleSecondary w = Ok (tt, w') /\
             cachedState (self w') = unsetState (cachedState (self w)).
Proof.
  cbv zeta.
  assert (H1 : fIsActive (self boundPrimary) = true) by (vm_compute; reflexivity).
  assert (H2 : fIsActive (sec_object sampleSecondary) = false) by reflexivity.
  assert (H3 : fActiveRenderPass (self boundPrimary) = Some sampleRenderPass)
    by (vm_compute; reflexivity).
  assert (H4 : fActiveRenderPass (sec_object sampleSecondary) = Some sampleRenderPass)
    by reflexivity.
  assert (H5 : isCompatiblePass sampleRenderPass sampleRenderPass = true)
    by (vm_compute; reflexivity).
  split; [exact H1|]. split; [exact H2|]. split; [exact H3|]. split; [exact H4|].
  split; [exact H5|]. split; [vm_compute; discriminate|].
  exact (proj1 (proj2 (proj2 (cached_state_invalidated_at_three_points sampleGpu)))
               sampleSecondary boundPrimary sampleRenderPass sampleRenderPass
               H1 H2 H3 H4 H5).
Defined.

Lemma finished_cases_witness :
  finished sampleGpu idlePrimary = Ok (true, idlePrimary) /\
  (exists w', finished readyGpu submittedPrimary = Ok (true, w')) /\
  (exists w', finished sampleGpu submittedPrimary = Ok (false, w')) /\
  finished lostGpu submittedPrimary = Aborted "failing".
Proof.
  split; [|split; [|split]].
  - apply (proj1 (finished_cases sampleGpu idlePrimary)). reflexivity.
  - eexists.
    apply (proj1 (proj2 (finished_cases readyGpu submittedPrimary)));
      vm_compute; [discriminate|reflexivity].
  - eexists.
    apply (proj1 (proj2 (proj2 (finished_cases sampleGpu submittedPrimary))));
      vm_compute; [discriminate|reflexivity].
  - apply (proj2 (proj2 (proj2 (finished_cases lostGpu submittedPrimary))));
      vm_compute; discriminate.
Defined.

Lemma beginRenderPass_clearValueCount_witness :
  let w := recordingPrimary in
  fIsActive (self w) = true /\
  fActiveRenderPass (self w) = None /\
  isCompatibleTarget sampleRenderPass sampleTarget = true /\
  exists w' n,
    beginRenderPass sampleGpu sampleRenderPass 0 sampleTarget sampleBounds false w =
      Ok (tt, w') /\
    advertisedClearValueCounts (emitted w w') = [n] /\
    (forall i, stencilAttachmentIndex sampleRenderPass = Some i ->
               clearValueCount sampleRenderPass <> 0 -> n = 2) /\
    (forall i, stencilAttachmentIndex sampleRenderPass = Some i ->
               clearValueCount sampleRenderPass = 0 -> n = 0) /\
    (stencilAttachmentIndex sampleRenderPass = None ->
     n = clearValueCount sampleRenderPass).
Proof.
  cbv zeta.
  assert (H1 : fIsActive (self recordingPrimary) = true) by (vm_compute; reflexivity).
  assert (H2 : fActiveRenderPass (self recordingPrimary) = None)
    by (vm_compute; reflexivity).
  assert (H3 : isCompatibleTarget sampleRenderPass sampleTarget = true) by reflexivity.
  split; [exact H1|]. split; [exact H2|]. split; [exact H3|].
  exact (beginRenderPass_clearValueCount sampleGpu sampleRenderPass 0 sampleTarget
           sampleBounds false recordingPrimary H1 H2 H3).
Defined.

Lemma outside_pass_ops_reject_open_render_pass_witness :
  let op := OpUpdateBuffer sampleVertexBuffer 0 16 0 in
  runOutsidePassOp sampleGpu op idlePrimary = AssertFailed "fIsActive" /\
  runOutsidePassOp sampleGpu op inRenderPass = AssertFailed "!fActiveRenderPass" /\
  rejectedForState (runOutsidePassOp sampleGpu op recordingPrimary) = false.
Proof.
  cbv zeta. split; [|split].
  - apply (proj1 (outside_pass_ops_reject_open_render_pass sampleGpu _ idlePrimary)).
    reflexivity.
  - apply (proj1 (proj2 (outside_pass_ops_reject_open_render_pass sampleGpu _
                           inRenderPass)));
      vm_compute; [reflexivity|discriminate].
  - apply (proj2 (proj2 (outside_pass_ops_reject_open_render_pass sampleGpu _
                           recordingPrimary)));
      vm_compute; reflexivity.
Defined.

Lemma setBlendConstants_after_invalidate_is_skipped_witness :
  let w := recordingPrimary in
  fIsActive (self w) = true /\
  exists w1,
    invalidateState w = Ok (tt, w1) /\
    setBlendConstants sampleGpu
      {| fc0 := float_neg_one; fc1 := float_neg_one;
         fc2 := float_neg_one; fc3 := float_neg_one |} w1 = Ok (tt, w1) /\
    emitted w w1 = [].
Proof.
  cbv zeta.
  assert (H : fIsActive (self recordingPrimary) = true) by (vm_compute; reflexivity).
  split; [exact H|].
  exact (setBlendConstants_after_invalidate_is_skipped sampleGpu recordingPrimary H).
Defined.

(** ** Where the claims as stated fail *)

(** C1 as stated: semaphore 22 does not pass the shouldSignal filter and
    semaphore 24 does not pass the shouldWait filter; neither is submitted,
    and both are marked after the submission. *)
Lemma submitToQueue_marks_semaphores_it_did_not_submit :
  let w := idlePrimary in
  let w' := after (submitToQueue sampleGpu 5 kSkip_SyncQueue [21; 22] [23; 24]) w in
  submitToQueue sampleGpu 5 kSkip_SyncQueue [21; 22] [23; 24] w = Ok (tt, w') /\
  List.filter (shouldSignal (sems w)) [21; 22] = [21] /\
  List.filter (shouldWait (sems w)) [23; 24] = [23] /\
  List.map (fun q => pSignalSemaphores (fst q)) (queueSubmits (emitted w w')) = [[1021]] /\
  List.map (fun q => pWaitSemaphores (fst q)) (queueSubmits (emitted w w')) = [[1023]] /\
  marksSignaled (emitted w w') = [21; 22] /\
  marksWaited (emitted w w') = [23; 24] /\
  marksSignaled (emitted w w') <> List.filter (shouldSignal (sems w)) [21; 22] /\
  marksWaited (emitted w w') <> List.filter (shouldWait (sems w)) [23; 24].
Proof.
  cbv zeta.
  repeat match goal with |- _ /\ _ => split end;
    vm_compute; try reflexivity; discriminate.
Qed.

(** C2 as stated: the second bindInputBuffer (and the second bindIndexBuffer)
    with the same buffer skips the bind and appends nothing to the
    tracked-resource list. *)
Lemma skipped_bind_tracks_nothing :
  let w := recordingPrimary in
  let w1 := after (bindInputBuffer sampleGpu 0 sampleVertexBuffer) w in
  let w2 := after (bindInputBuffer sampleGpu 0 sampleVertexBuffer) w1 in
  let w3 := after (bindIndexBuffer sampleGpu sampleVertexBuffer) w2 in
  let w4 := after (bindIndexBuffer sampleGpu sampleVertexBuffer) w3 in
  bindInputBuffer sampleGpu 0 sampleVertexBuffer w = Ok (tt, w1) /\
  bindInputBuffer sampleGpu 0 sampleVertexBuffer w1 = Ok (tt, w2) /\
  bindIndexBuffer sampleGpu sampleVertexBuffer w2 = Ok (tt, w3) /\
  bindIndexBuffer sampleGpu sampleVertexBuffer w3 = Ok (tt, w4) /\
  items (fTrackedResources (self w)) = [] /\
  items (fTrackedResources (self w1)) = [60] /\
  items (fTrackedResources (self w2)) = [60] /\
  items (fTrackedResources (self w3)) = [60; 60] /\
  items (fTrackedResources (self w4)) = [60; 60] /\
  emitted w1 w2 = [] /\
  emitted w3 w4 = [].
Proof.
  cbv zeta.
  repeat match goal with |- _ /\ _ => split end; vm_compute; reflexivity.
Qed.

(** C3 as stated: after a submission with forced sync the next submission
    creates a second fence and resets none. *)
Lemma submit_after_forced_sync_creates_another_fence :
  let w := idlePrimary in
  let w1 := after (submitToQueue sampleGpu 5 kForce_SyncQueue [] []) w in
  let w2 := after (submitToQueue sampleGpu 5 kSkip_SyncQueue [] []) w1 in
  submitToQueue sampleGpu 5 kForce_SyncQueue [] [] w = Ok (tt, w1) /\
  submitToQueue sampleGpu 5 kSkip_SyncQueue [] [] w1 = Ok (tt, w2) /\
  fSubmitFence (primary (self w1)) = VK_NULL_HANDLE /\
  fencesCreated (emitted w w2) = [1; 1] /\
  fencesReset (emitted w w2) = [] /\
  List.map snd (queueSubmits (emitted w w2)) = [100; 104].
Proof.
  cbv zeta.
  repeat match goal with |- _ /\ _ => split end; vm_compute; reflexivity.
Qed.

(** C5 as stated: a run of three setViewport calls with a value that an
    earlier call has cached already emits the native command not once but
    never; so does, on a buffer that was reset and begun, a run of three
    setBlendConstants calls with the four components -1.0. *)
Lemma repeated_set_may_never_emit :
  let b := {| fc0 := float_neg_one; fc1 := float_neg_one;
              fc2 := float_neg_one; fc3 := float_neg_one |} in
  let w := recordingPrimary in
  let w1 := after (setViewport sampleGpu 0 1 sampleViewport) w in
  let w2 := after (setScissor sampleGpu 0 1 sampleScissor) w1 in
  let w3 := after (repeatM 3 (setViewport sampleGpu 0 1 sampleViewport)) w2 in
  let w' := after (repeatM 3 (setBlendConstants sampleGpu b)) w in
  fIsActive (self w) = true /\
  setViewport sampleGpu 0 1 sampleViewport w = Ok (tt, w1) /\
  setScissor sampleGpu 0 1 sampleScissor w1 = Ok (tt, w2) /\
  repeatM 3 (setViewport sampleGpu 0 1 sampleViewport) w2 = Ok (tt, w3) /\
  emitted w2 w3 = [] /\
  repeatM 3 (setBlendConstants sampleGpu b) w = Ok (tt, w') /\
  emitted w w' = [] /\
  length (emitted w2 w3) <> 1%nat /\
  length (emitted w w') <> 1%nat.
Proof.
  cbv zeta.
  repeat match goal with |- _ /\ _ => split end;
    vm_compute; try reflexivity; discriminate.
Qed.

(** In the sample semaphores a mark on a marked semaphore changes nothing:
    what C1 as stated misses is the call, not a change of the flags. *)
Lemma mark_of_a_marked_semaphore (s p : ptr) (st : ptr -> SemaphoreResource) :
  (fHasBeenSubmittedToQueueForSignal (st s) = true ->
     flag_markAsSignaled s st p = st p) /\
  (fHasBeenSubmittedToQueueForWait (st s) = true ->
     flag_markAsWaited s st p = st p).
Proof.
  unfold flag_markAsSignaled, flag_markAsWaited.
  split; intros H; destruct (Z.eqb_spec p s) as [->|]; try reflexivity;
    destruct (st s); cbn in *; now subst.
Qed.

(** ** The further properties at work *)

Lemma references_are_accounted_for_witness :
  let w := idlePrimary in
  let w' := after (runPrimaryOps sampleGpu sampleExecuting) w in
  Forall (fun op => releasesWithoutClearing op = false) sampleExecuting /\
  runPrimaryOps sampleGpu sampleExecuting w = Ok (tt, w') /\
  acquired (emitted w w') = [70; 81; 82] /\
  secondariesTaken (emitted w w') = [90] /\
  (forall r,
     (occurrences r (held (self w)) + occurrences r (acquired (emitted w w')) =
      occurrences r (released (emitted w w')) + occurrences r (held (self w')))%nat) /\
  fSecondaryCommandBuffers (primary (self w)) ++ secondariesTaken (emitted w w') =
  secondariesReturned (emitted w w') ++ fSecondaryCommandBuffers (primary (self w')).
Proof.
  cbv zeta.
  assert (F : Forall (fun op => releasesWithoutClearing op = false) sampleExecuting)
    by (repeat constructor).
  assert (H : runPrimaryOps sampleGpu sampleExecuting idlePrimary =
              Ok (tt, after (runPrimaryOps sampleGpu sampleExecuting) idlePrimary))
    by (vm_compute; reflexivity).
  split; [exact F|]. split; [exact H|].
  split; [vm_compute; reflexivity|]. split; [vm_compute; reflexivity|].
  exact (references_are_accounted_for sampleGpu sampleExecuting idlePrimary _ F H).
Defined.

Lemma reset_releases_what_was_acquired_witness :
  let w := idlePrimary in
  let w' := after (runPrimaryOps sampleGpu (sampleExecuting ++ [PBase BReset])) w in
  Forall (fun op => releasesWithoutClearing op = false) sampleExecuting /\
  held (self w) = [] /\
  runPrimaryOps sampleGpu (sampleExecuting ++ [PBase BReset]) w = Ok (tt, w') /\
  Permutation (acquired (emitted w w')) (released (emitted w w')) /\
  held (self w') = [] /\
  secondariesReturned (emitted w w') =
    fSecondaryCommandBuffers (primary (self w)) ++ secondariesTaken (emitted w w') /\
  fSecondaryCommandBuffers (primary (self w')) = [].
Proof.
  cbv zeta.
  assert (F : Forall (fun op => releasesWithoutClearing op = false) sampleExecuting)
    by (repeat constructor).
  assert (E : held (self idlePrimary) = []) by reflexivity.
  assert (H : runPrimaryOps sampleGpu (sampleExecuting ++ [PBase BReset]) idlePrimary =
              Ok (tt, after (runPrimaryOps sampleGpu (sampleExecuting ++ [PBase BReset]))
                            idlePrimary))
    by (vm_compute; reflexivity).
  split; [exact F|]. split; [exact E|]. split; [exact H|].
  exact (reset_releases_what_was_acquired sampleGpu sampleExecuting idlePrimary _ F E H).
Defined.

Lemma recording_state_transitions_witness :
  let w := recordingPrimary in
  let op := PBeginRenderPass sampleRenderPass 0 sampleTarget sampleBounds false in
  let w' := after (runPrimaryOp sampleGpu op) w in
  runPrimaryOp sampleGpu op w = Ok (tt, w') /\
  recordingState (self w') = recordingAfterPrimary op (recordingState (self w)).
Proof.
  cbv zeta.
  assert (H : runPrimaryOp sampleGpu
                (PBeginRenderPass sampleRenderPass 0 sampleTarget sampleBounds false)
                recordingPrimary =
              Ok (tt, after (runPrimaryOp sampleGpu
                               (PBeginRenderPass sampleRenderPass 0 sampleTarget
                                                 sampleBounds false))
                            recordingPrimary))
    by (vm_compute; reflexivity).
  split; [exact H|].
  exact (proj1 (recording_state_transitions sampleGpu) _ recordingPrimary _ H).
Defined.

Lemma secondary_buffers_are_returned_in_order_witness :
  let w := idlePrimary in
  let w' := after (runPrimaryOps sampleGpu sampleExecution) w in
  runPrimaryOps sampleGpu (sampleExecuting ++ [PBase BReset]) w = Ok (tt, w') /\
  secondariesTaken (emitted w w') = [90] /\
  secondariesReturned (emitted w w') =
    fSecondaryCommandBuffers (primary (self w)) ++ secondariesTaken (emitted w w') /\
  fSecondaryCommandBuffers (primary (self w')) = [].
Proof.
  cbv zeta.
  assert (H : runPrimaryOps sampleGpu (sampleExecuting ++ [PBase BReset]) idlePrimary =
              Ok (tt, after (runPrimaryOps sampleGpu sampleExecution) idlePrimary))
    by (vm_compute; reflexivity).
  split; [exact H|]. split; [vm_compute; reflexivity|].
  exact (proj2 (proj2 (secondary_buffers_are_returned_in_order sampleGpu))
               sampleExecuting idlePrimary _ H).
Defined.

Lemma reset_after_freeGPUData_releases_again_witness :
  let w := recordedPrimary in
  let w1 := after (freeGPUData sampleGpu) w in
  let w2 := after (reset sampleGpu) w1 in
  freeGPUData sampleGpu w = Ok (tt, w1) /\
  reset sampleGpu w1 = Ok (tt, w2) /\
  held (self w) = [70; 81; 82] /\
  released (emitted w w2) = held (self w) ++ held (self w) /\
  acquired (emitted w w2) = [] /\
  held (self w2) = [].
Proof.
  cbv zeta.
  assert (H1 : freeGPUData sampleGpu recordedPrimary =
               Ok (tt, after (freeGPUData sampleGpu) recordedPrimary))
    by (vm_compute; reflexivity).
  assert (H2 : reset sampleGpu (after (freeGPUData sampleGpu) recordedPrimary) =
               Ok (tt, after (reset sampleGpu)
                             (after (freeGPUData sampleGpu) recordedPrimary)))
    by (vm_compute; reflexivity).
  split; [exact H1|]. split; [exact H2|]. split; [vm_compute; reflexivity|].
  exact (reset_after_freeGPUData_releases_again sampleGpu recordedPrimary _ _ H1 H2).
Defined.

Lemma methods_check_the_recording_state_witness :
  let op := PBase (BDraw 3 1 0 0) in
  requiredRenderPassPrimary op = Some true /\
  fIsActive (self recordingPrimary) = true /\
  nonNull (fActiveRenderPass (self recordingPrimary)) = negb true /\
  runPrimaryOp sampleGpu op recordingPrimary = AssertFailed (renderPassAssertion true).
Proof.
  cbv zeta.
  assert (H1 : requiredRenderPassPrimary (PBase (BDraw 3 1 0 0)) = Some true)
    by reflexivity.
  assert (H2 : fIsActive (self recordingPrimary) = true) by (vm_compute; reflexivity).
  assert (H3 : nonNull (fActiveRenderPass (self recordingPrimary)) = negb true)
    by (vm_compute; reflexivity).
  split; [exact H1|]. split; [exact H2|]. split; [exact H3|].
  exact (proj1 (proj2 (proj2 (methods_check_the_recording_state sampleGpu)))
               (PBase (BDraw 3 1 0 0)) true recordingPrimary H1 H2 H3).
Defined.

Lemma copyBuffer_accepts_regions_in_bounds_witness :
  recordingOutsidePass (self recordingPrimary) &&
    regionsInBounds sampleSrcBuffer sampleDstBuffer 1 [sampleRegion] = true /\
  copyBuffer sampleGpu sampleSrcBuffer sampleDstBuffer 1 [sampleRegion] recordingPrimary =
  Ok (tt, {| self := track 62 (track 61 (self recordingPrimary));
             sems := sems recordingPrimary;
             calls := calls recordingPrimary ++
               [ResourceRef 61; ResourceRef 62;
                CmdCopyBuffer (fCmdBuffer (self recordingPrimary)) 51 52 1
                              [sampleRegion]] |}).
Proof.
  assert (H : recordingOutsidePass (self recordingPrimary) &&
                regionsInBounds sampleSrcBuffer sampleDstBuffer 1 [sampleRegion] = true)
    by (vm_compute; reflexivity).
  split; [exact H|].
  exact (proj1 (copyBuffer_accepts_regions_in_bounds sampleGpu sampleSrcBuffer
                  sampleDstBuffer 1 [sampleRegion] recordingPrimary) H).
Defined.

Lemma updateBuffer_accepts_aligned_small_updates_witness :
  recordingOutsidePass (self recordingPrimary) && updateInBounds 8 65540 = false /\
  forall r, updateBuffer sampleGpu sampleDstBuffer 8 65540 0 recordingPrimary <> Ok r.
Proof.
  assert (H : recordingOutsidePass (self recordingPrimary) && updateInBounds 8 65540 =
              false)
    by (vm_compute; reflexivity).
  split; [exact H|].
  exact (proj2 (updateBuffer_accepts_aligned_small_updates sampleGpu sampleDstBuffer
                  8 65540 0 recordingPrimary) H).
Defined.

Lemma forced_sync_is_submission_then_wait_witness :
  let w1 := after (submitToQueue sampleGpu 5 kSkip_SyncQueue [21] [23]) idlePrimary in
  submitToQueue sampleGpu 5 kSkip_SyncQueue [21] [23] idlePrimary = Ok (tt, w1) /\
  submitToQueue sampleGpu 5 kForce_SyncQueue [21] [23] idlePrimary =
  if VK_TIMEOUT =? waitResult sampleGpu w1 then Aborted "failing"
  else if waitResult sampleGpu w1 =? 0 then
    Ok (tt, {| self := set_fSubmitFence VK_NULL_HANDLE (self w1);
               sems := sems w1;
               calls := calls w1 ++
                 [waitForSubmitFence sampleGpu w1;
                  DestroyFence (device sampleGpu) (fSubmitFence (primary (self w1)))] |})
  else AssertFailed "!err".
Proof.
  cbv zeta.
  assert (H : submitToQueue sampleGpu 5 kSkip_SyncQueue [21] [23] idlePrimary =
              Ok (tt, after (submitToQueue sampleGpu 5 kSkip_SyncQueue [21] [23])
                            idlePrimary))
    by (vm_compute; reflexivity).
  split; [exact H|].
  exact (forced_sync_is_submission_then_wait sampleGpu 5 [21] [23] idlePrimary _ H).
Defined.

Lemma submitToQueue_holds_the_mutex_around_the_semaphores_witness :
  let w := idlePrimary in
  let w' := after (submitToQueue sampleGpu 5 kForce_SyncQueue [21; 22] [23; 24]) w in
  submitToQueue sampleGpu 5 kForce_SyncQueue [21; 22] [23; 24] w = Ok (tt, w') /\
  emitted w w' =
    [CreateFence 1] ++
    ([AcquireMutex] ++ [ResourceRef 21] ++ [ResourceRef 23] ++
     [QueueSubmit 5 1 (submitInfoOf (sems w) (fCmdBuffer (self w)) [21; 22] [23; 24])
                  100] ++
     [MarkAsSignaled 21; MarkAsSignaled 22] ++ [MarkAsWaited 23; MarkAsWaited 24] ++
     [ReleaseMutex]) ++
    [WaitForFences 1 1 100 true UINT64_MAX; DestroyFence 1 100] /\
  mutexCalls (emitted w w') = [AcquireMutex; ReleaseMutex] /\
  underMutex (emitted w w') =
    [ResourceRef 21; ResourceRef 23;
     QueueSubmit 5 1 (submitInfoOf (sems w) (fCmdBuffer (self w)) [21; 22] [23; 24]) 100;
     MarkAsSignaled 21; MarkAsSignaled 22; MarkAsWaited 23; MarkAsWaited 24] /\
  outsideMutex (emitted w w') =
    [CreateFence 1; WaitForFences 1 1 100 true UINT64_MAX; DestroyFence 1 100].
Proof.
  cbv zeta.
  assert (H : submitToQueue sampleGpu 5 kForce_SyncQueue [21; 22] [23; 24] idlePrimary =
              Ok (tt, after (submitToQueue sampleGpu 5 kForce_SyncQueue [21; 22] [23; 24])
                            idlePrimary))
    by (vm_compute; reflexivity).
  split; [exact H|].
  exact (submitToQueue_holds_the_mutex_around_the_semaphores
           sampleGpu 5 kForce_SyncQueue [21; 22] [23; 24] idlePrimary _ H).
Defined.

Lemma finished_after_submission_witness :
  let w := idlePrimary in
  let w' := after (submitToQueue sampleGpu 5 kForce_SyncQueue [21] []) w in
  submitToQueue sampleGpu 5 kForce_SyncQueue [21] [] w = Ok (tt, w') /\
  forall gpu', finished gpu' w' = Ok (true, w').
Proof.
  cbv zeta.
  assert (H : submitToQueue sampleGpu 5 kForce_SyncQueue [21] [] idlePrimary =
              Ok (tt, after (submitToQueue sampleGpu 5 kForce_SyncQueue [21] [])
                            idlePrimary))
    by (vm_compute; reflexivity).
  split; [exact H|].
  exact (finished_after_submission sampleGpu 5 kForce_SyncQueue [21] [] idlePrimary _ H).
Defined.

Lemma first_use_after_invalidation_is_recorded_witness :
  let w := recordingPrimary in
  let b := BindInput 1 sampleVertexBuffer in
  cachedState (self w) = unsetState (cachedState (self w)) /\
  bindingArgumentsOk b = true /\
  cachedBinding b (self w) = Some VK_NULL_HANDLE /\
  bindBuffer sampleGpu b w =
  Ok (tt, {| self := track (buf_resource (boundBuffer b)) (cacheBinding b (self w));
             sems := sems w;
             calls := calls w ++ [bindCommand b (self w);
                                  ResourceRef (buf_resource (boundBuffer b))] |}).
Proof.
  cbv zeta.
  assert (H1 : cachedState (self recordingPrimary) =
               unsetState (cachedState (self recordingPrimary)))
    by (vm_compute; reflexivity).
  assert (H2 : bindingArgumentsOk (BindInput 1 sampleVertexBuffer) = true)
    by (vm_compute; reflexivity).
  assert (H3 : cachedBinding (BindInput 1 sampleVertexBuffer) (self recordingPrimary) =
               Some VK_NULL_HANDLE)
    by (vm_compute; reflexivity).
  split; [exact H1|]. split; [exact H2|]. split; [exact H3|].
  exact (proj1 (first_use_after_invalidation_is_recorded sampleGpu recordingPrimary H1)
               (BindInput 1 sampleVertexBuffer) VK_NULL_HANDLE H2 H3).
Defined.

Lemma secondary_buffer_is_executed_after_its_end_witness :
  let ws := idleSecondary in
  let ws1 := after (Secondary_begin sampleGpu None (Some sampleRenderPass)) ws in
  let ws2 := after (Secondary_end sampleGpu) ws1 in
  Secondary_begin sampleGpu None (Some sampleRenderPass) ws = Ok (tt, ws1) /\
  Secondary_end sampleGpu ws1 = Ok (tt, ws2) /\
  fIsActive (self inRenderPass) = true /\
  fActiveRenderPass (self inRenderPass) = Some sampleRenderPass /\
  executeCommands sampleGpu {| sec_this := 90; sec_object := self ws2 |} inRenderPass =
  Ok (tt, {| self := invalidated
                       (set_fSecondaryCommandBuffers
                          (fSecondaryCommandBuffers (primary (self inRenderPass)) ++ [90])
                          (self inRenderPass));
             sems := sems inRenderPass;
             calls := calls inRenderPass ++
               [CmdExecuteCommands (fCmdBuffer (self inRenderPass)) 1
                                   (fCmdBuffer (self ws));
                SecondaryRef 90] |}).
Proof.
  cbv zeta.
  assert (H1 : Secondary_begin sampleGpu None (Some sampleRenderPass) idleSecondary =
               Ok (tt, after (Secondary_begin sampleGpu None (Some sampleRenderPass))
                             idleSecondary))
    by (vm_compute; reflexivity).
  assert (H2 : Secondary_end sampleGpu
                 (after (Secondary_begin sampleGpu None (Some sampleRenderPass))
                        idleSecondary) =
               Ok (tt, after (Secondary_end sampleGpu)
                         (after (Secondary_begin sampleGpu None (Some sampleRenderPass))
                                idleSecondary)))
    by (vm_compute; reflexivity).
  assert (H3 : fIsActive (self inRenderPass) = true) by (vm_compute; reflexivity).
  assert (H4 : fActiveRenderPass (self inRenderPass) = Some sampleRenderPass)
    by (vm_compute; reflexivity).
  split; [exact H1|]. split; [exact H2|]. split; [exact H3|]. split; [exact H4|].
  exact (proj1 (proj2 (secondary_buffer_is_executed_after_its_end
                         sampleGpu sampleGpu None sampleRenderPass 90
                         idleSecondary _ _ inRenderPass sampleRenderPass
                         H1 H2 H3 H4))).
Defined.

Lemma reset_counter_stays_in_range_witness :
  let w := idlePrimary in
  let w' := after (runPrimaryOps sampleGpu sampleExecution) w in
  runPrimaryOps sampleGpu sampleExecution w = Ok (tt, w') /\
  resetCounterInRange (self w) /\
  resetCounterInRange (self w').
Proof.
  cbv zeta.
  assert (H : runPrimaryOps sampleGpu sampleExecution idlePrimary =
              Ok (tt, after (runPrimaryOps sampleGpu sampleExecution) idlePrimary))
    by (vm_compute; reflexivity).
  assert (R : resetCounterInRange (self idlePrimary))
    by (unfold resetCounterInRange; simpl; lia).
  split; [exact H|]. split; [exact R|].
  exact (proj2 (proj2 (reset_counter_stays_in_range sampleGpu))
               sampleExecution idlePrimary _ H R).
Defined.

Lemma reset_returns_on_an_idle_buffer_witness :
  kNumRewindResetsBeforeFullReset < INT_MAX /\
  fIsActive (self recordedPrimary) = false /\
  resetCounterInRange (self recordedPrimary) /\
  exists w', reset sampleGpu recordedPrimary = Ok (tt, w').
Proof.
  assert (H1 : kNumRewindResetsBeforeFullReset < INT_MAX) by (vm_compute; reflexivity).
  assert (H2 : fIsActive (self recordedPrimary) = false) by (vm_compute; reflexivity).
  assert (H3 : resetCounterInRange (self recordedPrimary))
    by (unfold resetCounterInRange; split; vm_compute; discriminate).
  split; [exact H1|]. split; [exact H2|]. split; [exact H3|].
  exact (reset_returns_on_an_idle_buffer sampleGpu recordedPrimary H1 H2 H3).
Defined.

Lemma clearAttachments_accepts_matching_attachments_witness :
  let w := inRenderPass in
  fIsActive (self w) &&
    match fActiveRenderPass (self w) with
    | Some renderPass =>
        (1 >? 0) && (1 >? 0) && attachmentsMatch renderPass 1 [sampleClearAttachment]
    | None => false
    end = true /\
  clearAttachments sampleGpu 1 [sampleClearAttachment] 1 0 w =
  Ok (tt, {| self := self w; sems := sems w;
             calls := calls w ++
               [CmdClearAttachments (fCmdBuffer (self w)) 1 [sampleClearAttachment]
                                    1 0] |}).
Proof.
  cbv zeta.
  assert (H : fIsActive (self inRenderPass) &&
                match fActiveRenderPass (self inRenderPass) with
                | Some renderPass =>
                    (1 >? 0) && (1 >? 0) &&
                    attachmentsMatch renderPass 1 [sampleClearAttachment]
                | None => false
                end = true)
    by (vm_compute; reflexivity).
  split; [exact H|].
  exact (proj1 (clearAttachments_accepts_matching_attachments sampleGpu 1
                  [sampleClearAttachment] 1 0 inRenderPass) H).
Defined.

Lemma repeated_bindPipeline_binds_every_time_witness :
  fIsActive (self recordingPrimary) = true /\
  repeatM 3 (bindPipeline sampleGpu samplePipeline) recordingPrimary =
  Ok (tt, {| self := trackAll [40; 40; 40] (self recordingPrimary);
             sems := sems recordingPrimary;
             calls := calls recordingPrimary ++
               concat (repeat (bindPipelineCalls samplePipeline (self recordingPrimary))
                              3) |}).
Proof.
  assert (H : fIsActive (self recordingPrimary) = true) by (vm_compute; reflexivity).
  split; [exact H|].
  exact (repeated_bindPipeline_binds_every_time sampleGpu samplePipeline 3
           recordingPrimary H).
Defined.

Lemma well_formed_recording_succeeds_witness :
  let inside := [BBindPipeline samplePipeline; BDraw 3 1 0 0] in
  deviceSucceeds readyGpu /\
  fIsActive (self idlePrimary) = false /\
  fActiveRenderPass (self idlePrimary) = None /\
  fNumResets (self idlePrimary) < INT_MAX /\
  isCompatibleTarget sampleRenderPass sampleTarget = true /\
  Forall (fun op => recordsInsidePass op = true) inside /\
  exists w',
    runPrimaryOps readyGpu
      (recordingOf sampleRenderPass 0 sampleTarget sampleBounds inside) idlePrimary =
    Ok (tt, w') /\
    fIsActive (self w') = false /\ fActiveRenderPass (self w') = None.
Proof.
  cbv zeta.
  assert (H0 : deviceSucceeds readyGpu) by (intros history c; reflexivity).
  assert (H1 : fIsActive (self idlePrimary) = false) by reflexivity.
  assert (H2 : fActiveRenderPass (self idlePrimary) = None) by reflexivity.
  assert (H3 : fNumResets (self idlePrimary) < INT_MAX) by (vm_compute; reflexivity).
  assert (H4 : isCompatibleTarget sampleRenderPass sampleTarget = true) by reflexivity.
  assert (H5 : Forall (fun op => recordsInsidePass op = true)
                      [BBindPipeline samplePipeline; BDraw 3 1 0 0])
    by (repeat constructor).
  split; [exact H0|]. split; [exact H1|]. split; [exact H2|].
  split; [exact H3|]. split; [exact H4|]. split; [exact H5|].
  exact (well_formed_recording_succeeds readyGpu sampleRenderPass 0 sampleTarget
           sampleBounds _ idlePrimary H0 H1 H2 H3 H4 H5).
Defined.
